(** * Yulu bike-sharing case study: the cleaning pipeline and the report generator

    A shallow embedding of [src/data_processing.py] and [src/plots.py].

    The two scripts are written against pandas.  The part of pandas they call
    is modelled in [Module Pandas]: a table is an ordered association list of
    named columns, a column is a list of cells, and numbers are exact
    rationals or one of the two infinities (binary rounding is outside the
    model).  What pandas does with the text of a scalar (parsing a number,
    parsing a timestamp) is left as a parameter of the functions that need
    it. *)

From Stdlib Require Import List String Ascii ZArith QArith Qround Bool Lia.
Import ListNotations.

Set Implicit Arguments.

(** ** Python exceptions and fallible results *)

Module Py.

(** The exception classes the scripts can meet.  [NotModelled] is none of
    Python's: it stands for the outcome of a library call on an input where
    the libraries differ between versions (the quantile edges of a sample
    that holds an infinite value), so that nothing is said of a run that
    reaches such a call. *)
Inductive Exn : Type :=
| KeyError
| TypeError
| ValueError
| AttributeError
| FileNotFoundError
| OSError
| NotModelled.

Inductive result (A : Type) : Type :=
| Ok (a : A)
| Raise (e : Exn).

Arguments Ok {A} a.
Arguments Raise {A} e.

Definition bind {A B : Type} (r : result A) (k : A -> result B) : result B :=
  match r with
  | Ok a => k a
  | Raise e => Raise e
  end.

(** Truth value of an optional string argument: [None] and the empty
    string are both false. *)
Definition truthy (s : option string) : bool :=
  match s with
  | None => false
  | Some EmptyString => false
  | Some (String _ _) => true
  end.

Definition arg (s : option string) : string :=
  match s with
  | None => EmptyString
  | Some v => v
  end.

(** [str.isspace] on the ASCII range.  Python strings are Unicode; the
    three functions below are Python's on text of ASCII characters, and
    the properties whose conclusion names a cleaned header assume the
    headers to be such text. *)
Definition isspace (a : ascii) : bool :=
  let n := nat_of_ascii a in
  ((9 <=? n) && (n <=? 13) || (28 <=? n) && (n <=? 32))%nat.

Fixpoint lstrip (s : string) : string :=
  match s with
  | EmptyString => EmptyString
  | String a r => if isspace a then lstrip r else s
  end.

Fixpoint rstrip (s : string) : string :=
  match s with
  | EmptyString => EmptyString
  | String a r =>
      match rstrip r with
      | EmptyString => if isspace a then EmptyString else String a EmptyString
      | r' => String a r'
      end
  end.

Definition strip (s : string) : string := rstrip (lstrip s).

Definition lower_ascii (a : ascii) : ascii :=
  let n := nat_of_ascii a in
  if ((65 <=? n) && (n <=? 90))%nat then ascii_of_nat (n + 32) else a.

(** [str.lower] on ASCII letters; other bytes are kept. *)
Fixpoint lower (s : string) : string :=
  match s with
  | EmptyString => EmptyString
  | String a r => String (lower_ascii a) (lower r)
  end.

End Py.

Import Py.

Declare Scope py_scope.
Delimit Scope py_scope with py.
Notation "x <- c ;; k" := (Py.bind c (fun x => k))
  (at level 61, c at next level, right associativity) : py_scope.
Open Scope py_scope.

(** ** The part of pandas the two scripts call *)

Module Pandas.

(** A [Timestamp] in civil fields, as the [.dt] accessors read it. *)
Record Timestamp : Type := MkTimestamp {
  ts_year : Z; ts_month : Z; ts_day : Z;
  ts_hour : Z; ts_minute : Z; ts_second : Z; ts_nanosecond : Z
}.

(** A [datetime.date]. *)
Record Date : Type := MkDate { d_year : Z; d_month : Z; d_day : Z }.

(** One cell of a column.  [NaN] is the missing marker of numeric and
    object columns, [NaT] the one of datetime columns; [Inf] is one of the
    two infinite floats, which are numbers and not missing. *)
Inductive Cell : Type :=
| NaN
| NaT
| Num (q : Q)
| Inf (negative : bool)
| Str (s : string)
| Time (t : Timestamp)
| Day (d : Date).

Definition Series : Type := list Cell.

(** Columns in file order; names may repeat (two headers that differ only
    in case collide once they are lowercased). *)
Definition DataFrame : Type := list (string * Series).

(** *** Scalars *)

Definition isna (c : Cell) : bool :=
  match c with
  | NaN | NaT => true
  | _ => false
  end.

Definition timestamp_eqb (a b : Timestamp) : bool :=
  (ts_year a =? ts_year b)%Z && (ts_month a =? ts_month b)%Z
  && (ts_day a =? ts_day b)%Z && (ts_hour a =? ts_hour b)%Z
  && (ts_minute a =? ts_minute b)%Z && (ts_second a =? ts_second b)%Z
  && (ts_nanosecond a =? ts_nanosecond b)%Z.

Definition date_eqb (a b : Date) : bool :=
  (d_year a =? d_year b)%Z && (d_month a =? d_month b)%Z
  && (d_day a =? d_day b)%Z.

(** Equality of two cells as [duplicated] sees it: missing values of one
    column compare equal. *)
Definition cell_eqb (a b : Cell) : bool :=
  match a, b with
  | NaN, NaN => true
  | NaT, NaT => true
  | Num x, Num y => Qeq_bool x y
  | Inf x, Inf y => Bool.eqb x y
  | Str x, Str y => String.eqb x y
  | Time x, Time y => timestamp_eqb x y
  | Day x, Day y => date_eqb x y
  | _, _ => false
  end.

(** Days since 1970-01-01 of a civil date (proleptic Gregorian). *)
Definition days_from_civil (y m d : Z) : Z :=
  let y' := if (m <=? 2)%Z then (y - 1)%Z else y in
  let era := (y' / 400)%Z in
  let yoe := (y' - era * 400)%Z in
  let mp := if (m >? 2)%Z then (m - 3)%Z else (m + 9)%Z in
  let doy := ((153 * mp + 2) / 5 + d - 1)%Z in
  let doe := (yoe * 365 + yoe / 4 - yoe / 100 + doy)%Z in
  (era * 146097 + doe - 719468)%Z.

(** [Timestamp.weekday()]: Monday is 0. *)
Definition weekday (t : Timestamp) : Z :=
  ((days_from_civil (ts_year t) (ts_month t) (ts_day t) + 3) mod 7)%Z.

Definition day_names : list string :=
  ["Monday"; "Tuesday"; "Wednesday"; "Thursday"; "Friday"; "Saturday"; "Sunday"]%string.

Definition day_name (t : Timestamp) : string :=
  nth (Z.to_nat (weekday t)) day_names EmptyString.

Definition date_of (t : Timestamp) : Date :=
  MkDate (ts_year t) (ts_month t) (ts_day t).

(** *** Order statistics on exact numbers *)

Fixpoint insert_sorted (x : Q) (l : list Q) : list Q :=
  match l with
  | [] => [x]
  | y :: r => if Qle_bool x y then x :: l else y :: insert_sorted x r
  end.

Definition sort (l : list Q) : list Q := fold_right insert_sorted [] l.

(** Median of the values, [None] when there is none. *)
Definition median_of (l : list Q) : option Q :=
  let s := sort l in
  let n := List.length s in
  match n with
  | O => None
  | _ =>
      if Nat.even n
      then Some ((nth (n / 2 - 1) s 0 + nth (n / 2) s 0) / 2)
      else Some (nth (n / 2) s 0)
  end.

(** The quantile of rank [i / q] of a sorted sample, by linear
    interpolation between the two nearest order statistics. *)
Definition quantile (s : list Q) (i q : nat) : Q :=
  let pos := (i * (List.length s - 1))%nat in
  let lo := (pos / q)%nat in
  let r := (pos mod q)%nat in
  let a := nth lo s 0 in
  match r with
  | O => a
  | _ => a + (Z.of_nat r # Pos.of_nat q) * (nth (S lo) s 0 - a)
  end.

(** The [q + 1] bin edges of [qcut]; [None] stands for the edges of an
    empty sample, which are all NaN. *)
Definition quantile_edges (l : list Q) (q : nat) : option (list Q) :=
  match l with
  | [] => None
  | _ => let s := sort l in Some (map (fun i => quantile s i q) (seq 0 (S q)))
  end.

Fixpoint has_duplicates (l : list Q) : bool :=
  match l with
  | [] => false
  | x :: r => existsb (Qeq_bool x) r || has_duplicates r
  end.

(** [bins.searchsorted(x, side="left")]: how many edges lie strictly
    below [x]. *)
Definition searchsorted_left (bins : list Q) (x : Q) : nat :=
  List.length (filter (fun b => negb (Qle_bool x b)) bins).

(** *** Columns *)

(** The finite values of a numeric column; a string, timestamp or date
    in the column is a [TypeError]. *)
Fixpoint numeric_values (s : Series) : result (list Q) :=
  match s with
  | [] => Ok []
  | c :: r =>
      match c with
      | Num q => l <- numeric_values r ;; Ok (q :: l)
      | NaN | NaT | Inf _ => numeric_values r
      | _ => Raise TypeError
      end
  end.

Definition has_infinite (s : Series) : bool :=
  existsb (fun c => match c with Inf _ => true | _ => false end) s.

Definition count_infinite (negative : bool) (s : Series) : nat :=
  List.length
    (filter (fun c => match c with
                      | Inf b => Bool.eqb b negative
                      | _ => false
                      end) s).

(** The [i]-th smallest entry of a sample that has [lo] entries at minus
    infinity, then the finite values [fin] in order, then entries at plus
    infinity. *)
Definition order_statistic (lo : nat) (fin : list Q) (i : nat) : Cell :=
  if (i <? lo)%nat then Inf true
  else match nth_error fin (i - lo) with
       | Some x => Num x
       | None => Inf false
       end.

(** The mean of two numbers as floats: with one infinity it is that
    infinity, of the two opposite infinities it is NaN. *)
Definition mean_of_two (a b : Cell) : Cell :=
  match a, b with
  | Num x, Num y => Num ((x + y) / 2)
  | Inf x, Num _ => Inf x
  | Num _, Inf y => Inf y
  | Inf x, Inf y => if Bool.eqb x y then Inf x else NaN
  | _, _ => NaN
  end.

(** [Series.median()]: missing values are skipped, the median of nothing
    is NaN; infinite values take their place in the order. *)
Definition median (s : Series) : result Cell :=
  l <- numeric_values s ;;
  if has_infinite s then
    let lo := count_infinite true s in
    let fin := sort l in
    let n := (lo + List.length fin + count_infinite false s)%nat in
    Ok (if Nat.even n
        then mean_of_two (order_statistic lo fin (n / 2 - 1))
                         (order_statistic lo fin (n / 2))
        else order_statistic lo fin (n / 2))
  else Ok (match median_of l with Some m => Num m | None => NaN end).

Definition fillna (s : Series) (v : Cell) : Series :=
  map (fun c => if isna c then v else c) s.

(** [Series.replace(0, v)]. *)
Definition replace_zero (s : Series) (v : Cell) : Series :=
  map (fun c => match c with
                | Num q => if Qeq_bool q 0 then v else c
                | _ => c
                end) s.

(** [Series.map(d)] for a dict [d] with integer keys. *)
Definition dict_get (d : list (Z * string)) (c : Cell) : Cell :=
  match c with
  | Num q =>
      match find (fun kv => Qeq_bool q (inject_Z (fst kv))) d with
      | Some kv => Str (snd kv)
      | None => NaN
      end
  | _ => NaN
  end.

Definition map_dict (s : Series) (d : list (Z * string)) : Series :=
  map (dict_get d) s.

(** Truncation towards zero. *)
Definition truncate (q : Q) : Z :=
  if Qle_bool 0 q then Qfloor q else Qceiling q.

Definition int64_min : Z := (- 2 ^ 63)%Z.
Definition int64_max : Z := (2 ^ 63 - 1)%Z.

(** The cast of a finite float to a 64-bit integer: the truncated value
    when it fits, and the smallest 64-bit integer when it does not (what
    the conversion instruction of x86-64 returns). *)
Definition cast_int64 (q : Q) : Z :=
  let z := truncate q in
  if (int64_min <=? z)%Z && (z <=? int64_max)%Z then z else int64_min.

(** [astype(int)] on a float column, which is what the code applies it
    to: a missing or infinite entry is a [ValueError] (cannot convert
    non-finite values to integer).  The cast of a column of another dtype
    is left open. *)
Definition astype_int (s : Series) : result Series :=
  if existsb (fun c => match c with
                       | Str _ | Time _ | Day _ => true
                       | _ => false
                       end) s
  then Raise NotModelled
  else if forallb (fun c => match c with Num _ => true | _ => false end) s
  then Ok (map (fun c => match c with
                         | Num q => Num (inject_Z (cast_int64 q))
                         | _ => c
                         end) s)
  else Raise ValueError.

(** Element-wise [+] of two columns of one table. *)
Definition add_cell (a b : Cell) : result Cell :=
  match a, b with
  | Num x, Num y => Ok (Num (x + y))
  | Inf x, Num _ => Ok (Inf x)
  | Num _, Inf y => Ok (Inf y)
  | Inf x, Inf y => Ok (if Bool.eqb x y then Inf x else NaN)
  | Str x, Str y => Ok (Str (x ++ y)%string)
  | (NaN | NaT), _ => Ok NaN
  | _, (NaN | NaT) => Ok NaN
  | _, _ => Raise TypeError
  end.

Fixpoint add (a b : Series) : result Series :=
  match a, b with
  | x :: a', y :: b' =>
      c <- add_cell x y ;; r <- add a' b' ;; Ok (c :: r)
  | _, _ => Ok []
  end.

(** The label of the bin a value falls in, for edges [bins] closed on
    the right; [include_lowest] also admits the first edge itself.  An
    infinite value lies outside finite edges. *)
Definition bin_label (include_lowest : bool) (bins : list Q)
           (labels : list string) (c : Cell) : Cell :=
  match c with
  | Num x =>
      let ids :=
        if include_lowest && Qeq_bool x (hd 0 bins) then 1%nat
        else searchsorted_left bins x in
      if (ids =? 0)%nat || (ids =? List.length bins)%nat then NaN
      else Str (nth (ids - 1) labels EmptyString)
  | _ => NaN
  end.

(** [pd.qcut(s, q=q, labels=labels)] with the default
    [duplicates="raise"]: edges that are not all distinct are a
    [ValueError].  The edges of a sample with an infinite value are left
    open (interpolating towards an infinity gives an infinity or NaN,
    depending on the numpy at hand). *)
Definition qcut (s : Series) (q : nat) (labels : list string) : result Series :=
  xs <- numeric_values s ;;
  if has_infinite s then Raise NotModelled else
  match quantile_edges xs q with
  | None => Raise ValueError
  | Some bins =>
      if has_duplicates bins && negb (List.length bins =? 2)%nat
      then Raise ValueError
      else Ok (map (bin_label true bins labels) s)
  end.

(** [pd.cut(s, bins=bins, labels=labels)] with fixed increasing edges. *)
Definition cut (s : Series) (bins : list Q) (labels : list string) : result Series :=
  _ <- numeric_values s ;;
  Ok (map (bin_label false bins labels) s).

(** The [.dt] accessor: only a column of timestamps (and NaT) has it. *)
Fixpoint dt (s : Series) : result (list (option Timestamp)) :=
  match s with
  | [] => Ok []
  | c :: r =>
      match c with
      | Time t => l <- dt r ;; Ok (Some t :: l)
      | NaT => l <- dt r ;; Ok (None :: l)
      | _ => Raise AttributeError
      end
  end.

Definition dt_int (f : Timestamp -> Z) (l : list (option Timestamp)) : Series :=
  map (fun o => match o with
                | Some t => Num (inject_Z (f t))
                | None => NaN
                end) l.

Definition dt_day_name (l : list (option Timestamp)) : Series :=
  map (fun o => match o with
                | Some t => Str (day_name t)
                | None => NaN
                end) l.

Definition dt_date (l : list (option Timestamp)) : Series :=
  map (fun o => match o with
                | Some t => Day (date_of t)
                | None => NaT
                end) l.

(** A number as [pd.to_numeric] reads it from text: finite, or one of the
    two infinities ([inf], [-inf]). *)
Inductive Number : Type :=
| Finite (q : Q)
| Infinite (negative : bool).

Section Scalars.

(** What [pd.to_numeric] makes of a scalar that is neither a number
    nor NaN (the text of a number, a timestamp, ...); [None] when it
    cannot be read as a number. *)
Variable numeric_of_scalar : Cell -> option Number.

(** What [pd.to_datetime] makes of a scalar that is neither a
    timestamp nor missing; [None] when it cannot be read as one. *)
Variable timestamp_of_scalar : Cell -> option Timestamp.

(** [pd.to_numeric(s, errors="coerce")]. *)
Definition to_numeric_cell (c : Cell) : Cell :=
  match c with
  | Num q => Num q
  | Inf b => Inf b
  | NaN => NaN
  | _ => match numeric_of_scalar c with
         | Some (Finite q) => Num q
         | Some (Infinite b) => Inf b
         | None => NaN
         end
  end.

Definition to_numeric (s : Series) : Series := map to_numeric_cell s.

(** [pd.to_datetime(s, errors="coerce")]. *)
Definition to_datetime_cell (c : Cell) : Cell :=
  match c with
  | Time t => Time t
  | NaN | NaT => NaT
  | _ => match timestamp_of_scalar c with
         | Some t => Time t
         | None => NaT
         end
  end.

Definition to_datetime_coerce (s : Series) : Series := map to_datetime_cell s.

(** [pd.to_datetime(s)] with the default [errors="raise"]. *)
Fixpoint to_datetime (s : Series) : result Series :=
  match s with
  | [] => Ok []
  | c :: r =>
      match c with
      | Time t => l <- to_datetime r ;; Ok (Time t :: l)
      | NaN | NaT => l <- to_datetime r ;; Ok (NaT :: l)
      | _ => match timestamp_of_scalar c with
             | Some t => l <- to_datetime r ;; Ok (Time t :: l)
             | None => Raise ValueError
             end
      end
  end.

End Scalars.

(** *** Tables *)

Definition columns (df : DataFrame) : list string := map fst df.

(** [c in df.columns]. *)
Definition has_column (df : DataFrame) (c : string) : bool :=
  existsb (String.eqb c) (columns df).

Definition select (df : DataFrame) (c : string) : list Series :=
  map snd (filter (fun nv => String.eqb c (fst nv)) df).

(** [df[c]] where the code goes on to use it as one column.  A name that
    occurs twice selects a sub-table, on which every such use raises: [e]
    is the exception of the function the sub-table is handed to
    ([pd.to_datetime] raises a [ValueError]). *)
Definition getitem_for (e : Exn) (df : DataFrame) (c : string) : result Series :=
  match select df c with
  | [] => Raise KeyError
  | [s] => Ok s
  | _ => Raise e
  end.

(** The same for the uses in [impute_and_cast] and
    [feature_engineering].  [pd.to_numeric] raises a [TypeError] on a
    sub-table; the error of the other uses is reported as a [TypeError]
    too, whatever its class in pandas. *)
Definition getitem (df : DataFrame) (c : string) : result Series :=
  match select df c with
  | [] => Raise KeyError
  | [s] => Ok s
  | _ => Raise TypeError
  end.

(** [df[c] = s]: an existing column is overwritten in place (every column
    of that name), a new one is appended. *)
Definition setitem (df : DataFrame) (c : string) (s : Series) : DataFrame :=
  if has_column df c
  then map (fun nv => if String.eqb c (fst nv) then (fst nv, s) else nv) df
  else (df ++ [(c, s)])%list.

(** [df.rename(columns=f)]. *)
Definition rename (df : DataFrame) (f : string -> string) : DataFrame :=
  map (fun nv => (f (fst nv), snd nv)) df.

Definition nrows (df : DataFrame) : nat :=
  match df with
  | [] => O
  | (_, s) :: _ => List.length s
  end.

Definition row (df : DataFrame) (i : nat) : list Cell :=
  map (fun nv => nth i (snd nv) NaN) df.

Fixpoint row_eqb (a b : list Cell) : bool :=
  match a, b with
  | [], [] => true
  | x :: a', y :: b' => cell_eqb x y && row_eqb a' b'
  | _, _ => false
  end.

(** [df.duplicated()]: a row is marked when an earlier row is equal to it
    in every column. *)
Definition duplicated (df : DataFrame) : list bool :=
  map (fun i => existsb (fun j => row_eqb (row df j) (row df i)) (seq 0 i))
      (seq 0 (nrows df)).

Fixpoint drop_marked {A : Type} (marks : list bool) (l : list A) : list A :=
  match marks, l with
  | m :: marks', x :: l' =>
      if m then drop_marked marks' l' else x :: drop_marked marks' l'
  | _, _ => []
  end.

(** [df.drop_duplicates().reset_index(drop=True)]: the first row of each
    group of equal rows is kept; rows are numbered by position. *)
Definition drop_duplicates (df : DataFrame) : DataFrame :=
  let marks := duplicated df in
  map (fun nv => (fst nv, drop_marked marks (snd nv))) df.

(** *** The delimited text artifact

    A field is the text written for one cell.  The text of a number is
    kept as the number it denotes, so formatting and re-reading a float
    is exact here; [FInfinite] is the text [inf] or [-inf]. *)
Inductive Field : Type :=
| FEmpty
| FNumber (q : Q)
| FInfinite (negative : bool)
| FText (s : string)
| FTimestamp (t : Timestamp)
| FDate (d : Date).

Definition Csv : Type := list (string * list Field).

Definition to_field (c : Cell) : Field :=
  match c with
  | NaN | NaT => FEmpty
  | Num q => FNumber q
  | Inf b => FInfinite b
  | Str s => FText s
  | Time t => FTimestamp t
  | Day d => FDate d
  end.

(** [df.to_csv(path, index=False)]. *)
Definition to_csv (df : DataFrame) : Csv :=
  map (fun nv => (fst nv, map to_field (snd nv))) df.

Definition digit (n : Z) : string :=
  String (ascii_of_nat (48 + Z.to_nat (n mod 10))) EmptyString.

Definition digits2 (n : Z) : string := digit (n / 10) ++ digit n.

Definition digits4 (n : Z) : string := digits2 (n / 100) ++ digits2 n.

(** [str(d)] of a date: YYYY-MM-DD. *)
Definition date_text (d : Date) : string :=
  digits4 (d_year d) ++ "-" ++ digits2 (d_month d) ++ "-" ++ digits2 (d_day d).

(** The text of a timestamp, to the second. *)
Definition timestamp_text (t : Timestamp) : string :=
  date_text (date_of t) ++ " " ++ digits2 (ts_hour t) ++ ":"
    ++ digits2 (ts_minute t) ++ ":" ++ digits2 (ts_second t).

(** A field as [pd.read_csv] returns it when the column is not parsed as
    dates: an empty field is missing, the text of a date stays text. *)
Definition read_field (f : Field) : Cell :=
  match f with
  | FEmpty => NaN
  | FNumber q => Num q
  | FInfinite b => Inf b
  | FText s => Str s
  | FTimestamp t => Str (timestamp_text t)
  | FDate d => Str (date_text d)
  end.

(** Whether a column has a numeric dtype.  A column with rows has one
    when it holds numbers and NaN only.  A column without rows has none
    here: read from a file it has dtype object, and the only other such
    column the report meets is the hour it adds itself, which alone does
    not make the two columns the heat map asks for. *)
Definition numeric_column (s : Series) : bool :=
  match s with
  | [] => false
  | _ => forallb (fun c => match c with
                           | Num _ | Inf _ | NaN => true
                           | _ => false
                           end) s
  end.

(** [df.select_dtypes(include="number")]. *)
Definition select_numeric (df : DataFrame) : DataFrame :=
  filter (fun nv => numeric_column (snd nv)) df.

Section ReadDates.

Variable timestamp_of_scalar : Cell -> option Timestamp.

(** One field of a column named in [parse_dates]: the text written for
    a timestamp reads back as that timestamp. *)
Definition parse_date_field (f : Field) : option Cell :=
  match f with
  | FEmpty => Some NaT
  | FTimestamp t => Some (Time t)
  | _ => match timestamp_of_scalar (read_field f) with
         | Some t => Some (Time t)
         | None => None
         end
  end.

Fixpoint parse_date_fields (fs : list Field) : option Series :=
  match fs with
  | [] => Some []
  | f :: r =>
      match parse_date_field f, parse_date_fields r with
      | Some c, Some l => Some (c :: l)
      | _, _ => None
      end
  end.

(** A column that does not parse as dates throughout is left as
    read. *)
Definition parse_dates_column (fs : list Field) : Series :=
  match parse_date_fields fs with
  | Some s => s
  | None => map read_field fs
  end.

(** [pd.read_csv(p, parse_dates=["datetime"])] on an artifact whose
    header names are distinct; a header without [datetime] is a
    [ValueError]. *)
Definition read_csv_parse_dates (csv : Csv) : result DataFrame :=
  if existsb (String.eqb "datetime") (map fst csv) then
    Ok (map (fun nf =>
               (fst nf,
                if String.eqb "datetime" (fst nf)
                then parse_dates_column (snd nf)
                else map read_field (snd nf))) csv)
  else Raise ValueError.

End ReadDates.

End Pandas.

Import Pandas.
Open Scope string_scope.

(** ** src/data_processing.py *)

Module DataProcessing.

Definition DEFAULT_URL : string :=
  "https://d2beiqkhq929f0.cloudfront.net/public_assets/assets/000/001/428/original/bike_sharing.csv?1642089089".
Definition DEFAULT_INPUT : string := "data/yulu_data.csv".
Definition DEFAULT_OUTPUT : string := "data/processed_yulu_data.csv".

Section Load.

(** [pd.read_csv(source)] on the outside world: the table behind a
    local path or a URL, or the error reading it raises. *)
Variable read_csv : string -> result DataFrame.

(** [Path.exists]. *)
Variable path_exists : string -> bool.

Definition load_data (path url : option string) : result DataFrame :=
  if truthy url then read_csv (arg url)
  else if truthy path then read_csv (arg path)
  else if path_exists DEFAULT_INPUT then read_csv DEFAULT_INPUT
  else read_csv DEFAULT_URL.

End Load.

Section Clean.

Variable timestamp_of_scalar : Cell -> option Timestamp.

Definition basic_clean (df : DataFrame) : result DataFrame :=
  let df := rename df (fun c => lower (strip c)) in
  (* parse datetime *)
  df <- (if has_column df "datetime"
         then s <- getitem_for ValueError df "datetime" ;;
              Ok (setitem df "datetime" (to_datetime_coerce timestamp_of_scalar s))
         else Ok df) ;;
  (* drop exact duplicates *)
  Ok (drop_duplicates df).

End Clean.

(** [for c in cols: body], threading the table. *)
Fixpoint for_each (body : DataFrame -> string -> result DataFrame)
         (cols : list string) (df : DataFrame) : result DataFrame :=
  match cols with
  | [] => Ok df
  | c :: rest => df' <- body df c ;; for_each body rest df'
  end.

Definition numeric_cols : list string :=
  ["temp"; "atemp"; "humidity"; "windspeed"; "casual"; "registered"; "count"].

Definition code_cols : list string :=
  ["season"; "weather"; "workingday"; "holiday"].

Section Impute.

Variable numeric_of_scalar : Cell -> option Number.

(** Body of the first loop of [impute_and_cast]. *)
Definition impute_column (df : DataFrame) (c : string) : result DataFrame :=
  if has_column df c then
    s <- getitem df c ;;
    let df := setitem df c (to_numeric numeric_of_scalar s) in
    s <- getitem df c ;;
    med <- median s ;;
    let med := if isna med then Num 0 else med in
    s <- getitem df c ;;
    Ok (setitem df c (fillna s med))
  else Ok df.

(** Body of the second loop. *)
Definition cast_column (df : DataFrame) (c : string) : result DataFrame :=
  if has_column df c then
    s <- getitem df c ;;
    v <- astype_int (fillna (to_numeric numeric_of_scalar s) (Num 0)) ;;
    Ok (setitem df c v)
  else Ok df.

Definition impute_and_cast (df : DataFrame) : result DataFrame :=
  df <- for_each impute_column numeric_cols df ;;
  for_each cast_column code_cols df.

End Impute.

Definition season_map : list (Z * string) :=
  [(1, "spring"); (2, "summer"); (3, "fall"); (4, "winter")]%Z.

Definition weather_map : list (Z * string) :=
  [(1, "clear"); (2, "mist/cloudy"); (3, "light_precip"); (4, "heavy_precip")]%Z.

Definition temp_labels : list string := ["cold"; "mild"; "warm"; "hot"].
Definition level_labels : list string := ["low"; "medium"; "high"].

(** The [if] statements of [feature_engineering], in source order. *)

Definition add_datetime_parts (df : DataFrame) : result DataFrame :=
  if has_column df "datetime" then
    t <- (s <- getitem df "datetime" ;; dt s) ;;
    let df := setitem df "hour" (dt_int ts_hour t) in
    t <- (s <- getitem df "datetime" ;; dt s) ;;
    let df := setitem df "day_of_week" (dt_day_name t) in
    t <- (s <- getitem df "datetime" ;; dt s) ;;
    let df := setitem df "weekday" (dt_int weekday t) in
    t <- (s <- getitem df "datetime" ;; dt s) ;;
    let df := setitem df "month" (dt_int ts_month t) in
    t <- (s <- getitem df "datetime" ;; dt s) ;;
    let df := setitem df "year" (dt_int ts_year t) in
    t <- (s <- getitem df "datetime" ;; dt s) ;;
    Ok (setitem df "date" (dt_date t))
  else Ok df.

Definition add_season_label (df : DataFrame) : result DataFrame :=
  if has_column df "season" then
    s <- getitem df "season" ;;
    Ok (setitem df "season_label" (fillna (map_dict s season_map) (Str "unknown")))
  else Ok df.

Definition add_weather_label (df : DataFrame) : result DataFrame :=
  if has_column df "weather" then
    s <- getitem df "weather" ;;
    Ok (setitem df "weather_label" (fillna (map_dict s weather_map) (Str "unknown")))
  else Ok df.

Definition add_count (df : DataFrame) : result DataFrame :=
  if negb (has_column df "count")
     && (has_column df "registered" && has_column df "casual") then
    r <- getitem df "registered" ;;
    c <- getitem df "casual" ;;
    s <- add r c ;;
    Ok (setitem df "count" s)
  else Ok df.

Definition add_temp_category (df : DataFrame) : result DataFrame :=
  if has_column df "temp" && negb (has_column df "temp_category") then
    s <- getitem df "temp" ;;
    c <- qcut s 4 temp_labels ;;
    Ok (setitem df "temp_category" c)
  else Ok df.

Definition add_atemp_category (df : DataFrame) : result DataFrame :=
  if has_column df "atemp" && negb (has_column df "atemp_category") then
    s <- getitem df "atemp" ;;
    c <- qcut s 4 temp_labels ;;
    Ok (setitem df "atemp_category" c)
  else Ok df.

Definition add_humidity_category (df : DataFrame) : result DataFrame :=
  if has_column df "humidity" && negb (has_column df "humidity_category") then
    s <- getitem df "humidity" ;;
    c <- cut s [-1; 30; 60; 100]%Q level_labels ;;
    Ok (setitem df "humidity_category" c)
  else Ok df.

Definition add_windspeed_category (df : DataFrame) : result DataFrame :=
  if has_column df "windspeed" && negb (has_column df "windspeed_category") then
    s <- getitem df "windspeed" ;;
    m <- (s' <- getitem df "windspeed" ;; median s') ;;
    let df := setitem df "windspeed" (replace_zero s m) in
    s <- getitem df "windspeed" ;;
    c <- qcut s 3 level_labels ;;
    Ok (setitem df "windspeed_category" c)
  else Ok df.

Definition feature_engineering (df : DataFrame) : result DataFrame :=
  df <- add_datetime_parts df ;;
  df <- add_season_label df ;;
  df <- add_weather_label df ;;
  df <- add_count df ;;
  df <- add_temp_category df ;;
  df <- add_atemp_category df ;;
  df <- add_humidity_category df ;;
  add_windspeed_category df.

Section Process.

Variable read_csv : string -> result DataFrame.
Variable path_exists : string -> bool.
Variable numeric_of_scalar : Cell -> option Number.
Variable timestamp_of_scalar : Cell -> option Timestamp.

(** [process]: the table it returns and the artifact it writes, as the
    pair of the output path and the text written there.  Creating the
    directory and writing the file are taken to succeed. *)
Definition process (input_path url output_path : option string)
  : result (DataFrame * (string * Csv)) :=
  let output_path := if truthy output_path then arg output_path else DEFAULT_OUTPUT in
  df <- load_data read_csv path_exists input_path url ;;
  df <- basic_clean timestamp_of_scalar df ;;
  df <- impute_and_cast numeric_of_scalar df ;;
  df <- feature_engineering df ;;
  Ok (df, (output_path, to_csv df)).

End Process.

End DataProcessing.

(** ** src/plots.py *)

Module Plots.

(** What a renderer can touch: the in-memory table it is handed and the
    image files saved so far. *)
Record State : Type := MkState { frame : DataFrame; figures : list string }.

Definition M (A : Type) : Type := State -> result A * State.

Definition ret {A : Type} (a : A) : M A := fun st => (Ok a, st).

(** An exception leaves the table as it was when it was raised. *)
Definition bind {A B : Type} (m : M A) (k : A -> M B) : M B :=
  fun st =>
    match m st with
    | (Ok a, st') => k a st'
    | (Raise e, st') => (Raise e, st')
    end.

Definition lift {A : Type} (r : result A) : M A := fun st => (r, st).

Definition get_frame : M DataFrame := fun st => (Ok (frame st), st).

(** [df[c] = s] on the shared table. *)
Definition assign (c : string) (s : Series) : M unit :=
  fun st => (Ok tt, MkState (setitem (frame st) c s) (figures st)).

Definition FIG_DIR : string := "figures".

(** [_save(fig, name)]: the figure is written to [FIG_DIR / name]. *)
Definition _save (name : string) : M unit :=
  fun st =>
    let path := FIG_DIR ++ "/" ++ name in
    (Ok tt, MkState (frame st) (figures st ++ [path])%list).

(** [try: m except Exception: handler]. *)
Definition try_except {A : Type} (m handler : M A) : M A :=
  fun st =>
    match m st with
    | (Ok a, st') => (Ok a, st')
    | (Raise _, st') => handler st'
    end.

Fixpoint for_each (body : string -> M unit) (l : list string) : M unit :=
  match l with
  | [] => ret tt
  | x :: r => bind (body x) (fun _ => for_each body r)
  end.

Declare Scope plot_scope.
Delimit Scope plot_scope with plot.
Notation "x <- c ;; k" := (bind c (fun x => k))
  (at level 61, c at next level, right associativity) : plot_scope.
Notation "c ;;; k" := (bind c (fun _ => k))
  (at level 61, right associativity) : plot_scope.

(** The calls into the charting and aggregation libraries.  Each reads
    the table it is given and draws on its own figure. *)
Inductive Call : Type :=
| Boxplot (x y : string)
| Scatterplot (x y : string)
| Regplot (x y : string) (lowess : bool)
| GroupbyMean (by_col col : string)
| GroupbySum (by_col : string) (cols : list string)
| Lineplot (x y : string)
| ValueCounts (col : string)
| Countplot (x : string)
| Sum (col : string)
| Pie
| Corr
| Heatmap.

Section Report.

(** The artifact stored at a path, if there is one. *)
Variable read_file : string -> option Csv.

Variable timestamp_of_scalar : Cell -> option Timestamp.

(** The exception a library call raises on the table it reads, if any. *)
Variable call_error : Call -> DataFrame -> option Exn.

(** A library call from a renderer.  It reads the shared table (or a table
    it derives from it) and either completes or raises; it does not write
    to the table. *)
Definition call (c : Call) : M unit :=
  fun st =>
    match call_error c (frame st) with
    | Some e => (Raise e, st)
    | None => (Ok tt, st)
    end.

Open Scope plot_scope.

Definition plot_seasonal_trends (season_col count_col : string) : M unit :=
  df <- get_frame ;;
  if negb (has_column df season_col) then ret tt
  else
    call (Boxplot season_col count_col) ;;;
    _save "seasonal_trends.png".

Definition plot_temp_vs_count (temp_col count_col : string) : M unit :=
  df <- get_frame ;;
  if negb (has_column df temp_col) then ret tt
  else
    call (Scatterplot temp_col count_col) ;;;
    try_except (call (Regplot temp_col count_col true))
               (call (Regplot temp_col count_col false)) ;;;
    _save "temp_vs_count.png".

Definition plot_hourly_pattern (hour_col count_col : string) : M unit :=
  df <- get_frame ;;
  proceed <-
    (if negb (has_column df hour_col) then
       if has_column df "datetime" then
         h <- lift (s <- getitem df "datetime" ;;
                    s <- to_datetime timestamp_of_scalar s ;;
                    t <- dt s ;;
                    Ok (dt_int ts_hour t))%py ;;
         assign hour_col h ;;;
         ret true
       else ret false
     else ret true) ;;
  if proceed then
    call (GroupbyMean hour_col count_col) ;;;
    call (Lineplot hour_col count_col) ;;;
    _save "hourly_pattern.png"
  else ret tt.

Definition plot_category_counts (cat_col : string) : M unit :=
  df <- get_frame ;;
  if negb (has_column df cat_col) then ret tt
  else
    call (ValueCounts cat_col) ;;;
    call (Countplot cat_col) ;;;
    _save (cat_col ++ "_distribution.png").

Definition plot_registered_vs_casual (reg_col casual_col : string) : M unit :=
  df <- get_frame ;;
  if has_column df reg_col && has_column df casual_col then
    call (Sum reg_col) ;;;
    call (Sum casual_col) ;;;
    call Pie ;;;
    _save "registered_vs_casual.png" ;;;
    df <- get_frame ;;
    if has_column df "date" then
      call (GroupbySum "date" [reg_col; casual_col]) ;;;
      call (Lineplot "date" reg_col) ;;;
      call (Lineplot "date" casual_col) ;;;
      _save "registered_vs_casual_timeseries.png"
    else ret tt
  else ret tt.

Definition plot_correlation_heatmap : M unit :=
  df <- get_frame ;;
  let num := select_numeric df in
  if (List.length num <? 2)%nat then ret tt
  else
    call Corr ;;;
    call Heatmap ;;;
    _save "correlation_heatmap.png".

Definition category_plots : list string :=
  ["temp_category"; "atemp_category"; "humidity_category"; "windspeed_category"].

(** Lines 127-133 of [generate_all]: the table the renderers are
    handed. *)
Definition load_processed (input_csv : string) : result DataFrame :=
  (match read_file input_csv with
   | None => Raise FileNotFoundError
   | Some csv =>
       df <- read_csv_parse_dates timestamp_of_scalar csv ;;
       (* ensure date column if used in notebook *)
       if negb (has_column df "date") && has_column df "datetime" then
         d <- (s <- getitem df "datetime" ;;
               s <- to_datetime timestamp_of_scalar s ;;
               t <- dt s ;;
               Ok (dt_date t)) ;;
         Ok (setitem df "date" d)
       else Ok df
   end)%py.

(** Lines 135-143 of [generate_all]: the renderers, in order, on one
    shared table. *)
Definition render_all : M unit :=
  plot_seasonal_trends "season_label" "count" ;;;
  plot_temp_vs_count "temp" "count" ;;;
  plot_hourly_pattern "hour" "count" ;;;
  for_each (fun cat =>
              df <- get_frame ;;
              if has_column df cat then plot_category_counts cat else ret tt)
           category_plots ;;;
  plot_registered_vs_casual "registered" "casual" ;;;
  plot_correlation_heatmap.

(** [generate_all]: the outcome, and the final table and saved figures
    when the artifact could be loaded. *)
Definition generate_all (input_csv : string) : result (result unit * State) :=
  (df <- load_processed input_csv ;;
   Ok (render_all (MkState df [])))%py.

End Report.

End Plots.

Import DataProcessing.

(** * Vocabulary of the properties *)

Unset Implicit Arguments.

(** [writes T f]: a successful run of [f] leaves every column whose name is
    not in [T] as it was, and keeps distinct names distinct. *)
Definition writes (T : list string) (f : DataFrame -> result DataFrame) : Prop :=
  forall df df', f df = Ok df' ->
    (forall c, ~ In c T -> select df' c = select df c)
    /\ (NoDup (columns df) -> NoDup (columns df')).

Definition datetime_parts : list string :=
  ["hour"; "day_of_week"; "weekday"; "month"; "year"; "date"].


(** The label of a season code and of a weather code, as the
    specification words them: the four codes have a name, anything else is
    unknown. *)
Definition season_name (c : Cell) : string :=
  match c with
  | Num q =>
      if Qeq_bool q 1 then "spring"
      else if Qeq_bool q 2 then "summer"
      else if Qeq_bool q 3 then "fall"
      else if Qeq_bool q 4 then "winter"
      else "unknown"
  | _ => "unknown"
  end.

Definition weather_name (c : Cell) : string :=
  match c with
  | Num q =>
      if Qeq_bool q 1 then "clear"
      else if Qeq_bool q 2 then "mist/cloudy"
      else if Qeq_bool q 3 then "light_precip"
      else if Qeq_bool q 4 then "heavy_precip"
      else "unknown"
  | _ => "unknown"
  end.

(** A small table with season and weather codes, one of them out of
    range. *)
Definition codes_table : DataFrame :=
  [("season", [Num 1; Num 5; Num 4]); ("weather", [Num 3; Num 2; Num 9])].

(** Two ride-count columns without their total. *)
Definition riders_table : DataFrame :=
  [("registered", [Num 10; Num 3]); ("casual", [Num 1; Num 2])].

(** An outside world with one remote and one local source, holding
    different tables. *)
Definition remote_rides : DataFrame := [("count", [Num 16; Num 40])].

Definition local_rides : DataFrame := [("count", [Num 1])].

Definition sample_source (src : string) : result DataFrame :=
  if String.eqb src "https://example.org/rides.csv" then Ok remote_rides
  else if String.eqb src "rides_local.csv" then Ok local_rides
  else Raise OSError.

(** The numbers of a column, in row order. *)
Definition numbers (s : Series) : list Q :=
  flat_map (fun c => match c with Num q => [q] | _ => [] end) s.

(** How many entries of a column are missing. *)
Definition count_na (s : Series) : nat := List.length (filter isna s).

(** In how many rows two columns of one length differ. *)
Definition changed (a b : Series) : nat :=
  List.length (filter (fun p => negb (cell_eqb (fst p) (snd p))) (combine a b)).

(** The value the specification fills a coerced column with: its median,
    or zero when it has none. *)
Definition fill_value (s1 : Series) : Cell :=
  match median s1 with
  | Ok m => if isna m then Num 0 else m
  | Raise _ => Num 0
  end.

(** A temperature column with one missing and one unreadable entry. *)
Definition gaps_table : DataFrame :=
  [("temp", [Num 1; NaN; Num 4; Str "n/a"; Num 2]); ("season", [Num 1; Num 1; Num 2; Num 2; Num 3])].

(** That table once imputed: the median of 1, 4 and 2 is in both gaps. *)
Definition gaps_filled : DataFrame :=
  [("temp", [Num 1; Num 2; Num 4; Num 2; Num 2]); ("season", [Num 1; Num 1; Num 2; Num 2; Num 3])].

(** The columns of one name in an artifact. *)
Definition csv_select (csv : Csv) (c : string) : list (list Field) :=
  map snd (filter (fun nf => String.eqb c (fst nf)) csv).

(** The wind-speed column of the specification's own example. *)
Definition calm_table : DataFrame :=
  [("windspeed", [Num 0; Num 0; Num 10; Num 20; Num 30])].

(** Two inputs that differ only in whether a reading was zero. *)
Definition breeze_table : DataFrame :=
  [("windspeed", [Num 0; Num 10; Num 20; Num 30; Num 40])].

Definition breeze_table' : DataFrame :=
  [("windspeed", [Num 20; Num 10; Num 20; Num 30; Num 40])].

(** A raw file of five distinct rows whose temperature takes two values. *)
Definition mild_week : DataFrame :=
  [("id", [Num 1; Num 2; Num 3; Num 4; Num 5]);
   ("temp", [Num 10; Num 10; Num 10; Num 10; Num 20])].

Definition mild_week_source (src : string) : result DataFrame := Ok mild_week.

Definition breeze_source (src : string) : result DataFrame := Ok breeze_table.

(** The derived columns that [feature_engineering] guards with a test
    that the column is not there yet. *)
Definition guarded_targets : list string :=
  ["count"; "temp_category"; "atemp_category"; "humidity_category";
   "windspeed_category"].

(** Each derived column with a source column it is computed from. *)
Definition prerequisites : list (string * string) :=
  [("hour", "datetime"); ("day_of_week", "datetime"); ("weekday", "datetime");
   ("month", "datetime"); ("year", "datetime"); ("date", "datetime");
   ("season_label", "season"); ("weather_label", "weather");
   ("count", "registered"); ("count", "casual");
   ("temp_category", "temp"); ("atemp_category", "atemp");
   ("humidity_category", "humidity"); ("windspeed_category", "windspeed")].

(** A table that already carries a season label of its own. *)
Definition relabelled_table : DataFrame :=
  [("season", [Num 1; Num 3]); ("season_label", [Str "dry"; Str "monsoon"])].

(** A computation of the report generator that leaves the table alone,
    whether it returns or raises. *)
Definition frame_kept {A : Type} (m : Plots.M A) : Prop :=
  forall st, Plots.frame (snd (m st)) = Plots.frame st.

(** One timestamp, and the scalar parser that reads its text. *)
Definition new_year_5am : Timestamp := MkTimestamp 2011 1 1 5 0 0 0.

Definition sample_clock (c : Cell) : option Timestamp :=
  match c with
  | Str s => if String.eqb s "2011-01-01 05:00:00" then Some new_year_5am else None
  | _ => None
  end.

(** An artifact with a timestamp and a count, but no hour column, at the
    default path of the report generator. *)
Definition hourless_artifact : Csv :=
  [("datetime", [FTimestamp new_year_5am]); ("count", [FNumber 16])].

Definition hourless_files (p : string) : option Csv :=
  if String.eqb p "data/processed_yulu_data.csv" then Some hourless_artifact
  else None.

(** A charting library that never raises. *)
Definition always_draws (c : Plots.Call) (df : DataFrame) : option Exn := None.

(** A cell after one trip through the artifact, in a column that is not
    parsed as dates. *)
Definition reread (c : Cell) : Cell := read_field (to_field c).

(** Numbers, text and the missing marker NaN. *)
Definition plain (c : Cell) : bool :=
  match c with
  | NaN | Num _ | Str _ => true
  | _ => false
  end.

(** The round trip as the specification states it: the artifact loads, the
    column names are the same, and every column that can be read on both
    sides holds equal values. *)
Definition round_trip_exact (timestamp_of_scalar : Cell -> option Timestamp)
           (df : DataFrame) : Prop :=
  exists df',
    read_csv_parse_dates timestamp_of_scalar (to_csv df) = Ok df'
    /\ columns df' = columns df
    /\ forall c s s', getitem df c = Ok s -> getitem df' c = Ok s' ->
         row_eqb s s' = true.

(** A raw file of one row, and the table [process] makes of it. *)
Definition new_year_raw : DataFrame :=
  [("datetime", [Str "2011-01-01 05:00:00"]); ("count", [Num 16])].

Definition new_year_source (src : string) : result DataFrame := Ok new_year_raw.

Definition new_year_processed : DataFrame :=
  [("datetime", [Time new_year_5am]); ("count", [Num 16]); ("hour", [Num 5]);
   ("day_of_week", [Str "Saturday"]); ("weekday", [Num 5]); ("month", [Num 1]);
   ("year", [Num 2011]); ("date", [Day (MkDate 2011 1 1)])].

(** A table without timestamps, as [process] returns it unchanged. *)
Definition codes_only : DataFrame := [("holiday", [Num 0; Num 1])].

(** ** Vocabulary of the further properties *)

From Stdlib Require Import Lqa.

(** The name [basic_clean] gives a column. *)
Definition clean_name (c : string) : string := lower (strip c).

(** A column that holds timestamps and NaT only. *)
Definition datetimelike (s : Series) : bool :=
  forallb (fun c => match c with Time _ | NaT => true | _ => false end) s.

(** A header of ASCII characters only. *)
Definition is_ascii (s : string) : bool :=
  forallb (fun a => (nat_of_ascii a <? 128)%nat) (list_ascii_of_string s).

(** The integer part of a fraction: the quotient of numerator by
    denominator, rounded towards zero. *)
Definition integer_part (q : Q) : Z := Z.quot (Qnum q) (Zpos (Qden q)).

(** The entry the second loop of [impute_and_cast] computes for a coerced
    cell. *)
Definition cast_cell (x : Cell) : Cell :=
  match x with
  | Num q => Num (inject_Z (cast_int64 q))
  | Inf b => Inf b
  | _ => Num 0
  end.

(** What a cast code column holds in the row of an entry that
    [pd.to_numeric] read as [x]: the integer part of a number that fits
    64 bits, and 0 for an entry that is missing or could not be read.
    Nothing is said of a number beyond 64 bits, and an infinite entry has
    no cast. *)
Definition cast_of (x : Cell) (r : option Cell) : Prop :=
  match x with
  | Num q =>
      (- 2 ^ 63 <= integer_part q <= 2 ^ 63 - 1)%Z ->
      r = Some (Num (inject_Z (integer_part q)))
  | Inf _ => False
  | _ => r = Some (Num 0)
  end.

(** The columns [feature_engineering] can add. *)
Definition derived_columns : list string :=
  ["hour"; "day_of_week"; "weekday"; "month"; "year"; "date";
   "season_label"; "weather_label"; "count";
   "temp_category"; "atemp_category"; "humidity_category";
   "windspeed_category"].

(** The humidity level by the thresholds of the source: above -1 up to 30
    is low, above 30 up to 60 medium, above 60 up to 100 high; a reading
    outside that range, or a missing one, has no level. *)
Definition humidity_level (c : Cell) : Cell :=
  match c with
  | Num x =>
      if Qle_bool x (-1) then NaN
      else if Qle_bool x 30 then Str "low"
      else if Qle_bool x 60 then Str "medium"
      else if Qle_bool x 100 then Str "high"
      else NaN
  | _ => NaN
  end.

(** A table with a code column that needs casting and a column of notes
    the pipeline does not know. *)
Definition mixed_table : DataFrame :=
  [("season", [Num (7 # 2); Str "spring"; NaN; Num (-(3 # 2))]);
   ("notes", [Str "a"; NaN; Str "c"; Str "d"]);
   ("humidity", [Num 0; Num 30; Num 61; Num 120])].

(** That table after [impute_and_cast]. *)
Definition mixed_cast : DataFrame :=
  [("season", [Num 3; Num 0; Num 0; Num (-1)]);
   ("notes", [Str "a"; NaN; Str "c"; Str "d"]);
   ("humidity", [Num 0; Num 30; Num 61; Num 120])].

(** A file whose season column has an infinite entry. *)
Definition endless_summer : DataFrame := [("season", [Num 1; Inf false])].

Definition endless_summer_source (src : string) : result DataFrame :=
  Ok endless_summer.

(** A raw file whose headers need cleaning and whose timestamps are text,
    one of them unreadable. *)
Definition untidy_raw : DataFrame :=
  [(" DateTime", [Str "2011-01-01 05:00:00"; Str "soon"; Str "2011-01-01 05:00:00"]);
   ("Temp ", [Num 3; Num 4; Num 3])].

Definition untidy_source (src : string) : result DataFrame := Ok untidy_raw.

(** The readings and counts the later steps compute with. *)
Definition reading_columns : list string :=
  ["temp"; "atemp"; "humidity"; "windspeed"; "casual"; "registered"].

(** A column that holds finite numbers and NaN only. *)
Definition finite_numbers (s : Series) : bool :=
  forallb (fun c => match c with Num _ | NaN => true | _ => false end) s.

(** What the table handed to [feature_engineering] by [process] satisfies
    when the file holds no infinite reading: distinct names, timestamps in
    the datetime column, and finite numbers (or NaN) in the reading
    columns. *)
Definition ready (d : DataFrame) : Prop :=
  NoDup (columns d)
  /\ (forall s, getitem d "datetime" = Ok s -> datetimelike s = true)
  /\ (forall c s, In c reading_columns -> getitem d c = Ok s ->
        finite_numbers s = true).

(** No column that [impute_and_cast] converts holds an entry that
    [pd.to_numeric] reads as infinite. *)
Definition finite_readings (numeric_of_scalar : Cell -> option Number)
           (raw : DataFrame) : bool :=
  forallb (fun nv =>
             if existsb (String.eqb (clean_name (fst nv)))
                        (numeric_cols ++ code_cols)
             then negb (has_infinite (to_numeric numeric_of_scalar (snd nv)))
             else true) raw.

(** A table all of whose columns have one length. *)
Definition rectangular (df : DataFrame) : bool :=
  forallb (fun nv => (List.length (snd nv) =? nrows df)%nat) df.

(** The positions, counted from [k], that a list of marks leaves
    unmarked. *)
Fixpoint kept_from (k : nat) (marks : list bool) : list nat :=
  match marks with
  | [] => []
  | m :: r => if m then kept_from (S k) r else k :: kept_from (S k) r
  end.

(** The table [basic_clean] holds before it drops duplicate rows: names
    cleaned, and the column named datetime parsed. *)
Definition cleaned_table (timestamp_of_scalar : Cell -> option Timestamp)
           (raw : DataFrame) : DataFrame :=
  map (fun nv =>
         (clean_name (fst nv),
          if String.eqb "datetime" (clean_name (fst nv))
          then to_datetime_coerce timestamp_of_scalar (snd nv)
          else snd nv)) raw.

(** A string that does not begin with white space. *)
Definition starts_clean (s : string) : bool :=
  match s with
  | EmptyString => true
  | String a _ => negb (isspace a)
  end.

(** A raw file with a repeated row between two distinct ones. *)
Definition repeated_raw : DataFrame :=
  [("Hour", [Num 1; Num 2; Num 1; Num 3]);
   ("Rides", [Num 10; Num 20; Num 10; Num 10])].

(** One list is the other with some entries left out. *)
Inductive subseq {A : Type} : list A -> list A -> Prop :=
| subseq_nil : subseq [] []
| subseq_skip x l l' : subseq l l' -> subseq l (x :: l')
| subseq_take x l l' : subseq l l' -> subseq (x :: l) (x :: l').

(** A computation of the report generator that saves no figure. *)
Definition quiet {A : Type} (m : Plots.M A) : Prop :=
  forall st, Plots.figures (snd (m st)) = Plots.figures st.

(** A computation of the report generator that adds to the saved figures
    some of the files [N], in the order of [N], and removes none. *)
Definition saves {A : Type} (N : list string) (m : Plots.M A) : Prop :=
  forall st, exists l,
    Plots.figures (snd (m st)) = (Plots.figures st ++ l)%list /\ subseq l N.

(** The files the report generator can write, in the order it writes
    them. *)
Definition all_figures : list string :=
  ["figures/seasonal_trends.png"; "figures/temp_vs_count.png";
   "figures/hourly_pattern.png";
   "figures/temp_category_distribution.png";
   "figures/atemp_category_distribution.png";
   "figures/humidity_category_distribution.png";
   "figures/windspeed_category_distribution.png";
   "figures/registered_vs_casual.png";
   "figures/registered_vs_casual_timeseries.png";
   "figures/correlation_heatmap.png"].

(** A charting library whose smoothed trend line is not available. *)
Definition no_lowess (c : Plots.Call) (df : DataFrame) : option Exn :=
  match c with
  | Plots.Regplot _ _ true => Some OSError
  | _ => None
  end.

(** A charting library that cannot draw a box plot. *)
Definition no_boxplot (c : Plots.Call) (df : DataFrame) : option Exn :=
  match c with
  | Plots.Boxplot _ _ => Some ValueError
  | _ => None
  end.

(** A table with a temperature, a count and a season label. *)
Definition warm_frame : DataFrame :=
  [("temp", [Num 9; Num 14]); ("count", [Num 16; Num 40]);
   ("season_label", [Str "spring"; Str "spring"])].

(** A loaded table that has every column the renderers look for. *)
Definition full_frame : DataFrame :=
  [("datetime", [Time new_year_5am]); ("season_label", [Str "spring"]);
   ("temp", [Num 9]); ("count", [Num 16]); ("hour", [Num 5]);
   ("temp_category", [Str "cold"]); ("atemp_category", [Str "cold"]);
   ("humidity_category", [Str "high"]); ("windspeed_category", [Str "low"]);
   ("registered", [Num 13]); ("casual", [Num 3]);
   ("date", [Day (MkDate 2011 1 1)])].

(** A list of numbers in which every entry is at most every later one. *)
Fixpoint ascending (l : list Q) : Prop :=
  match l with
  | [] => True
  | x :: r => (forall y, In y r -> (x <= y)%Q) /\ ascending r
  end.

(** A table with a temperature column of distinct readings and one
    missing entry. *)
Definition spread_table : DataFrame :=
  [("temp", [Num 3; Num 9; NaN; Num 14; Num 20; Num 27])].

(** The artifact of that table at the default path of the report
    generator. *)
Definition full_files (p : string) : option Csv :=
  if String.eqb p "data/processed_yulu_data.csv"
  then Some (to_csv full_frame) else None.

(** That table as the report generator loads it: the dates come back as
    text. *)
Definition full_loaded : DataFrame :=
  [("datetime", [Time new_year_5am]); ("season_label", [Str "spring"]);
   ("temp", [Num 9]); ("count", [Num 16]); ("hour", [Num 5]);
   ("temp_category", [Str "cold"]); ("atemp_category", [Str "cold"]);
   ("humidity_category", [Str "high"]); ("windspeed_category", [Str "low"]);
   ("registered", [Num 13]); ("casual", [Num 3]);
   ("date", [Str "2011-01-01"])].

(** The files after [process] has written the one-row table to the
    default output path. *)
Definition new_year_files (p : string) : option Csv :=
  if String.eqb p "data/processed_yulu_data.csv"
  then Some (to_csv new_year_processed) else None.

(** * Properties *)

(** ** Tables: reading and writing columns *)

Section TableFacts.

Implicit Types (df : DataFrame) (c : string) (s : Series).

Lemma has_column_select df c :
  has_column df c = false <-> select df c = [].
Proof.
  unfold has_column, select, columns.
  induction df as [|[n v] df IH]; simpl.
  - tauto.
  - destruct (String.eqb c n); simpl.
    + split; discriminate.
    + exact IH.
Qed.

Lemma getitem_has_column df c s :
  getitem df c = Ok s -> has_column df c = true.
Proof.
  unfold getitem. intros H.
  destruct (has_column df c) eqn:E; [reflexivity|].
  apply has_column_select in E. rewrite E in H. discriminate.
Qed.

Lemma getitem_select df c s :
  getitem df c = Ok s <-> select df c = [s].
Proof.
  unfold getitem. split.
  - destruct (select df c) as [|x [|y l]]; intros H; inversion H; reflexivity.
  - intros ->. reflexivity.
Qed.

(** With distinct column names a name selects at most one column. *)
Lemma select_unique df c :
  NoDup (columns df) -> (List.length (select df c) <= 1)%nat.
Proof.
  unfold columns, select.
  induction df as [|[n v] df IH]; simpl; intros H.
  - lia.
  - inversion H as [|? ? Hn Hd]; subst.
    destruct (String.eqb c n) eqn:E; simpl.
    + apply String.eqb_eq in E. subst n.
      assert (Hs : select df c = []).
      { apply has_column_select. unfold has_column.
        destruct (existsb (String.eqb c) (columns df)) eqn:X; [|reflexivity].
        apply existsb_exists in X. destruct X as [x [Hx Ex]].
        apply String.eqb_eq in Ex. subst x. contradiction. }
      unfold select in Hs. rewrite Hs. simpl. lia.
    + apply IH. exact Hd.
Qed.

Lemma getitem_present df c :
  NoDup (columns df) -> has_column df c = true -> exists s, getitem df c = Ok s.
Proof.
  intros Hd Hc. pose proof (select_unique df c Hd) as Hl.
  unfold getitem. destruct (select df c) as [|x [|y l]] eqn:E.
  - apply has_column_select in E. congruence.
  - eauto.
  - simpl in Hl. lia.
Qed.

Lemma select_setitem_other df c c' s :
  c <> c' -> select (setitem df c s) c' = select df c'.
Proof.
  intros Hne. unfold setitem. destruct (has_column df c).
  - unfold select. induction df as [|[n v] df IH]; simpl; [reflexivity|].
    destruct (String.eqb c n) eqn:E; simpl.
    + apply String.eqb_eq in E. subst n.
      assert (E' : String.eqb c' c = false)
        by (apply String.eqb_neq; congruence).
      rewrite E'. exact IH.
    + destruct (String.eqb c' n); simpl; rewrite IH; reflexivity.
  - unfold select. rewrite filter_app, map_app. simpl.
    assert (E' : String.eqb c' c = false)
      by (apply String.eqb_neq; congruence).
    rewrite E'. simpl. apply app_nil_r.
Qed.

Lemma select_setitem_same df c s :
  (List.length (select df c) <= 1)%nat -> select (setitem df c s) c = [s].
Proof.
  intros Hl. unfold setitem. destruct (has_column df c) eqn:Hc.
  - assert (Hs : select df c <> []).
    { intros E. apply has_column_select in E. congruence. }
    clear Hc. unfold select in *.
    induction df as [|[n v] df IH]; simpl in *; [congruence|].
    destruct (String.eqb c n) eqn:E; simpl in *.
    + rewrite E. simpl.
      destruct (map snd (filter (fun nv => String.eqb c (fst nv)) df)) eqn:X.
      * clear IH Hs Hl. f_equal.
        induction df as [|[n' v'] df IH]; simpl in *; [reflexivity|].
        destruct (String.eqb c n') eqn:E'; simpl in *; [discriminate|].
        rewrite E'. apply IH. exact X.
      * simpl in Hl. lia.
    + rewrite E. apply IH; assumption.
  - apply has_column_select in Hc. unfold select in *.
    rewrite filter_app, map_app, Hc. simpl. rewrite String.eqb_refl. reflexivity.
Qed.

Lemma columns_setitem df c s :
  columns (setitem df c s)
  = if has_column df c then columns df else (columns df ++ [c])%list.
Proof.
  unfold setitem, columns. destruct (has_column df c).
  - rewrite map_map. apply map_ext. intros [n v]. simpl.
    destruct (String.eqb c n); reflexivity.
  - rewrite map_app. reflexivity.
Qed.

Lemma setitem_unique df c s :
  NoDup (columns df) -> NoDup (columns (setitem df c s)).
Proof.
  intros H. rewrite columns_setitem. destruct (has_column df c) eqn:Hc.
  - exact H.
  - apply NoDup_app; [exact H | constructor; [intros []|constructor] |].
    intros x Hx [Heq|[]]. subst x.
    rename c into x.
    unfold has_column in Hc.
    assert (X : existsb (String.eqb x) (columns df) = true).
    { apply existsb_exists. exists x. split; [exact Hx|apply String.eqb_refl]. }
    congruence.
Qed.

Lemma setitem_absent df c s :
  has_column df c = false -> setitem df c s = (df ++ [(c, s)])%list.
Proof. intros H. unfold setitem. rewrite H. reflexivity. Qed.

End TableFacts.

(** ** The steps of [feature_engineering] and the columns each one writes *)

(** Case analysis on the fallible calls of a step that returned a table. *)
Ltac split_binds H :=
  repeat match type of H with
         | context [match ?r with Ok _ => _ | Raise _ => _ end] =>
             lazymatch r with
             | context [match _ with Ok _ => _ | Raise _ => _ end] => fail
             | _ => let E := fresh "E" in destruct r eqn:E; try discriminate H
             end
         end.

Ltac not_written Hc :=
  let X := fresh in
  intros X; apply Hc; rewrite <- X; simpl; tauto.

Ltac solve_writes :=
  let H := fresh "H" in
  let c := fresh "c" in
  let Hc := fresh "Hc" in
  intros ? ? H;
  match type of H with
  | (if ?b then _ else _) = _ =>
      destruct b;
      [ unfold Py.bind in H; split_binds H; inversion H; subst; clear H
      | inversion H; subst; clear H ]
  end;
  (split;
   [ intros c Hc;
     repeat (rewrite select_setitem_other by not_written Hc); reflexivity
   | intros; repeat apply setitem_unique; assumption ]).

Lemma add_datetime_parts_writes : writes datetime_parts add_datetime_parts.
Proof. unfold writes, add_datetime_parts. solve_writes. Qed.

Lemma add_season_label_writes : writes ["season_label"] add_season_label.
Proof. unfold writes, add_season_label. solve_writes. Qed.

Lemma add_weather_label_writes : writes ["weather_label"] add_weather_label.
Proof. unfold writes, add_weather_label. solve_writes. Qed.

Lemma add_count_writes : writes ["count"] add_count.
Proof. unfold writes, add_count. solve_writes. Qed.

Lemma add_temp_category_writes : writes ["temp_category"] add_temp_category.
Proof. unfold writes, add_temp_category. solve_writes. Qed.

Lemma add_atemp_category_writes : writes ["atemp_category"] add_atemp_category.
Proof. unfold writes, add_atemp_category. solve_writes. Qed.

Lemma add_humidity_category_writes :
  writes ["humidity_category"] add_humidity_category.
Proof. unfold writes, add_humidity_category. solve_writes. Qed.

Lemma add_windspeed_category_writes :
  writes ["windspeed"; "windspeed_category"] add_windspeed_category.
Proof. unfold writes, add_windspeed_category. solve_writes. Qed.

(** The intermediate tables of a successful run. *)
Lemma feature_engineering_steps df df' :
  feature_engineering df = Ok df' ->
  exists d1 d2 d3 d4 d5 d6 d7,
    add_datetime_parts df = Ok d1 /\ add_season_label d1 = Ok d2
    /\ add_weather_label d2 = Ok d3 /\ add_count d3 = Ok d4
    /\ add_temp_category d4 = Ok d5 /\ add_atemp_category d5 = Ok d6
    /\ add_humidity_category d6 = Ok d7 /\ add_windspeed_category d7 = Ok df'.
Proof.
  unfold feature_engineering, Py.bind. intros H.
  destruct (add_datetime_parts df) as [d1|] eqn:E1; [|discriminate].
  destruct (add_season_label d1) as [d2|] eqn:E2; [|discriminate].
  destruct (add_weather_label d2) as [d3|] eqn:E3; [|discriminate].
  destruct (add_count d3) as [d4|] eqn:E4; [|discriminate].
  destruct (add_temp_category d4) as [d5|] eqn:E5; [|discriminate].
  destruct (add_atemp_category d5) as [d6|] eqn:E6; [|discriminate].
  destruct (add_humidity_category d6) as [d7|] eqn:E7; [|discriminate].
  exists d1, d2, d3, d4, d5, d6, d7. repeat split; assumption.
Qed.

(** Carry a fact about [select d' c] back over one step [H : step d = Ok d']
    that does not write [c]. *)
Ltac carry H :=
  first
    [ rewrite (proj1 (add_datetime_parts_writes _ _ H))
    | rewrite (proj1 (add_season_label_writes _ _ H))
    | rewrite (proj1 (add_weather_label_writes _ _ H))
    | rewrite (proj1 (add_count_writes _ _ H))
    | rewrite (proj1 (add_temp_category_writes _ _ H))
    | rewrite (proj1 (add_atemp_category_writes _ _ H))
    | rewrite (proj1 (add_humidity_category_writes _ _ H))
    | rewrite (proj1 (add_windspeed_category_writes _ _ H)) ];
  [ | solve [simpl; intuition discriminate] ].

Ltac keep_unique H U :=
  first
    [ apply (proj2 (add_datetime_parts_writes _ _ H)) in U
    | apply (proj2 (add_season_label_writes _ _ H)) in U
    | apply (proj2 (add_weather_label_writes _ _ H)) in U
    | apply (proj2 (add_count_writes _ _ H)) in U
    | apply (proj2 (add_temp_category_writes _ _ H)) in U
    | apply (proj2 (add_atemp_category_writes _ _ H)) in U
    | apply (proj2 (add_humidity_category_writes _ _ H)) in U
    | apply (proj2 (add_windspeed_category_writes _ _ H)) in U ].

Lemma feature_engineering_unique df df' :
  NoDup (columns df) -> feature_engineering df = Ok df' -> NoDup (columns df').
Proof.
  intros U H. apply feature_engineering_steps in H.
  destruct H as (d1 & d2 & d3 & d4 & d5 & d6 & d7 & H1 & H2 & H3 & H4 & H5 & H6 & H7 & H8).
  keep_unique H1 U. keep_unique H2 U. keep_unique H3 U. keep_unique H4 U.
  keep_unique H5 U. keep_unique H6 U. keep_unique H7 U. keep_unique H8 U.
  exact U.
Qed.

(** ** Season and weather labels *)

Lemma season_label_cells s :
  fillna (map_dict s season_map) (Str "unknown")
  = map (fun c => Str (season_name c)) s.
Proof.
  unfold fillna, map_dict. rewrite map_map. apply map_ext. intros c.
  destruct c as [| |q| | | |]; try reflexivity.
  unfold dict_get, season_map, season_name, find, fst, snd, inject_Z.
  destruct (Qeq_bool q 1); [reflexivity|].
  destruct (Qeq_bool q 2); [reflexivity|].
  destruct (Qeq_bool q 3); [reflexivity|].
  destruct (Qeq_bool q 4); reflexivity.
Qed.

Lemma weather_label_cells s :
  fillna (map_dict s weather_map) (Str "unknown")
  = map (fun c => Str (weather_name c)) s.
Proof.
  unfold fillna, map_dict. rewrite map_map. apply map_ext. intros c.
  destruct c as [| |q| | | |]; try reflexivity.
  unfold dict_get, weather_map, weather_name, find, fst, snd, inject_Z.
  destruct (Qeq_bool q 1); [reflexivity|].
  destruct (Qeq_bool q 2); [reflexivity|].
  destruct (Qeq_bool q 3); [reflexivity|].
  destruct (Qeq_bool q 4); reflexivity.
Qed.

(** The two label steps never raise on a table where the code column is a
    single column: they assign the labels and return. *)
Lemma add_season_label_returns d s :
  getitem d "season" = Ok s ->
  add_season_label d
  = Ok (setitem d "season_label" (map (fun c => Str (season_name c)) s)).
Proof.
  intros Hs. unfold add_season_label.
  rewrite (getitem_has_column _ _ _ Hs), Hs. simpl.
  rewrite season_label_cells. reflexivity.
Qed.

Lemma add_weather_label_returns d s :
  getitem d "weather" = Ok s ->
  add_weather_label d
  = Ok (setitem d "weather_label" (map (fun c => Str (weather_name c)) s)).
Proof.
  intros Hs. unfold add_weather_label.
  rewrite (getitem_has_column _ _ _ Hs), Hs. simpl.
  rewrite weather_label_cells. reflexivity.
Qed.

Lemma add_season_label_present d d' s :
  NoDup (columns d) -> getitem d "season" = Ok s -> add_season_label d = Ok d' ->
  getitem d' "season_label" = Ok (map (fun c => Str (season_name c)) s).
Proof.
  intros U Hs H. rewrite (add_season_label_returns d s Hs) in H.
  inversion H; subst; clear H.
  apply getitem_select, select_setitem_same, select_unique, U.
Qed.

Lemma add_weather_label_present d d' s :
  NoDup (columns d) -> getitem d "weather" = Ok s -> add_weather_label d = Ok d' ->
  getitem d' "weather_label" = Ok (map (fun c => Str (weather_name c)) s).
Proof.
  intros U Hs H. rewrite (add_weather_label_returns d s Hs) in H.
  inversion H; subst; clear H.
  apply getitem_select, select_setitem_same, select_unique, U.
Qed.

(** C6. On a table with distinct column names that [feature_engineering]
    returns from: when there is a season column, the season_label column
    of the result holds, row by row, the name of the season code (1
    spring, 2 summer, 3 fall, 4 winter) and the text unknown for any other
    entry; likewise weather_label from the weather column (1 clear, 2
    mist/cloudy, 3 light_precip, 4 heavy_precip).  The code columns
    themselves are returned as they came. *)
Theorem labels_follow_codes df df' :
  NoDup (columns df) ->
  feature_engineering df = Ok df' ->
  (forall s, getitem df "season" = Ok s ->
     getitem df' "season" = Ok s
     /\ getitem df' "season_label" = Ok (map (fun c => Str (season_name c)) s))
  /\ (forall s, getitem df "weather" = Ok s ->
        getitem df' "weather" = Ok s
        /\ getitem df' "weather_label" = Ok (map (fun c => Str (weather_name c)) s)).
Proof.
  intros U H. apply feature_engineering_steps in H.
  destruct H as (d1 & d2 & d3 & d4 & d5 & d6 & d7
                 & H1 & H2 & H3 & H4 & H5 & H6 & H7 & H8).
  assert (U1 := U). keep_unique H1 U1.
  assert (U2 := U1). keep_unique H2 U2.
  split; intros s Hs.
  - split.
    + apply getitem_select. apply getitem_select in Hs.
      carry H8. carry H7. carry H6. carry H5. carry H4. carry H3. carry H2.
      carry H1. exact Hs.
    + assert (Hs1 : getitem d1 "season" = Ok s).
      { apply getitem_select. carry H1. apply getitem_select. exact Hs. }
      pose proof (add_season_label_present d1 d2 s U1 Hs1 H2) as L.
      apply getitem_select. apply getitem_select in L.
      carry H8. carry H7. carry H6. carry H5. carry H4. carry H3. exact L.
  - split.
    + apply getitem_select. apply getitem_select in Hs.
      carry H8. carry H7. carry H6. carry H5. carry H4. carry H3. carry H2.
      carry H1. exact Hs.
    + assert (Hs2 : getitem d2 "weather" = Ok s).
      { apply getitem_select. carry H2. carry H1. apply getitem_select. exact Hs. }
      pose proof (add_weather_label_present d2 d3 s U2 Hs2 H3) as L.
      apply getitem_select. apply getitem_select in L.
      carry H8. carry H7. carry H6. carry H5. carry H4. exact L.
Qed.

Lemma codes_table_unique : NoDup (columns codes_table).
Proof. repeat constructor; simpl; intuition discriminate. Defined.

Lemma labels_follow_codes_witness :
  getitem (setitem (setitem codes_table "season_label"
                      [Str "spring"; Str "unknown"; Str "winter"])
             "weather_label" [Str "light_precip"; Str "mist/cloudy"; Str "unknown"])
          "season_label"
  = Ok [Str "spring"; Str "unknown"; Str "winter"].
Proof.
  exact (proj2 (proj1 (labels_follow_codes codes_table _ codes_table_unique eq_refl)
                  [Num 1; Num 5; Num 4] eq_refl)).
Defined.

(** ** The reconstructed total count *)

Lemma has_column_true_select df c :
  has_column df c = true <-> select df c <> [].
Proof.
  split.
  - intros H E. apply has_column_select in E. congruence.
  - intros H. destruct (has_column df c) eqn:E; [reflexivity|].
    apply has_column_select in E. contradiction.
Qed.

Lemma has_column_same df df' c :
  select df' c = select df c -> has_column df' c = has_column df c.
Proof.
  intros H. destruct (has_column df c) eqn:E.
  - apply has_column_true_select. rewrite H. apply has_column_true_select. exact E.
  - apply has_column_select. rewrite H. apply has_column_select. exact E.
Qed.

(** C7. On a table with distinct column names that [feature_engineering]
    returns from: if the input has no count column but has a registered and
    a casual column, the result has a count column that is their
    element-wise sum; if the input has a count column it is returned as it
    came; if the input has no count column and lacks one of the addends,
    the result has no count column either. *)
Theorem count_from_addends df df' :
  NoDup (columns df) ->
  feature_engineering df = Ok df' ->
  (has_column df "count" = false ->
   forall r c, getitem df "registered" = Ok r -> getitem df "casual" = Ok c ->
     exists s, add r c = Ok s /\ getitem df' "count" = Ok s)
  /\ (has_column df "count" = true -> select df' "count" = select df "count")
  /\ (has_column df "count" = false ->
      has_column df "registered" && has_column df "casual" = false ->
      has_column df' "count" = false).
Proof.
  intros U H. apply feature_engineering_steps in H.
  destruct H as (d1 & d2 & d3 & d4 & d5 & d6 & d7
                 & H1 & H2 & H3 & H4 & H5 & H6 & H7 & H8).
  assert (Hcount : select d3 "count" = select df "count").
  { carry H3. carry H2. carry H1. reflexivity. }
  assert (Hreg : select d3 "registered" = select df "registered").
  { carry H3. carry H2. carry H1. reflexivity. }
  assert (Hcas : select d3 "casual" = select df "casual").
  { carry H3. carry H2. carry H1. reflexivity. }
  assert (Hafter : select df' "count" = select d4 "count").
  { carry H8. carry H7. carry H6. carry H5. reflexivity. }
  unfold add_count in H4.
  rewrite (has_column_same _ _ _ Hcount), (has_column_same _ _ _ Hreg),
    (has_column_same _ _ _ Hcas) in H4.
  split; [|split].
  - intros Hno r c Hr Hc.
    rewrite Hno, (getitem_has_column _ _ _ Hr), (getitem_has_column _ _ _ Hc) in H4.
    simpl in H4.
    assert (Hr3 : getitem d3 "registered" = Ok r).
    { apply getitem_select. rewrite Hreg. apply getitem_select. exact Hr. }
    assert (Hc3 : getitem d3 "casual" = Ok c).
    { apply getitem_select. rewrite Hcas. apply getitem_select. exact Hc. }
    rewrite Hr3, Hc3 in H4. simpl in H4.
    destruct (add r c) as [s|] eqn:Es; simpl in H4; [|discriminate].
    inversion H4; subst; clear H4.
    exists s. split; [reflexivity|].
    apply getitem_select. rewrite Hafter. apply select_setitem_same.
    rewrite Hcount. apply has_column_select in Hno. rewrite Hno. simpl. lia.
  - intros Hyes. rewrite Hyes in H4. simpl in H4.
    inversion H4; subst; clear H4.
    rewrite Hafter. exact Hcount.
  - intros Hno Hmiss. rewrite Hno, Hmiss in H4. simpl in H4.
    inversion H4; subst; clear H4.
    apply has_column_select. rewrite Hafter, Hcount.
    apply has_column_select. exact Hno.
Qed.

Lemma riders_table_unique : NoDup (columns riders_table).
Proof. repeat constructor; simpl; intuition discriminate. Defined.

Lemma count_from_addends_witness :
  exists s, add [Num 10; Num 3] [Num 1; Num 2] = Ok s
            /\ getitem (riders_table ++ [("count", [Num 11; Num 5])])%list "count" = Ok s.
Proof.
  exact (proj1 (count_from_addends riders_table _ riders_table_unique eq_refl)
           eq_refl [Num 10; Num 3] [Num 1; Num 2] eq_refl eq_refl).
Defined.

(** ** Source resolution of [load_data] *)

(** C9. When [load_data] is given a URL (a non-empty one), the table is
    read from that URL, whatever the local path argument is: the path is
    not looked at, and neither is the default input file. *)
Theorem url_takes_precedence
        (read_csv : string -> result DataFrame) (path_exists : string -> bool)
        (path : option string) (url : option string) :
  truthy url = true ->
  load_data read_csv path_exists path url = read_csv (arg url)
  /\ forall path' path_exists',
       load_data read_csv path_exists' path' url
       = load_data read_csv path_exists path url.
Proof.
  intros Hu. unfold load_data. rewrite Hu. split; reflexivity.
Qed.

Lemma url_takes_precedence_witness :
  load_data sample_source (fun _ => true)
            (Some "rides_local.csv") (Some "https://example.org/rides.csv")
  = sample_source "https://example.org/rides.csv".
Proof.
  exact (proj1 (url_takes_precedence sample_source (fun _ => true)
                  (Some "rides_local.csv") (Some "https://example.org/rides.csv")
                  eq_refl)).
Defined.

(** An empty URL string counts as no URL: the path is used. *)
Lemma empty_url_is_no_url read_csv path_exists path :
  truthy path = true ->
  load_data read_csv path_exists path (Some EmptyString) = read_csv (arg path).
Proof. intros Hp. unfold load_data. simpl. rewrite Hp. reflexivity. Qed.

(** ** Imputation of the numeric columns *)

Section Imputation.

Variable numeric_of_scalar : Cell -> option Number.

Local Abbreviation coerce := (to_numeric numeric_of_scalar).

Lemma numeric_values_coerced s :
  numeric_values (coerce s) = Ok (numbers (coerce s)).
Proof.
  induction s as [|c s IH]; simpl; [reflexivity|].
  unfold to_numeric_cell.
  destruct c; simpl; try (destruct (numeric_of_scalar _) as [[q|b]|]; simpl);
    fold (to_numeric numeric_of_scalar s); rewrite IH; reflexivity.
Qed.

(** The median of a coerced column is always there, and the first loop
    fills with it. *)
Lemma median_coerced s :
  exists m, median (coerce s) = Ok m
            /\ (if isna m then Num 0 else m) = fill_value (coerce s).
Proof.
  unfold fill_value, median. rewrite numeric_values_coerced. simpl.
  destruct (has_infinite (coerce s)); eexists; split; reflexivity.
Qed.

(** One turn of the first loop on a column that is there. *)
Lemma impute_column_present df c s :
  NoDup (columns df) -> getitem df c = Ok s ->
  impute_column numeric_of_scalar df c
  = Ok (setitem (setitem df c (coerce s)) c
                (fillna (coerce s) (fill_value (coerce s)))).
Proof.
  intros U Hs. unfold impute_column.
  rewrite (getitem_has_column _ _ _ Hs), Hs. simpl.
  assert (G : getitem (setitem df c (coerce s)) c = Ok (coerce s)).
  { apply getitem_select, select_setitem_same, select_unique, U. }
  rewrite G. simpl.
  destruct (median_coerced s) as (m & Hm & Hf). rewrite Hm. simpl.
  rewrite Hf. reflexivity.
Qed.

(** With distinct names the first loop always returns. *)
Lemma impute_column_spec df c :
  NoDup (columns df) ->
  exists df', impute_column numeric_of_scalar df c = Ok df'
    /\ NoDup (columns df')
    /\ (forall c', c' <> c -> select df' c' = select df c')
    /\ (forall s, getitem df c = Ok s ->
          getitem df' c = Ok (fillna (coerce s) (fill_value (coerce s)))).
Proof.
  intros U. destruct (has_column df c) eqn:Hc.
  - destruct (getitem_present df c U Hc) as [s Hs].
    rewrite (impute_column_present df c s U Hs).
    eexists. split; [reflexivity|]. split; [|split].
    + apply setitem_unique, setitem_unique, U.
    + intros c' Hne.
      rewrite !select_setitem_other by congruence. reflexivity.
    + intros s' Hs'. rewrite Hs in Hs'. inversion Hs'; subst s'.
      apply getitem_select, select_setitem_same, select_unique, setitem_unique, U.
  - unfold impute_column. rewrite Hc. exists df.
    split; [reflexivity|]. split; [exact U|]. split; [reflexivity|].
    intros s Hs. apply getitem_has_column in Hs. congruence.
Qed.

Lemma impute_loop_spec cols : forall df,
  NoDup cols -> NoDup (columns df) ->
  exists df', for_each (impute_column numeric_of_scalar) cols df = Ok df'
    /\ NoDup (columns df')
    /\ (forall c', ~ In c' cols -> select df' c' = select df c')
    /\ (forall c s, In c cols -> getitem df c = Ok s ->
          getitem df' c = Ok (fillna (coerce s) (fill_value (coerce s)))).
Proof.
  induction cols as [|c cols IH]; intros df Hd U; simpl.
  - exists df. repeat split; auto. intros c s [].
  - inversion Hd as [|? ? Hn Hd']; subst.
    destruct (impute_column_spec df c U) as (d1 & E1 & U1 & F1 & S1).
    rewrite E1. simpl.
    destruct (IH d1 Hd' U1) as (d2 & E2 & U2 & F2 & S2).
    exists d2. split; [exact E2|]. split; [exact U2|]. split.
    + intros c' Hc'. rewrite F2 by tauto. apply F1. intros ->. tauto.
    + intros c0 s [<-|Hin] Hs.
      * apply getitem_select. rewrite F2 by exact Hn.
        apply getitem_select. apply S1. exact Hs.
      * apply S2; [exact Hin|].
        apply getitem_select. rewrite F1.
        -- apply getitem_select. exact Hs.
        -- intros ->. contradiction.
Qed.

(** A turn of the second loop that returns writes its own column only. *)
Lemma cast_column_spec df c df' :
  cast_column numeric_of_scalar df c = Ok df' ->
  (NoDup (columns df) -> NoDup (columns df'))
  /\ (forall c', c' <> c -> select df' c' = select df c').
Proof.
  unfold cast_column. destruct (has_column df c) eqn:Hc.
  - unfold Py.bind. intros H. split_binds H. inversion H; subst; clear H.
    split.
    + apply setitem_unique.
    + intros c' Hne. apply select_setitem_other. congruence.
  - intros H. inversion H; subst. split; auto.
Qed.

Lemma cast_loop_spec cols : forall df df',
  for_each (cast_column numeric_of_scalar) cols df = Ok df' ->
  (NoDup (columns df) -> NoDup (columns df'))
  /\ (forall c', ~ In c' cols -> select df' c' = select df c').
Proof.
  induction cols as [|c cols IH]; intros df df' H; simpl in H.
  - inversion H; subst. split; auto.
  - destruct (cast_column numeric_of_scalar df c) as [d1|] eqn:E1;
      simpl in H; [|discriminate].
    destruct (cast_column_spec df c d1 E1) as [U1 F1].
    destruct (IH d1 df' H) as [U2 F2].
    split; [auto|].
    intros c' Hc'. simpl in Hc'. rewrite F2 by tauto. apply F1.
    intros ->. tauto.
Qed.

End Imputation.

Lemma cell_eqb_refl c : cell_eqb c c = true.
Proof.
  destruct c as [| |q|b|s|t|d]; simpl; try reflexivity.
  - apply Qeq_bool_iff. reflexivity.
  - apply Bool.eqb_reflx.
  - apply String.eqb_refl.
  - unfold timestamp_eqb. rewrite !Z.eqb_refl. reflexivity.
  - unfold date_eqb. rewrite !Z.eqb_refl. reflexivity.
Qed.

Lemma fillna_no_na s v : isna v = false -> count_na (fillna s v) = O.
Proof.
  intros Hv. unfold count_na, fillna.
  induction s as [|c s IH]; simpl; [reflexivity|].
  destruct (isna c) eqn:E; simpl; [rewrite Hv|rewrite E]; exact IH.
Qed.

Lemma isna_cell_eqb c v : isna c = true -> isna v = false -> cell_eqb c v = false.
Proof. destruct c; try discriminate; destruct v; try discriminate; reflexivity. Qed.

Lemma fillna_changed s v : isna v = false -> changed s (fillna s v) = count_na s.
Proof.
  intros Hv. unfold changed, count_na, fillna.
  induction s as [|c s IH]; simpl; [reflexivity|].
  destruct (isna c) eqn:E.
  - rewrite (isna_cell_eqb c v E Hv). simpl. rewrite IH. reflexivity.
  - simpl. rewrite cell_eqb_refl. simpl. exact IH.
Qed.

Lemma fillna_nth s v i x :
  nth_error s i = Some x ->
  nth_error (fillna s v) i = Some (if isna x then v else x).
Proof.
  intros H. unfold fillna. rewrite nth_error_map, H. reflexivity.
Qed.

Lemma all_na_fill_value s : forallb isna s = true -> fill_value s = Num 0.
Proof.
  intros H. unfold fill_value, median.
  assert (X : numeric_values s = Ok [] /\ has_infinite s = false).
  { induction s as [|c s IH]; simpl; [split; reflexivity|].
    simpl in H. apply andb_true_iff in H. destruct H as [Hc Hs].
    destruct c; try discriminate; simpl; apply IH, Hs. }
  destruct X as [-> ->]. reflexivity.
Qed.

Lemma fillna_all_na s v : forallb isna s = true -> fillna s v = map (fun _ => v) s.
Proof.
  unfold fillna. induction s as [|c s IH]; simpl; [reflexivity|].
  intros H. apply andb_true_iff in H. destruct H as [Hc Hs].
  rewrite Hc, IH by exact Hs. reflexivity.
Qed.

Lemma numeric_cols_distinct : NoDup numeric_cols.
Proof. repeat constructor; simpl; intuition discriminate. Qed.

(** C4. When [impute_and_cast] returns from a table with distinct column
    names (it raises when a code column holds an infinite entry), then for
    each of temp, atemp, humidity, windspeed, casual, registered, count
    that is present, with [s1] the column coerced to numbers (unreadable
    entries missing): if [s1] has a median [m] that is a number, the
    resulting column has no missing entry, holds [m] in every row where
    [s1] was missing and the entry of [s1] in every other row, so that it
    differs from [s1] in exactly as many rows as [s1] had missing entries;
    if every entry of [s1] is missing, every entry of the result is
    zero. *)
Theorem imputation_fills_median
        (numeric_of_scalar : Cell -> option Number) df df' c s :
  NoDup (columns df) ->
  In c numeric_cols ->
  getitem df c = Ok s ->
  impute_and_cast numeric_of_scalar df = Ok df' ->
  let s1 := to_numeric numeric_of_scalar s in
  exists s',
    getitem df' c = Ok s'
    /\ (forall m, median s1 = Ok m -> isna m = false ->
          count_na s' = O
          /\ changed s1 s' = count_na s1
          /\ forall i x, nth_error s1 i = Some x ->
               nth_error s' i = Some (if isna x then m else x))
    /\ (forallb isna s1 = true -> s' = map (fun _ => Num 0) s1).
Proof.
  intros U Hin Hs H s1.
  destruct (impute_loop_spec numeric_of_scalar numeric_cols df
              numeric_cols_distinct U) as (d1 & E1 & U1 & _ & S1).
  unfold impute_and_cast in H. rewrite E1 in H. simpl in H.
  destruct (cast_loop_spec numeric_of_scalar code_cols d1 df' H) as [_ F2].
  exists (fillna s1 (fill_value s1)).
  split; [|split].
  - apply getitem_select. rewrite F2.
    + apply getitem_select. apply S1; assumption.
    + intros Hc. unfold numeric_cols in Hin. unfold code_cols in Hc.
      simpl in Hin, Hc.
      repeat (destruct Hin as [<-|Hin]; [intuition discriminate|]). exact Hin.
  - intros m Hm Hna. unfold fill_value. rewrite Hm, Hna.
    split; [apply fillna_no_na; exact Hna|].
    split; [apply fillna_changed; exact Hna|].
    intros i x Hx. apply fillna_nth. exact Hx.
  - intros Hall. rewrite (all_na_fill_value s1 Hall).
    apply fillna_all_na. exact Hall.
Qed.

Lemma gaps_table_unique : NoDup (columns gaps_table).
Proof. repeat constructor; simpl; intuition discriminate. Defined.

Lemma imputation_fills_median_witness :
  let s1 := to_numeric (fun _ => None) [Num 1; NaN; Num 4; Str "n/a"; Num 2] in
  exists s',
    getitem gaps_filled "temp" = Ok s'
    /\ (forall m, median s1 = Ok m -> isna m = false ->
          count_na s' = O
          /\ changed s1 s' = count_na s1
          /\ forall i x, nth_error s1 i = Some x ->
               nth_error s' i = Some (if isna x then m else x))
    /\ (forallb isna s1 = true -> s' = map (fun _ => Num 0) s1).
Proof.
  apply (imputation_fills_median (fun _ => None) gaps_table gaps_filled "temp").
  - exact gaps_table_unique.
  - simpl. tauto.
  - reflexivity.
  - reflexivity.
Defined.

(** The filled column of that table: its median is 2, two rows were
    missing, and three rows now hold the median, since one row held it
    already. *)
Lemma filled_rows_and_median_rows :
  let s1 := to_numeric (fun _ => None) [Num 1; NaN; Num 4; Str "n/a"; Num 2] in
  (r <- impute_and_cast (fun _ => None) gaps_table ;; getitem r "temp")
  = Ok [Num 1; Num 2; Num 4; Num 2; Num 2]
  /\ median s1 = Ok (Num 2)
  /\ count_na s1 = 2%nat
  /\ List.length (filter (cell_eqb (Num 2)) [Num 1; Num 2; Num 4; Num 2; Num 2]) = 3%nat.
Proof. repeat split. Qed.

(** An infinite reading takes its place in the order: the median of 1 and
    infinity is infinite, and that is what fills the gap. *)
Lemma infinite_median_fills :
  median [Num 1; Inf false; NaN] = Ok (Inf false)
  /\ (r <- impute_and_cast (fun _ => None) [("temp", [Num 1; Inf false; NaN])] ;;
      getitem r "temp")
     = Ok [Num 1; Inf false; Inf false].
Proof. split; reflexivity. Qed.

(** ** Wind speed: zero substitution and binning *)

Lemma csv_select_to_csv df c :
  csv_select (to_csv df) c = map (map to_field) (select df c).
Proof.
  unfold csv_select, to_csv, select.
  induction df as [|[n v] df IH]; simpl; [reflexivity|].
  destruct (String.eqb c n); simpl; rewrite IH; reflexivity.
Qed.

Lemma replace_zero_nth s v i q :
  nth_error s i = Some (Num q) -> Qeq_bool q 0 = true ->
  nth_error (replace_zero s v) i = Some v.
Proof.
  intros H Hz. unfold replace_zero. rewrite nth_error_map, H. simpl.
  rewrite Hz. reflexivity.
Qed.

(** What the last step does to a table that has wind speed and no
    wind-speed category yet. *)
Lemma add_windspeed_category_present d d' s :
  getitem d "windspeed" = Ok s ->
  has_column d "windspeed_category" = false ->
  add_windspeed_category d = Ok d' ->
  exists m cats,
    median s = Ok m
    /\ qcut (replace_zero s m) 3 level_labels = Ok cats
    /\ d' = setitem (setitem d "windspeed" (replace_zero s m))
                    "windspeed_category" cats.
Proof.
  intros Hs Hno H. unfold add_windspeed_category in H.
  rewrite (getitem_has_column _ _ _ Hs), Hno, Hs in H. simpl in H.
  destruct (median s) as [m|] eqn:Em; simpl in H; [|discriminate].
  assert (G : getitem (setitem d "windspeed" (replace_zero s m)) "windspeed"
              = Ok (replace_zero s m)).
  { apply getitem_select, select_setitem_same.
    apply getitem_select in Hs. rewrite Hs. simpl. lia. }
  rewrite G in H. simpl in H.
  destruct (qcut (replace_zero s m) 3 level_labels) as [cats|] eqn:Eq;
    simpl in H; [|discriminate].
  inversion H; subst; clear H.
  exists m, cats. auto.
Qed.

Lemma windspeed_rewritten d df' s :
  feature_engineering d = Ok df' ->
  getitem d "windspeed" = Ok s ->
  has_column d "windspeed_category" = false ->
  exists m, median s = Ok m
            /\ getitem df' "windspeed" = Ok (replace_zero s m).
Proof.
  intros H Hs Hno. apply feature_engineering_steps in H.
  destruct H as (d1 & d2 & d3 & d4 & d5 & d6 & d7
                 & H1 & H2 & H3 & H4 & H5 & H6 & H7 & H8).
  assert (Hw : select d7 "windspeed" = select d "windspeed").
  { carry H7. carry H6. carry H5. carry H4. carry H3. carry H2. carry H1.
    reflexivity. }
  assert (Hc : select d7 "windspeed_category" = select d "windspeed_category").
  { carry H7. carry H6. carry H5. carry H4. carry H3. carry H2. carry H1.
    reflexivity. }
  assert (Hs7 : getitem d7 "windspeed" = Ok s).
  { apply getitem_select. rewrite Hw. apply getitem_select. exact Hs. }
  assert (Hno7 : has_column d7 "windspeed_category" = false).
  { rewrite (has_column_same _ _ _ Hc). exact Hno. }
  destruct (add_windspeed_category_present d7 df' s Hs7 Hno7 H8)
    as (m & cats & Hm & _ & ->).
  exists m. split; [exact Hm|].
  apply getitem_select.
  rewrite select_setitem_other by discriminate.
  apply select_setitem_same. rewrite Hw.
  apply getitem_select in Hs. rewrite Hs. simpl. lia.
Qed.

Section Persisted.

Variable read_csv : string -> result DataFrame.
Variable path_exists : string -> bool.
Variable numeric_of_scalar : Cell -> option Number.
Variable timestamp_of_scalar : Cell -> option Timestamp.

Local Abbreviation run :=
  (process read_csv path_exists numeric_of_scalar timestamp_of_scalar).

(** A run of [process] that returns went through every stage, and wrote
    the table it returns. *)
Lemma process_stages input url out df' path csv :
  run input url out = Ok (df', (path, csv)) ->
  exists raw d0 d1,
    load_data read_csv path_exists input url = Ok raw
    /\ basic_clean timestamp_of_scalar raw = Ok d0
    /\ impute_and_cast numeric_of_scalar d0 = Ok d1
    /\ feature_engineering d1 = Ok df'
    /\ csv = to_csv df'.
Proof.
  unfold process. intros H.
  destruct (load_data read_csv path_exists input url) as [raw|] eqn:E0;
    simpl in H; [|discriminate].
  destruct (basic_clean timestamp_of_scalar raw) as [d0|] eqn:E1;
    simpl in H; [|discriminate].
  destruct (impute_and_cast numeric_of_scalar d0) as [d1|] eqn:E2;
    simpl in H; [|discriminate].
  destruct (feature_engineering d1) as [d2|] eqn:E3; simpl in H; [|discriminate].
  inversion H; subst. exists raw, d0, d1. auto.
Qed.

(** C10. Whenever [process] returns, with [d1] the table after
    imputation: if [d1] has a wind-speed column [s] and no wind-speed
    category column, then the wind-speed column of the returned table,
    and the wind-speed column written to the artifact, is [s] with every
    zero replaced by the median [m] of [s]; every row that held zero
    after imputation holds the text of [m] in the artifact. *)
Theorem zero_windspeed_persisted input url out df' path csv raw d0 d1 s :
  run input url out = Ok (df', (path, csv)) ->
  load_data read_csv path_exists input url = Ok raw ->
  basic_clean timestamp_of_scalar raw = Ok d0 ->
  impute_and_cast numeric_of_scalar d0 = Ok d1 ->
  getitem d1 "windspeed" = Ok s ->
  has_column d1 "windspeed_category" = false ->
  exists m,
    median s = Ok m
    /\ getitem df' "windspeed" = Ok (replace_zero s m)
    /\ csv_select csv "windspeed" = [map to_field (replace_zero s m)]
    /\ forall i q, nth_error s i = Some (Num q) -> Qeq_bool q 0 = true ->
         nth_error (map to_field (replace_zero s m)) i = Some (to_field m).
Proof.
  intros H E0 E1 E2 Hs Hno.
  destruct (process_stages _ _ _ _ _ _ H) as (raw' & d0' & d1' & F0 & F1 & F2 & F3 & ->).
  rewrite E0 in F0. inversion F0; subst raw'.
  rewrite E1 in F1. inversion F1; subst d0'.
  rewrite E2 in F2. inversion F2; subst d1'.
  destruct (windspeed_rewritten d1 df' s F3 Hs Hno) as (m & Hm & Hw).
  exists m. split; [exact Hm|]. split; [exact Hw|]. split.
  - rewrite csv_select_to_csv. apply getitem_select in Hw. rewrite Hw. reflexivity.
  - intros i q Hi Hz. rewrite nth_error_map.
    rewrite (replace_zero_nth s m i q Hi Hz). reflexivity.
Qed.

End Persisted.

Lemma zero_windspeed_persisted_witness :
  exists m,
    median [Num 0; Num 10; Num 20; Num 30; Num 40] = Ok m
    /\ getitem [("windspeed", [Num 20; Num 10; Num 20; Num 30; Num 40]);
                ("windspeed_category",
                 [Str "low"; Str "low"; Str "low"; Str "high"; Str "high"])]
               "windspeed"
       = Ok (replace_zero [Num 0; Num 10; Num 20; Num 30; Num 40] m)
    /\ csv_select
         (to_csv [("windspeed", [Num 20; Num 10; Num 20; Num 30; Num 40]);
                  ("windspeed_category",
                   [Str "low"; Str "low"; Str "low"; Str "high"; Str "high"])])
         "windspeed"
       = [map to_field (replace_zero [Num 0; Num 10; Num 20; Num 30; Num 40] m)]
    /\ forall i q,
         nth_error [Num 0; Num 10; Num 20; Num 30; Num 40] i = Some (Num q) ->
         Qeq_bool q 0 = true ->
         nth_error (map to_field
                      (replace_zero [Num 0; Num 10; Num 20; Num 30; Num 40] m)) i
         = Some (to_field m).
Proof.
  exact (zero_windspeed_persisted breeze_source (fun _ => false)
           (fun _ => None) (fun _ => None) None None None
           _ _ _ breeze_table breeze_table breeze_table
           [Num 0; Num 10; Num 20; Num 30; Num 40]
           eq_refl eq_refl eq_refl eq_refl eq_refl eq_refl).
Defined.

(** The zero reading cannot be told from a reading equal to the median:
    both inputs give one and the same artifact. *)
Lemma zero_reading_not_recoverable :
  breeze_table <> breeze_table'
  /\ (r <- feature_engineering breeze_table ;; Ok (to_csv r))
     = (r <- feature_engineering breeze_table' ;; Ok (to_csv r)).
Proof. split; [discriminate|reflexivity]. Qed.

(** C5. On the specification's example column 0, 0, 10, 20, 30 the zeros
    are replaced by the median 10, which leaves three equal readings; the
    tercile edges of 10, 10, 10, 20, 30 then repeat, and
    [feature_engineering] raises a ValueError instead of returning a
    binned column. *)
Theorem windspeed_example_raises :
  median [Num 0; Num 0; Num 10; Num 20; Num 30] = Ok (Num 10)
  /\ replace_zero [Num 0; Num 0; Num 10; Num 20; Num 30] (Num 10)
     = [Num 10; Num 10; Num 10; Num 20; Num 30]
  /\ quantile_edges [10; 10; 10; 20; 30]%Q 3 = Some [10; 30 # 3; 50 # 3; 30]%Q
  /\ qcut [Num 10; Num 10; Num 10; Num 20; Num 30] 3 level_labels = Raise ValueError
  /\ feature_engineering calm_table = Raise ValueError.
Proof. repeat split. Qed.

(** ** When the pipeline raises after a successful load *)

(** C1. A file of five distinct rows loads, yet [process] raises: the
    temperature column takes two values, its quartile edges repeat, and
    the binning of temp is a ValueError. *)
Theorem process_raises_after_load :
  load_data mild_week_source (fun _ => false) None None = Ok mild_week
  /\ process mild_week_source (fun _ => false) (fun _ => None) (fun _ => None)
             None None None
     = Raise ValueError.
Proof. split; reflexivity. Qed.

(** A table with none of the source columns passes through unchanged: each
    step is skipped, none raises. *)
Lemma feature_engineering_skips df :
  has_column df "datetime" = false ->
  has_column df "season" = false ->
  has_column df "weather" = false ->
  has_column df "registered" && has_column df "casual" = false ->
  has_column df "temp" = false ->
  has_column df "atemp" = false ->
  has_column df "humidity" = false ->
  has_column df "windspeed" = false ->
  feature_engineering df = Ok df.
Proof.
  intros Hd Hs Hw Hc Ht Ha Hh Hv.
  unfold feature_engineering, add_datetime_parts. rewrite Hd. simpl.
  unfold add_season_label. rewrite Hs. simpl.
  unfold add_weather_label. rewrite Hw. simpl.
  unfold add_count. rewrite Hc, andb_false_r. simpl.
  unfold add_temp_category. rewrite Ht. simpl.
  unfold add_atemp_category. rewrite Ha. simpl.
  unfold add_humidity_category. rewrite Hh. simpl.
  unfold add_windspeed_category. rewrite Hv. reflexivity.
Qed.

(** ** Which derived columns are guarded *)

(** A step whose source column is missing, or whose guarded target is
    already there, returns the table it was given. *)

Lemma add_datetime_parts_skipped d d' :
  has_column d "datetime" = false -> add_datetime_parts d = Ok d' -> d' = d.
Proof. unfold add_datetime_parts. intros ->. congruence. Qed.

Lemma add_season_label_skipped d d' :
  has_column d "season" = false -> add_season_label d = Ok d' -> d' = d.
Proof. unfold add_season_label. intros ->. congruence. Qed.

Lemma add_weather_label_skipped d d' :
  has_column d "weather" = false -> add_weather_label d = Ok d' -> d' = d.
Proof. unfold add_weather_label. intros ->. congruence. Qed.

Lemma add_count_skipped d d' :
  has_column d "count" = true
  \/ has_column d "registered" = false \/ has_column d "casual" = false ->
  add_count d = Ok d' -> d' = d.
Proof.
  unfold add_count. intros [H|[H|H]]; rewrite H; simpl;
    rewrite ?andb_false_r; simpl; congruence.
Qed.

Lemma add_temp_category_skipped d d' :
  has_column d "temp" = false \/ has_column d "temp_category" = true ->
  add_temp_category d = Ok d' -> d' = d.
Proof.
  unfold add_temp_category. intros [H|H]; rewrite H; simpl;
    rewrite ?andb_false_r; simpl; congruence.
Qed.

Lemma add_atemp_category_skipped d d' :
  has_column d "atemp" = false \/ has_column d "atemp_category" = true ->
  add_atemp_category d = Ok d' -> d' = d.
Proof.
  unfold add_atemp_category. intros [H|H]; rewrite H; simpl;
    rewrite ?andb_false_r; simpl; congruence.
Qed.

Lemma add_humidity_category_skipped d d' :
  has_column d "humidity" = false \/ has_column d "humidity_category" = true ->
  add_humidity_category d = Ok d' -> d' = d.
Proof.
  unfold add_humidity_category. intros [H|H]; rewrite H; simpl;
    rewrite ?andb_false_r; simpl; congruence.
Qed.

Lemma add_windspeed_category_skipped d d' :
  has_column d "windspeed" = false \/ has_column d "windspeed_category" = true ->
  add_windspeed_category d = Ok d' -> d' = d.
Proof.
  unfold add_windspeed_category. intros [H|H]; rewrite H; simpl;
    rewrite ?andb_false_r; simpl; congruence.
Qed.

(** The first step on a table that has a timestamp column. *)
Lemma add_datetime_parts_present d d' s :
  getitem d "datetime" = Ok s -> add_datetime_parts d = Ok d' ->
  exists t,
    dt s = Ok t
    /\ d' = setitem (setitem (setitem (setitem (setitem (setitem d
              "hour" (dt_int ts_hour t))
              "day_of_week" (dt_day_name t))
              "weekday" (dt_int weekday t))
              "month" (dt_int ts_month t))
              "year" (dt_int ts_year t))
              "date" (dt_date t).
Proof.
  intros Hs H. unfold add_datetime_parts in H.
  rewrite (getitem_has_column _ _ _ Hs), Hs in H. simpl in H.
  destruct (dt s) as [t|] eqn:Et; simpl in H; [|discriminate].
  exists t. split; [reflexivity|].
  apply getitem_select in Hs.
  repeat match type of H with
         | context [getitem ?x "datetime"] =>
             let G := fresh "G" in
             assert (G : getitem x "datetime" = Ok s)
               by (apply getitem_select;
                   repeat (rewrite select_setitem_other by discriminate);
                   exact Hs);
             rewrite G in H; simpl in H; rewrite ?Et in H; simpl in H; clear G
         end.
  inversion H. reflexivity.
Qed.

(** Reading one column out of a run of assignments. *)
Ltac read_assigned U :=
  apply getitem_select;
  repeat (rewrite select_setitem_other by discriminate);
  apply select_setitem_same;
  repeat (rewrite select_setitem_other by discriminate);
  apply select_unique; exact U.

(** The calendar columns of a returned table that has timestamps. *)
Lemma datetime_parts_derived df df' s :
  NoDup (columns df) ->
  feature_engineering df = Ok df' ->
  getitem df "datetime" = Ok s ->
  exists t, dt s = Ok t
    /\ getitem df' "hour" = Ok (dt_int ts_hour t)
    /\ getitem df' "day_of_week" = Ok (dt_day_name t)
    /\ getitem df' "weekday" = Ok (dt_int weekday t)
    /\ getitem df' "month" = Ok (dt_int ts_month t)
    /\ getitem df' "year" = Ok (dt_int ts_year t)
    /\ getitem df' "date" = Ok (dt_date t).
Proof.
  intros U H Hs. apply feature_engineering_steps in H.
  destruct H as (d1 & d2 & d3 & d4 & d5 & d6 & d7
                 & H1 & H2 & H3 & H4 & H5 & H6 & H7 & H8).
  destruct (add_datetime_parts_present df d1 s Hs H1) as (t & Ht & E).
  exists t. split; [exact Ht|].
  assert (G : forall c, In c datetime_parts -> select df' c = select d1 c).
  { intros c Hc. unfold datetime_parts in Hc. simpl in Hc.
    repeat (destruct Hc as [<-|Hc];
            [carry H8; carry H7; carry H6; carry H5; carry H4; carry H3;
             carry H2; reflexivity|]).
    contradiction. }
  repeat split; apply getitem_select;
    (rewrite G by (unfold datetime_parts; simpl; tauto));
    apply getitem_select; rewrite E; read_assigned U.
Qed.

(** No step writes the timestamp column. *)
Lemma datetime_untouched df df' :
  feature_engineering df = Ok df' ->
  select df' "datetime" = select df "datetime".
Proof.
  intros H. apply feature_engineering_steps in H.
  destruct H as (d1 & d2 & d3 & d4 & d5 & d6 & d7
                 & H1 & H2 & H3 & H4 & H5 & H6 & H7 & H8).
  carry H8. carry H7. carry H6. carry H5. carry H4. carry H3. carry H2. carry H1.
  reflexivity.
Qed.

(** Transport [select df' c] back to the input over the steps, where the
    step that writes [c] has already been shown to do nothing. *)
Ltac rewind H1 H2 H3 H4 H5 H6 H7 H8 :=
  try carry H8; try carry H7; try carry H6; try carry H5;
  try carry H4; try carry H3; try carry H2; try carry H1.

(** [has_column d c] for an intermediate table [d], from the input [df]. *)
Ltac same_presence df d c H1 H2 H3 H4 H5 H6 H7 H8 :=
  let X := fresh "X" in
  assert (X : select d c = select df c)
    by (rewind H1 H2 H3 H4 H5 H6 H7 H8; reflexivity);
  apply has_column_same in X.

(** The step [H : step d = Ok d'] did nothing, by its lemma [L]. *)
Ltac idle L d d' H side :=
  let E := fresh "E" in
  assert (E : d' = d) by (apply L; [side; congruence | exact H]);
  subst d'.

(** C2 (amended). On a table with distinct column names that
    [feature_engineering] returns from:
    - count, temp_category, atemp_category, humidity_category and
      windspeed_category are returned as they came when the input already
      has them;
    - every derived column is returned as it came (or stays absent) when
      a source column it is computed from is missing;
    - hour, day_of_week, weekday, month, year and date are computed from
      the datetime column whenever it is present, and season_label and
      weather_label from season and weather whenever those are present,
      whether or not the input already has a column of that name. *)
Theorem derived_columns_guards df df' :
  NoDup (columns df) ->
  feature_engineering df = Ok df' ->
  (forall t, In t guarded_targets -> has_column df t = true ->
     select df' t = select df t)
  /\ (forall t p, In (t, p) prerequisites -> has_column df p = false ->
        select df' t = select df t)
  /\ (forall s, getitem df "datetime" = Ok s ->
        exists t, dt s = Ok t
          /\ getitem df' "hour" = Ok (dt_int ts_hour t)
          /\ getitem df' "day_of_week" = Ok (dt_day_name t)
          /\ getitem df' "weekday" = Ok (dt_int weekday t)
          /\ getitem df' "month" = Ok (dt_int ts_month t)
          /\ getitem df' "year" = Ok (dt_int ts_year t)
          /\ getitem df' "date" = Ok (dt_date t))
  /\ (forall s, getitem df "season" = Ok s ->
        getitem df' "season_label" = Ok (map (fun c => Str (season_name c)) s))
  /\ (forall s, getitem df "weather" = Ok s ->
        getitem df' "weather_label" = Ok (map (fun c => Str (weather_name c)) s)).
Proof.
  intros U H. assert (H0 := H). apply feature_engineering_steps in H.
  destruct H as (d1 & d2 & d3 & d4 & d5 & d6 & d7
                 & H1 & H2 & H3 & H4 & H5 & H6 & H7 & H8).
  assert (U1 := U). keep_unique H1 U1.
  assert (U2 := U1). keep_unique H2 U2.
  split; [|split; [|split; [|split]]].
  - intros t Ht Hyes. unfold guarded_targets in Ht. simpl in Ht.
    destruct Ht as [<-|[<-|[<-|[<-|[<-|[]]]]]].
    + same_presence df d3 "count" H1 H2 H3 H4 H5 H6 H7 H8.
      idle add_count_skipped d3 d4 H4 ltac:(left).
      rewind H1 H2 H3 H4 H5 H6 H7 H8. reflexivity.
    + same_presence df d4 "temp_category" H1 H2 H3 H4 H5 H6 H7 H8.
      idle add_temp_category_skipped d4 d5 H5 ltac:(right).
      rewind H1 H2 H3 H4 H5 H6 H7 H8. reflexivity.
    + same_presence df d5 "atemp_category" H1 H2 H3 H4 H5 H6 H7 H8.
      idle add_atemp_category_skipped d5 d6 H6 ltac:(right).
      rewind H1 H2 H3 H4 H5 H6 H7 H8. reflexivity.
    + same_presence df d6 "humidity_category" H1 H2 H3 H4 H5 H6 H7 H8.
      idle add_humidity_category_skipped d6 d7 H7 ltac:(right).
      rewind H1 H2 H3 H4 H5 H6 H7 H8. reflexivity.
    + same_presence df d7 "windspeed_category" H1 H2 H3 H4 H5 H6 H7 H8.
      idle add_windspeed_category_skipped d7 df' H8 ltac:(right).
      rewind H1 H2 H3 H4 H5 H6 H7 H8. reflexivity.
  - intros t p Hin Hno. unfold prerequisites in Hin. simpl in Hin.
    repeat match type of Hin with
           | _ \/ _ => destruct Hin as [Hin|Hin]
           end;
      try contradiction; inversion Hin; subst t p; clear Hin.
    1-6: assert (E : d1 = df) by (apply add_datetime_parts_skipped; assumption);
         subst d1; rewind H1 H2 H3 H4 H5 H6 H7 H8; reflexivity.
    + same_presence df d1 "season" H1 H2 H3 H4 H5 H6 H7 H8.
      idle add_season_label_skipped d1 d2 H2 ltac:(idtac).
      rewind H1 H2 H3 H4 H5 H6 H7 H8. reflexivity.
    + same_presence df d2 "weather" H1 H2 H3 H4 H5 H6 H7 H8.
      idle add_weather_label_skipped d2 d3 H3 ltac:(idtac).
      rewind H1 H2 H3 H4 H5 H6 H7 H8. reflexivity.
    + same_presence df d3 "registered" H1 H2 H3 H4 H5 H6 H7 H8.
      idle add_count_skipped d3 d4 H4 ltac:((right; left)).
      rewind H1 H2 H3 H4 H5 H6 H7 H8. reflexivity.
    + same_presence df d3 "casual" H1 H2 H3 H4 H5 H6 H7 H8.
      idle add_count_skipped d3 d4 H4 ltac:((right; right)).
      rewind H1 H2 H3 H4 H5 H6 H7 H8. reflexivity.
    + same_presence df d4 "temp" H1 H2 H3 H4 H5 H6 H7 H8.
      idle add_temp_category_skipped d4 d5 H5 ltac:(left).
      rewind H1 H2 H3 H4 H5 H6 H7 H8. reflexivity.
    + same_presence df d5 "atemp" H1 H2 H3 H4 H5 H6 H7 H8.
      idle add_atemp_category_skipped d5 d6 H6 ltac:(left).
      rewind H1 H2 H3 H4 H5 H6 H7 H8. reflexivity.
    + same_presence df d6 "humidity" H1 H2 H3 H4 H5 H6 H7 H8.
      idle add_humidity_category_skipped d6 d7 H7 ltac:(left).
      rewind H1 H2 H3 H4 H5 H6 H7 H8. reflexivity.
    + same_presence df d7 "windspeed" H1 H2 H3 H4 H5 H6 H7 H8.
      idle add_windspeed_category_skipped d7 df' H8 ltac:(left).
      rewind H1 H2 H3 H4 H5 H6 H7 H8. reflexivity.
  - intros s Hs. apply (datetime_parts_derived df df' s U H0 Hs).
  - intros s Hs.
    assert (Hs1 : getitem d1 "season" = Ok s).
    { apply getitem_select. carry H1. apply getitem_select. exact Hs. }
    pose proof (add_season_label_present d1 d2 s U1 Hs1 H2) as L.
    apply getitem_select. apply getitem_select in L.
    carry H8. carry H7. carry H6. carry H5. carry H4. carry H3. exact L.
  - intros s Hs.
    assert (Hs2 : getitem d2 "weather" = Ok s).
    { apply getitem_select. carry H2. carry H1. apply getitem_select. exact Hs. }
    pose proof (add_weather_label_present d2 d3 s U2 Hs2 H3) as L.
    apply getitem_select. apply getitem_select in L.
    carry H8. carry H7. carry H6. carry H5. carry H4. exact L.
Qed.

Lemma relabelled_table_unique : NoDup (columns relabelled_table).
Proof. repeat constructor; simpl; intuition discriminate. Defined.

Lemma derived_columns_guards_witness :
  getitem [("season", [Num 1; Num 3]); ("season_label", [Str "spring"; Str "fall"])]
          "season_label"
  = Ok (map (fun c => Str (season_name c)) [Num 1; Num 3]).
Proof.
  exact (proj1 (proj2 (proj2 (proj2
           (derived_columns_guards relabelled_table _
              relabelled_table_unique eq_refl))))
           [Num 1; Num 3] eq_refl).
Defined.

(** C2 as stated fails: a table that already has a season_label column
    does not keep its values; they are overwritten from the season
    codes. *)
Lemma existing_label_overwritten :
  ~ (forall df',
       feature_engineering relabelled_table = Ok df' ->
       has_column relabelled_table "season_label" = true ->
       select df' "season_label" = select relabelled_table "season_label").
Proof.
  intros H. specialize (H _ eq_refl eq_refl). discriminate H.
Qed.

(** ** The report generator and the table it is handed *)

Section Renderers.

Import Plots.

Variable read_file : string -> option Csv.
Variable timestamp_of_scalar : Cell -> option Timestamp.
Variable call_error : Call -> DataFrame -> option Exn.

Lemma frame_kept_ret {A : Type} (a : A) : frame_kept (ret a).
Proof. intros st. reflexivity. Qed.

Lemma frame_kept_lift {A : Type} (r : result A) : frame_kept (lift r).
Proof. intros st. reflexivity. Qed.

Lemma frame_kept_get : frame_kept get_frame.
Proof. intros st. reflexivity. Qed.

Lemma frame_kept_save name : frame_kept (_save name).
Proof. intros st. reflexivity. Qed.

Lemma frame_kept_call c : frame_kept (call call_error c).
Proof.
  intros st. unfold call. destruct (call_error c (frame st)); reflexivity.
Qed.

Lemma frame_kept_bind {A B : Type} (m : M A) (k : A -> M B) :
  frame_kept m -> (forall a, frame_kept (k a)) -> frame_kept (bind m k).
Proof.
  intros Hm Hk st. unfold bind. specialize (Hm st).
  destruct (m st) as [[a|e] st1]; simpl in *.
  - rewrite (Hk a st1). exact Hm.
  - exact Hm.
Qed.

Lemma frame_kept_try {A : Type} (m h : M A) :
  frame_kept m -> frame_kept h -> frame_kept (try_except m h).
Proof.
  intros Hm Hh st. unfold try_except. specialize (Hm st).
  destruct (m st) as [[a|e] st1]; simpl in *.
  - exact Hm.
  - rewrite (Hh st1). exact Hm.
Qed.

Lemma frame_kept_for_each body l :
  (forall x, frame_kept (body x)) -> frame_kept (for_each body l).
Proof.
  intros Hb. induction l as [|x l IH]; simpl.
  - apply frame_kept_ret.
  - apply frame_kept_bind; [apply Hb|]. intros _. exact IH.
Qed.

Ltac kept :=
  repeat first
    [ apply frame_kept_ret | apply frame_kept_get | apply frame_kept_save
    | apply frame_kept_call | apply frame_kept_lift
    | apply frame_kept_try
    | apply frame_kept_bind; [|intros ?]
    | match goal with
      | |- frame_kept (if ?b then _ else _) => destruct b
      end ].

Lemma plot_seasonal_trends_frame a b :
  frame_kept (plot_seasonal_trends call_error a b).
Proof. unfold plot_seasonal_trends. kept. Qed.

Lemma plot_temp_vs_count_frame a b :
  frame_kept (plot_temp_vs_count call_error a b).
Proof. unfold plot_temp_vs_count. kept. Qed.

Lemma plot_category_counts_frame a :
  frame_kept (plot_category_counts call_error a).
Proof. unfold plot_category_counts. kept. Qed.

Lemma plot_registered_vs_casual_frame a b :
  frame_kept (plot_registered_vs_casual call_error a b).
Proof. unfold plot_registered_vs_casual. kept. Qed.

Lemma plot_correlation_heatmap_frame :
  frame_kept (plot_correlation_heatmap call_error).
Proof. unfold plot_correlation_heatmap. kept. Qed.

(** The hourly renderer is the one that writes: without an hour column
    it appends one, read off the timestamps. *)
Lemma plot_hourly_pattern_frame st :
  let st' := snd (plot_hourly_pattern timestamp_of_scalar call_error
                    "hour" "count" st) in
  frame st' = frame st
  \/ (has_column (frame st) "hour" = false
      /\ exists h, frame st' = (frame st ++ [("hour", h)])%list).
Proof.
  unfold plot_hourly_pattern, bind, get_frame. simpl.
  destruct (has_column (frame st) "hour") eqn:Hh; simpl.
  - left.
    pose proof (frame_kept_call (GroupbyMean "hour" "count") st) as K1.
    destruct (call call_error (GroupbyMean "hour" "count") st) as [[[]|e] st1];
      simpl in *; [|exact K1].
    pose proof (frame_kept_call (Lineplot "hour" "count") st1) as K2.
    destruct (call call_error (Lineplot "hour" "count") st1) as [[[]|e] st2];
      simpl in *; congruence.
  - destruct (has_column (frame st) "datetime"); simpl; [|left; reflexivity].
    unfold lift.
    destruct (Py.bind (getitem (frame st) "datetime") _) as [h|e]; simpl;
      [|left; reflexivity].
    right. split; [reflexivity|]. exists h.
    unfold assign. simpl.
    set (st0 := {| frame := setitem (frame st) "hour" h; figures := figures st |}).
    assert (F0 : frame st0 = (frame st ++ [("hour", h)])%list)
      by (apply setitem_absent; exact Hh).
    pose proof (frame_kept_call (GroupbyMean "hour" "count") st0) as K1.
    destruct (call call_error (GroupbyMean "hour" "count") st0) as [[[]|e] st1];
      simpl in *; [|congruence].
    pose proof (frame_kept_call (Lineplot "hour" "count") st1) as K2.
    destruct (call call_error (Lineplot "hour" "count") st1) as [[[]|e] st2];
      simpl in *; congruence.
Qed.

Lemma after_hourly_frame :
  frame_kept
    (bind (for_each
             (fun cat =>
                bind get_frame
                     (fun df => if has_column df cat
                                then plot_category_counts call_error cat
                                else ret tt))
             category_plots)
          (fun _ => bind (plot_registered_vs_casual call_error "registered" "casual")
                         (fun _ => plot_correlation_heatmap call_error))).
Proof.
  apply frame_kept_bind.
  - apply frame_kept_for_each. intros cat.
    apply frame_kept_bind; [apply frame_kept_get|]. intros df.
    destruct (has_column df cat);
      [apply plot_category_counts_frame|apply frame_kept_ret].
  - intros _. apply frame_kept_bind.
    + apply plot_registered_vs_casual_frame.
    + intros _. apply plot_correlation_heatmap_frame.
Qed.

Lemma render_all_frame st r st' :
  render_all timestamp_of_scalar call_error st = (r, st') ->
  frame st' = frame st
  \/ (has_column (frame st) "hour" = false
      /\ exists h, frame st' = (frame st ++ [("hour", h)])%list).
Proof.
  unfold render_all. unfold bind at 1. intros H.
  pose proof (plot_seasonal_trends_frame "season_label" "count" st) as K1.
  destruct (plot_seasonal_trends call_error "season_label" "count" st)
    as [[[]|e] st1]; simpl in K1;
    [|inversion H; subst; left; exact K1].
  unfold bind at 1 in H.
  pose proof (plot_temp_vs_count_frame "temp" "count" st1) as K2.
  destruct (plot_temp_vs_count call_error "temp" "count" st1)
    as [[[]|e] st2]; simpl in K2;
    [|inversion H; subst; left; congruence].
  unfold bind at 1 in H.
  pose proof (plot_hourly_pattern_frame st2) as K3.
  destruct (plot_hourly_pattern timestamp_of_scalar call_error "hour" "count" st2)
    as [[[]|e] st3]; simpl in K3; rewrite K2, K1 in K3.
  - pose proof (after_hourly_frame st3) as K4.
    change (for_each _ category_plots) with
      (for_each
         (fun cat =>
            bind get_frame
                 (fun df => if has_column df cat
                            then plot_category_counts call_error cat
                            else ret tt))
         category_plots) in H.
    rewrite H in K4. simpl in K4. rewrite K4. exact K3.
  - inversion H; subst. exact K3.
Qed.

(** C3 (amended). When [generate_all] has loaded the artifact (and
    rebuilt the date-only column if it was missing), the renderers leave
    every column of the table as loaded, in place and in value, whether
    they finish or raise; the one thing a renderer can add is an hour
    column, appended at the end by the hourly renderer when the table
    has none.  A table that has an hour column is left exactly as
    loaded. *)
Theorem renderers_keep_loaded_columns input r st :
  generate_all read_file timestamp_of_scalar call_error input = Ok (r, st) ->
  exists df,
    load_processed read_file timestamp_of_scalar input = Ok df
    /\ (frame st = df
        \/ (has_column df "hour" = false
            /\ exists h, frame st = (df ++ [("hour", h)])%list))
    /\ (has_column df "hour" = true -> frame st = df).
Proof.
  unfold generate_all. intros H.
  destruct (load_processed read_file timestamp_of_scalar input) as [df|] eqn:E;
    simpl in H; [|discriminate].
  exists df. split; [reflexivity|].
  inversion H as [H'].
  pose proof (render_all_frame (MkState df []) r st H') as K. simpl in K.
  split; [exact K|].
  intros Hh. destruct K as [K|[K _]]; [exact K|congruence].
Qed.

End Renderers.

(** A table that [feature_engineering] returns with a datetime column has
    an hour column, so the hourly renderer has nothing to add to an
    artifact the pipeline wrote. *)
Lemma processed_table_has_hour d df :
  NoDup (columns d) ->
  feature_engineering d = Ok df ->
  has_column df "datetime" = true ->
  has_column df "hour" = true.
Proof.
  intros U H Hdt.
  assert (Hd : has_column d "datetime" = true).
  { rewrite <- (has_column_same _ _ _ (datetime_untouched d df H)). exact Hdt. }
  destruct (getitem_present d "datetime" U Hd) as [s Hs].
  destruct (datetime_parts_derived d df s U H Hs) as (t & _ & Hh & _).
  apply (getitem_has_column _ _ _ Hh).
Qed.

Lemma renderers_keep_loaded_columns_witness :
  exists df,
    Plots.load_processed hourless_files sample_clock "data/processed_yulu_data.csv"
    = Ok df
    /\ (Plots.frame
          (snd (Plots.render_all sample_clock always_draws
                  (Plots.MkState
                     [("datetime", [Time new_year_5am]); ("count", [Num 16]);
                      ("date", [Day (MkDate 2011 1 1)])] [])))
        = df
        \/ (has_column df "hour" = false
            /\ exists h,
                 Plots.frame
                   (snd (Plots.render_all sample_clock always_draws
                           (Plots.MkState
                              [("datetime", [Time new_year_5am]); ("count", [Num 16]);
                               ("date", [Day (MkDate 2011 1 1)])] [])))
                 = (df ++ [("hour", h)])%list))
    /\ (has_column df "hour" = true ->
        Plots.frame
          (snd (Plots.render_all sample_clock always_draws
                  (Plots.MkState
                     [("datetime", [Time new_year_5am]); ("count", [Num 16]);
                      ("date", [Day (MkDate 2011 1 1)])] [])))
        = df).
Proof.
  exact (renderers_keep_loaded_columns hourless_files sample_clock always_draws
           "data/processed_yulu_data.csv" _ _ eq_refl).
Defined.

(** C3 as stated fails: on an artifact that has timestamps but no hour
    column, the table the renderers leave behind is not the table that was
    loaded; the hourly renderer has added a column. *)
Lemma hourly_renderer_adds_column :
  ~ (forall r st df,
       Plots.generate_all hourless_files sample_clock always_draws
                          "data/processed_yulu_data.csv" = Ok (r, st) ->
       Plots.load_processed hourless_files sample_clock
                            "data/processed_yulu_data.csv" = Ok df ->
       columns (Plots.frame st) = columns df).
Proof.
  intros H. specialize (H _ _ _ eq_refl eq_refl). discriminate H.
Qed.

(** ** Writing the artifact and loading it back *)

Section RoundTrip.

Variable timestamp_of_scalar : Cell -> option Timestamp.

Local Abbreviation load := (read_csv_parse_dates timestamp_of_scalar).

Lemma to_csv_header df : map fst (to_csv df) = columns df.
Proof.
  unfold to_csv, columns. rewrite map_map. reflexivity.
Qed.

(** Without a datetime column the loader raises. *)
Lemma loader_needs_datetime df :
  has_column df "datetime" = false -> load (to_csv df) = Raise ValueError.
Proof.
  intros H. unfold read_csv_parse_dates. rewrite to_csv_header.
  unfold has_column in H. rewrite H. reflexivity.
Qed.

Lemma loader_result df :
  has_column df "datetime" = true ->
  load (to_csv df)
  = Ok (map (fun nv =>
               (fst nv,
                if String.eqb "datetime" (fst nv)
                then parse_dates_column timestamp_of_scalar (map to_field (snd nv))
                else map reread (snd nv))) df).
Proof.
  intros H. unfold read_csv_parse_dates. rewrite to_csv_header.
  unfold has_column in H. rewrite H. f_equal.
  unfold to_csv. rewrite map_map. apply map_ext. intros [n v]. cbn [fst snd].
  destruct (String.eqb "datetime" n); [reflexivity|].
  rewrite map_map. reflexivity.
Qed.

(** The text written for a column of timestamps parses back to it. *)
Lemma parse_written_timestamps s t :
  dt s = Ok t -> parse_dates_column timestamp_of_scalar (map to_field s) = s.
Proof.
  unfold parse_dates_column.
  assert (G : forall s t, dt s = Ok t ->
                parse_date_fields timestamp_of_scalar (map to_field s) = Some s).
  { clear s t. induction s as [|c s IH]; intros t H; simpl in *; [reflexivity|].
    destruct c; try discriminate;
      destruct (dt s) as [l|] eqn:E; simpl in H; try discriminate;
      rewrite (IH l eq_refl); reflexivity. }
  intros H. rewrite (G s t H). reflexivity.
Qed.

Lemma reread_plain c : plain c = true -> reread c = c.
Proof. destruct c; simpl; intros H; try discriminate; reflexivity. Qed.

Lemma reread_plain_column s : forallb plain s = true -> map reread s = s.
Proof.
  induction s as [|c s IH]; simpl; [reflexivity|].
  intros H. apply andb_true_iff in H. destruct H as [Hc Hs].
  rewrite (reread_plain c Hc), (IH Hs). reflexivity.
Qed.

Lemma select_loaded_other df c :
  c <> "datetime" ->
  select (map (fun nv =>
                 (fst nv,
                  if String.eqb "datetime" (fst nv)
                  then parse_dates_column timestamp_of_scalar (map to_field (snd nv))
                  else map reread (snd nv))) df) c
  = map (map reread) (select df c).
Proof.
  intros Hne. unfold select.
  induction df as [|[n v] df IH]; [reflexivity|].
  cbn [map filter fst snd].
  destruct (String.eqb c n) eqn:E; cbn [map filter fst snd]; [|exact IH].
  apply String.eqb_eq in E. subst n.
  assert (E' : String.eqb "datetime" c = false)
    by (apply String.eqb_neq; congruence).
  rewrite E', IH. reflexivity.
Qed.

Lemma select_loaded_datetime df :
  select (map (fun nv =>
                 (fst nv,
                  if String.eqb "datetime" (fst nv)
                  then parse_dates_column timestamp_of_scalar (map to_field (snd nv))
                  else map reread (snd nv))) df) "datetime"
  = map (fun s => parse_dates_column timestamp_of_scalar (map to_field s))
        (select df "datetime").
Proof.
  unfold select.
  induction df as [|[n v] df IH]; [reflexivity|].
  cbn [map filter fst snd].
  destruct (String.eqb "datetime" n) eqn:E; cbn [map filter fst snd];
    [|exact IH].
  rewrite IH. reflexivity.
Qed.

(** C8 (amended). For a table that [feature_engineering] returns from an
    input with distinct column names, and that has a datetime column:
    writing it and loading it back with the report generator's loader
    succeeds and gives the same column names in the same order; the
    datetime column comes back equal; every other column comes back
    cell by cell as [reread] makes it, which is the same value for
    numbers, text and missing entries; the date column, which held
    date-only values, comes back as their text. *)
Theorem artifact_round_trip d df :
  NoDup (columns d) ->
  feature_engineering d = Ok df ->
  has_column df "datetime" = true ->
  exists df',
    load (to_csv df) = Ok df'
    /\ columns df' = columns df
    /\ getitem df' "datetime" = getitem df "datetime"
    /\ (forall c s, c <> "datetime" -> getitem df c = Ok s ->
          getitem df' c = Ok (map reread s)
          /\ (forallb plain s = true -> getitem df' c = Ok s))
    /\ exists t,
         getitem df "date" = Ok (dt_date t)
         /\ getitem df' "date"
            = Ok (map (fun o => match o with
                                | Some x => Str (date_text (date_of x))
                                | None => NaN
                                end) t).
Proof.
  intros U H Hdt.
  pose proof (feature_engineering_unique d df U H) as U'.
  pose proof (datetime_untouched d df H) as Hsel.
  assert (Hd : has_column d "datetime" = true).
  { rewrite <- (has_column_same _ _ _ Hsel). exact Hdt. }
  destruct (getitem_present d "datetime" U Hd) as [s Hs].
  destruct (datetime_parts_derived d df s U H Hs)
    as (t & Ht & _ & _ & _ & _ & _ & Hdate).
  rewrite (loader_result df Hdt). eexists. split; [reflexivity|].
  split; [|split; [|split]].
  - unfold columns. rewrite map_map. reflexivity.
  - unfold getitem at 1 2. rewrite select_loaded_datetime, Hsel.
    apply getitem_select in Hs. rewrite Hs. simpl.
    rewrite (parse_written_timestamps s t Ht). reflexivity.
  - intros c s0 Hne Hc.
    assert (G : getitem
                  (map (fun nv =>
                          (fst nv,
                           if String.eqb "datetime" (fst nv)
                           then parse_dates_column timestamp_of_scalar
                                  (map to_field (snd nv))
                           else map reread (snd nv))) df) c
                = Ok (map reread s0)).
    { apply getitem_select. rewrite (select_loaded_other df c Hne).
      apply getitem_select in Hc. rewrite Hc. reflexivity. }
    split; [exact G|].
    intros Hp. rewrite G, (reread_plain_column s0 Hp). reflexivity.
  - exists t. split; [exact Hdate|].
    apply getitem_select. rewrite select_loaded_other by discriminate.
    apply getitem_select in Hdate. rewrite Hdate. simpl.
    unfold dt_date. rewrite map_map.
    apply (f_equal (fun x => [x])). apply map_ext.
    intros [x|]; reflexivity.
Qed.

End RoundTrip.

Lemma new_year_unique :
  NoDup (columns [("datetime", [Time new_year_5am]); ("count", [Num 16])]).
Proof. repeat constructor; simpl; intuition discriminate. Defined.

Lemma artifact_round_trip_witness :
  exists df',
    read_csv_parse_dates sample_clock (to_csv new_year_processed) = Ok df'
    /\ columns df' = columns new_year_processed
    /\ getitem df' "datetime" = getitem new_year_processed "datetime"
    /\ (forall c s, c <> "datetime" -> getitem new_year_processed c = Ok s ->
          getitem df' c = Ok (map reread s)
          /\ (forallb plain s = true -> getitem df' c = Ok s))
    /\ exists t,
         getitem new_year_processed "date" = Ok (dt_date t)
         /\ getitem df' "date"
            = Ok (map (fun o => match o with
                                | Some x => Str (date_text (date_of x))
                                | None => NaN
                                end) t).
Proof.
  exact (artifact_round_trip sample_clock
           [("datetime", [Time new_year_5am]); ("count", [Num 16])]
           new_year_processed new_year_unique eq_refl eq_refl).
Defined.

(** C8 as stated fails: [process] returns and writes a table whose date
    column holds a date-only value; loaded back, that column holds text,
    which is not an equal value. *)
Lemma date_column_comes_back_as_text :
  process new_year_source (fun _ => false) (fun _ => None) sample_clock
          None None None
  = Ok (new_year_processed, ("data/processed_yulu_data.csv", to_csv new_year_processed))
  /\ ~ round_trip_exact sample_clock new_year_processed.
Proof.
  split; [reflexivity|].
  intros (df' & Hload & _ & Hval).
  vm_compute in Hload. inversion Hload; subst df'; clear Hload.
  specialize (Hval "date" [Day (MkDate 2011 1 1)] [Str "2011-01-01"] eq_refl eq_refl).
  discriminate Hval.
Qed.

(** The loader also refuses every artifact without a datetime column,
    although [process] writes such artifacts and the code after the load
    tests for the column. *)
Lemma artifact_without_datetime_not_loadable :
  process (fun _ => Ok codes_only) (fun _ => false) (fun _ => None) sample_clock
          None None None
  = Ok (codes_only, ("data/processed_yulu_data.csv", to_csv codes_only))
  /\ read_csv_parse_dates sample_clock (to_csv codes_only) = Raise ValueError.
Proof. split; reflexivity. Qed.

(** * Further properties of the pipeline *)

(** ** [impute_and_cast]: what it leaves alone, and the code columns *)

Lemma has_column_setitem_same df c s : has_column (setitem df c s) c = true.
Proof.
  unfold has_column at 1. rewrite columns_setitem.
  destruct (has_column df c) eqn:Hc.
  - exact Hc.
  - rewrite existsb_app. simpl. rewrite String.eqb_refl.
    rewrite orb_true_r. reflexivity.
Qed.

Lemma columns_setitem_present df c s :
  has_column df c = true -> columns (setitem df c s) = columns df.
Proof. intros H. rewrite columns_setitem, H. reflexivity. Qed.

Section CastCodes.

Variable numeric_of_scalar : Cell -> option Number.

Local Abbreviation coerce := (to_numeric numeric_of_scalar).

Lemma impute_column_columns df c df' :
  impute_column numeric_of_scalar df c = Ok df' -> columns df' = columns df.
Proof.
  unfold impute_column. destruct (has_column df c) eqn:Hc; [|congruence].
  unfold Py.bind. intros H. split_binds H. inversion H; subst; clear H.
  rewrite columns_setitem_present by apply has_column_setitem_same.
  apply columns_setitem_present. exact Hc.
Qed.

Lemma cast_column_columns df c df' :
  cast_column numeric_of_scalar df c = Ok df' -> columns df' = columns df.
Proof.
  unfold cast_column. destruct (has_column df c) eqn:Hc; [|congruence].
  unfold Py.bind. intros H. split_binds H. inversion H; subst; clear H.
  apply columns_setitem_present. exact Hc.
Qed.

Lemma for_each_columns body cols :
  (forall df c df', body df c = Ok df' -> columns df' = columns df) ->
  forall df df', for_each body cols df = Ok df' -> columns df' = columns df.
Proof.
  intros Hb. induction cols as [|c cols IH]; simpl; intros df df' H.
  - congruence.
  - destruct (body df c) as [d1|] eqn:E; simpl in H; [|discriminate].
    rewrite (IH d1 df' H). apply (Hb df c d1 E).
Qed.

(** The first loop writes the numeric columns only. *)
Lemma impute_column_frame df c df' :
  impute_column numeric_of_scalar df c = Ok df' ->
  forall c', c' <> c -> select df' c' = select df c'.
Proof.
  unfold impute_column. destruct (has_column df c) eqn:Hc.
  - unfold Py.bind. intros H. split_binds H. inversion H; subst; clear H.
    intros c' Hne. rewrite !select_setitem_other by congruence. reflexivity.
  - intros H. inversion H; subst. reflexivity.
Qed.

Lemma impute_loop_frame cols : forall df df',
  for_each (impute_column numeric_of_scalar) cols df = Ok df' ->
  forall c', ~ In c' cols -> select df' c' = select df c'.
Proof.
  induction cols as [|c cols IH]; intros df df' H c' Hc'; simpl in H.
  - inversion H; subst. reflexivity.
  - destruct (impute_column numeric_of_scalar df c) as [d1|] eqn:E1;
      simpl in H; [|discriminate].
    simpl in Hc'. rewrite (IH d1 df' H c') by tauto.
    apply (impute_column_frame df c d1 E1). intros ->. tauto.
Qed.

Lemma impute_and_cast_columns df df' :
  impute_and_cast numeric_of_scalar df = Ok df' -> columns df' = columns df.
Proof.
  unfold impute_and_cast. intros H.
  destruct (for_each (impute_column numeric_of_scalar) numeric_cols df)
    as [d1|] eqn:E1; simpl in H; [|discriminate].
  rewrite (for_each_columns _ code_cols cast_column_columns d1 df' H).
  apply (for_each_columns _ numeric_cols impute_column_columns df d1 E1).
Qed.

(** *** The cast to integers *)

Lemma truncate_integer_part q : truncate q = integer_part q.
Proof.
  destruct q as [n d]. unfold truncate, integer_part, Qle_bool, Qceiling, Qfloor.
  cbn [Qnum Qden Qopp].
  rewrite Z.mul_0_l, Z.mul_1_r.
  destruct (Z.leb_spec 0 n) as [H|H].
  - symmetry. apply Z.quot_div_nonneg; lia.
  - rewrite <- (Z.opp_involutive n) at 2.
    rewrite Z.quot_opp_l by lia.
    f_equal. symmetry. apply Z.quot_div_nonneg; lia.
Qed.

Lemma cast_int64_fits q :
  (- 2 ^ 63 <= integer_part q <= 2 ^ 63 - 1)%Z -> cast_int64 q = integer_part q.
Proof.
  intros [L U]. unfold cast_int64. rewrite truncate_integer_part.
  change int64_min with (- 2 ^ 63)%Z. change int64_max with (2 ^ 63 - 1)%Z.
  apply Z.leb_le in L, U. rewrite L, U. reflexivity.
Qed.

Lemma coerced_cases c :
  (exists q, to_numeric_cell numeric_of_scalar c = Num q)
  \/ (exists b, to_numeric_cell numeric_of_scalar c = Inf b)
  \/ to_numeric_cell numeric_of_scalar c = NaN.
Proof.
  unfold to_numeric_cell.
  destruct c; eauto; destruct (numeric_of_scalar _) as [[q|b]|]; eauto.
Qed.

(** The cast of a coerced column, missing entries filled with 0, returns
    exactly when the column holds no infinite entry. *)
Lemma astype_int_coerced s :
  astype_int (fillna (coerce s) (Num 0))
  = if has_infinite (coerce s) then Raise ValueError
    else Ok (map (fun c => cast_cell (to_numeric_cell numeric_of_scalar c)) s).
Proof.
  unfold astype_int.
  assert (T : existsb (fun c => match c with
                                | Str _ | Time _ | Day _ => true
                                | _ => false
                                end) (fillna (coerce s) (Num 0)) = false).
  { unfold fillna, to_numeric. induction s as [|c s IH]; [reflexivity|].
    cbn [map existsb]. rewrite IH.
    destruct (coerced_cases c) as [[q ->]|[[b ->]| ->]]; reflexivity. }
  rewrite T. clear T.
  unfold fillna, to_numeric, has_infinite.
  induction s as [|c s IH]; [reflexivity|].
  cbn [map forallb existsb].
  destruct (coerced_cases c) as [[q E]|[[b E]|E]]; rewrite E; cbn [isna cast_cell];
    try reflexivity.
  - cbn [andb orb].
    destruct (existsb _ (map (to_numeric_cell numeric_of_scalar) s)).
    + destruct (forallb _ _); [discriminate|reflexivity].
    + destruct (forallb _ _); [|discriminate].
      inversion IH as [IH']. rewrite IH'. reflexivity.
  - cbn [andb orb].
    destruct (existsb _ (map (to_numeric_cell numeric_of_scalar) s)).
    + destruct (forallb _ _); [discriminate|reflexivity].
    + destruct (forallb _ _); [|discriminate].
      inversion IH as [IH']. rewrite IH'. reflexivity.
Qed.

Lemma has_infinite_nth s i b :
  has_infinite s = false -> nth_error s i <> Some (Inf b).
Proof.
  unfold has_infinite. intros H E. apply nth_error_In in E.
  assert (X : existsb (fun c => match c with Inf _ => true | _ => false end) s
              = true)
    by (apply existsb_exists; exists (Inf b); split; [exact E|reflexivity]).
  congruence.
Qed.

(** One turn of the second loop on a column that is there. *)
Lemma cast_column_value df c s df' :
  NoDup (columns df) -> getitem df c = Ok s ->
  cast_column numeric_of_scalar df c = Ok df' ->
  has_infinite (coerce s) = false
  /\ getitem df' c
     = Ok (map (fun x => cast_cell (to_numeric_cell numeric_of_scalar x)) s).
Proof.
  intros U Hs. unfold cast_column.
  rewrite (getitem_has_column _ _ _ Hs), Hs. simpl.
  rewrite astype_int_coerced.
  destruct (has_infinite (coerce s)); simpl; [discriminate|].
  intros H. inversion H; subst df'; clear H. split; [reflexivity|].
  apply getitem_select, select_setitem_same, select_unique, U.
Qed.

Lemma cast_column_returns df c :
  NoDup (columns df) ->
  (forall s, getitem df c = Ok s -> has_infinite (coerce s) = false) ->
  exists df', cast_column numeric_of_scalar df c = Ok df'.
Proof.
  intros U Hf. unfold cast_column. destruct (has_column df c) eqn:Hc; [|eauto].
  destruct (getitem_present df c U Hc) as [s Hs]. rewrite Hs. simpl.
  rewrite astype_int_coerced, (Hf s Hs). simpl. eauto.
Qed.

Lemma cast_loop_value cols : forall df df',
  NoDup cols -> NoDup (columns df) ->
  for_each (cast_column numeric_of_scalar) cols df = Ok df' ->
  forall c s, In c cols -> getitem df c = Ok s ->
    has_infinite (coerce s) = false
    /\ getitem df' c
       = Ok (map (fun x => cast_cell (to_numeric_cell numeric_of_scalar x)) s).
Proof.
  induction cols as [|c cols IH]; intros df df' Hd U H c0 s Hin Hs;
    [destruct Hin|].
  inversion Hd as [|? ? Hn Hd']; subst.
  simpl in H.
  destruct (cast_column numeric_of_scalar df c) as [d1|] eqn:E1;
    simpl in H; [|discriminate].
  destruct (cast_column_spec numeric_of_scalar df c d1 E1) as [U1 F1].
  destruct (cast_loop_spec numeric_of_scalar cols d1 df' H) as [_ F2].
  destruct Hin as [<-|Hin].
  - destruct (cast_column_value df c s d1 U Hs E1) as [Hf V].
    split; [exact Hf|].
    apply getitem_select. rewrite F2 by exact Hn.
    apply getitem_select. exact V.
  - apply (IH d1 df' Hd' (U1 U) H c0 s Hin).
    apply getitem_select. rewrite F1.
    + apply getitem_select. exact Hs.
    + intros ->. contradiction.
Qed.

Lemma cast_column_outcome df c :
  NoDup (columns df) ->
  (exists df', cast_column numeric_of_scalar df c = Ok df')
  \/ cast_column numeric_of_scalar df c = Raise ValueError.
Proof.
  intros U. unfold cast_column. destruct (has_column df c) eqn:Hc; [|eauto].
  destruct (getitem_present df c U Hc) as [s Hs]. rewrite Hs. simpl.
  rewrite astype_int_coerced.
  destruct (has_infinite (coerce s)); simpl; eauto.
Qed.

Lemma cast_loop_outcome cols : forall df,
  NoDup (columns df) ->
  (exists df', for_each (cast_column numeric_of_scalar) cols df = Ok df')
  \/ for_each (cast_column numeric_of_scalar) cols df = Raise ValueError.
Proof.
  induction cols as [|c cols IH]; intros df U; simpl; [eauto|].
  destruct (cast_column_outcome df c U) as [[d1 E1]|E1]; rewrite E1; simpl;
    [|right; reflexivity].
  apply IH. apply (proj1 (cast_column_spec numeric_of_scalar df c d1 E1) U).
Qed.

Lemma cast_loop_returns cols : forall df,
  NoDup cols -> NoDup (columns df) ->
  (forall c s, In c cols -> getitem df c = Ok s ->
     has_infinite (coerce s) = false) ->
  exists df', for_each (cast_column numeric_of_scalar) cols df = Ok df'.
Proof.
  induction cols as [|c cols IH]; intros df Hd U Hf; simpl; [eauto|].
  inversion Hd as [|? ? Hn Hd']; subst.
  destruct (cast_column_returns df c U) as [d1 E1].
  { intros s Hs. apply (Hf c s); [left; reflexivity|exact Hs]. }
  rewrite E1. simpl.
  destruct (cast_column_spec numeric_of_scalar df c d1 E1) as [U1 F1].
  apply IH; [exact Hd'|exact (U1 U)|].
  intros c0 s Hin Hs.
  apply (Hf c0 s); [right; exact Hin|].
  apply getitem_select. rewrite <- F1 by (intros ->; contradiction).
  apply getitem_select. exact Hs.
Qed.

End CastCodes.

Lemma code_cols_distinct : NoDup code_cols.
Proof. repeat constructor; simpl; intuition discriminate. Qed.

Lemma apart_numeric_code c : In c code_cols -> ~ In c numeric_cols.
Proof.
  unfold numeric_cols, code_cols. simpl. intros Hin Hn.
  repeat (destruct Hin as [<-|Hin]; [intuition discriminate|]). exact Hin.
Qed.

(** With distinct names, [impute_and_cast] returns when no code column
    holds an entry that is read as infinite. *)
Lemma impute_and_cast_returns (numeric_of_scalar : Cell -> option Number) df :
  NoDup (columns df) ->
  (forall c s, In c code_cols -> getitem df c = Ok s ->
     has_infinite (to_numeric numeric_of_scalar s) = false) ->
  exists df', impute_and_cast numeric_of_scalar df = Ok df'.
Proof.
  intros U Hf.
  destruct (impute_loop_spec numeric_of_scalar numeric_cols df
              numeric_cols_distinct U) as (d1 & E1 & U1 & F1 & _).
  unfold impute_and_cast. rewrite E1. cbn [Py.bind].
  apply cast_loop_returns; [exact code_cols_distinct|exact U1|].
  intros c s Hin Hs. apply (Hf c s Hin).
  apply getitem_select. rewrite <- F1 by (apply apart_numeric_code; exact Hin).
  apply getitem_select. exact Hs.
Qed.

(** And it raises a ValueError, from [astype(int)], when one does. *)
Lemma impute_and_cast_raises (numeric_of_scalar : Cell -> option Number) df c s :
  NoDup (columns df) ->
  In c code_cols ->
  getitem df c = Ok s ->
  has_infinite (to_numeric numeric_of_scalar s) = true ->
  impute_and_cast numeric_of_scalar df = Raise ValueError.
Proof.
  intros U Hin Hs Hi.
  destruct (impute_loop_spec numeric_of_scalar numeric_cols df
              numeric_cols_distinct U) as (d1 & E1 & U1 & F1 & _).
  unfold impute_and_cast. rewrite E1. cbn [Py.bind].
  destruct (cast_loop_outcome numeric_of_scalar code_cols d1 U1)
    as [[d2 E2]|E2]; [|exact E2].
  assert (Hs1 : getitem d1 c = Ok s).
  { apply getitem_select. rewrite F1 by (apply apart_numeric_code; exact Hin).
    apply getitem_select. exact Hs. }
  destruct (cast_loop_value numeric_of_scalar code_cols d1 d2
              code_cols_distinct U1 E2 c s Hin Hs1) as [Hf _].
  congruence.
Qed.

(** An infinite season code: [astype(int)] raises. *)
Lemma infinite_code_raises :
  impute_and_cast (fun _ => None) endless_summer = Raise ValueError
  /\ process endless_summer_source (fun _ => false) (fun _ => None)
       (fun _ => None) None None None = Raise ValueError.
Proof. split; reflexivity. Qed.

(** X1. When [impute_and_cast] returns, the table has the same column
    names in the same order, and every column that is neither one of the
    seven numeric columns nor one of the four code columns is exactly as
    it came. *)
Theorem impute_and_cast_leaves_other_columns
        (numeric_of_scalar : Cell -> option Number) df df' :
  impute_and_cast numeric_of_scalar df = Ok df' ->
  columns df' = columns df
  /\ forall c, ~ In c numeric_cols -> ~ In c code_cols ->
       select df' c = select df c.
Proof.
  intros E. split.
  - apply (impute_and_cast_columns numeric_of_scalar df df' E).
  - intros c Hn Hc. unfold impute_and_cast in E.
    destruct (for_each (impute_column numeric_of_scalar) numeric_cols df)
      as [d1|] eqn:E1; simpl in E; [|discriminate].
    destruct (cast_loop_spec numeric_of_scalar code_cols d1 df' E) as [_ F2].
    rewrite F2 by exact Hc.
    apply (impute_loop_frame numeric_of_scalar numeric_cols df d1 E1 c Hn).
Qed.

Lemma impute_and_cast_leaves_other_columns_witness :
  columns mixed_cast = columns mixed_table
  /\ forall c, ~ In c numeric_cols -> ~ In c code_cols ->
       select mixed_cast c = select mixed_table c.
Proof.
  exact (impute_and_cast_leaves_other_columns (fun _ => None) mixed_table
           mixed_cast eq_refl).
Defined.

(** X2. When [impute_and_cast] returns from a table with distinct column
    names, each of season, weather, workingday and holiday that is present
    comes out with as many rows as it had, and row by row: an entry read
    as a number whose integer part fits 64 bits has become that integer
    part (the number rounded towards zero); an entry that is missing or
    cannot be read as a number has become 0; and no entry was read as
    infinite, since the cast raises on such a column. *)
Theorem code_columns_cast_to_integers
        (numeric_of_scalar : Cell -> option Number) df df' c s :
  NoDup (columns df) ->
  In c code_cols ->
  getitem df c = Ok s ->
  impute_and_cast numeric_of_scalar df = Ok df' ->
  exists s',
    getitem df' c = Ok s'
    /\ List.length s' = List.length s
    /\ forall i x, nth_error s i = Some x ->
         cast_of (to_numeric_cell numeric_of_scalar x) (nth_error s' i).
Proof.
  intros U Hin Hs H.
  destruct (impute_loop_spec numeric_of_scalar numeric_cols df
              numeric_cols_distinct U) as (d1 & E1 & U1 & F1 & _).
  unfold impute_and_cast in H. rewrite E1 in H. simpl in H.
  assert (Hs1 : getitem d1 c = Ok s).
  { apply getitem_select. rewrite F1 by (apply apart_numeric_code; exact Hin).
    apply getitem_select. exact Hs. }
  destruct (cast_loop_value numeric_of_scalar code_cols d1 df'
              code_cols_distinct U1 H c s Hin Hs1) as [Hf V].
  eexists. split; [exact V|]. split; [apply length_map|].
  intros i x Hx. rewrite nth_error_map, Hx. cbn [option_map].
  assert (Hn : forall b, to_numeric_cell numeric_of_scalar x <> Inf b).
  { intros b Eb.
    apply (has_infinite_nth (to_numeric numeric_of_scalar s) i b Hf).
    unfold to_numeric. rewrite nth_error_map, Hx. cbn [option_map].
    rewrite Eb. reflexivity. }
  destruct (coerced_cases numeric_of_scalar x) as [[q E]|[[b E]|E]];
    rewrite E; cbn [cast_of cast_cell].
  - intros R. rewrite (cast_int64_fits q R). reflexivity.
  - exact (Hn b E).
  - reflexivity.
Qed.

Lemma mixed_table_unique : NoDup (columns mixed_table).
Proof. repeat constructor; simpl; intuition discriminate. Defined.

Lemma code_columns_cast_to_integers_witness :
  exists s',
    getitem mixed_cast "season" = Ok s'
    /\ List.length s' = List.length [Num (7 # 2); Str "spring"; NaN; Num (-(3 # 2))]
    /\ forall i x,
         nth_error [Num (7 # 2); Str "spring"; NaN; Num (-(3 # 2))] i = Some x ->
         cast_of (to_numeric_cell (fun _ => None) x)
                 (nth_error s' i).
Proof.
  apply (code_columns_cast_to_integers (fun _ => None) mixed_table mixed_cast
           "season").
  - exact mixed_table_unique.
  - simpl. tauto.
  - reflexivity.
  - reflexivity.
Defined.

(** The cast of that season column, entry by entry: 3.5 gives 3, -1.5
    gives -1, the text and the gap give 0. *)
Lemma season_codes_cast :
  impute_and_cast (fun _ => None) mixed_table = Ok mixed_cast
  /\ getitem mixed_cast "season" = Ok [Num 3; Num 0; Num 0; Num (-1)]
  /\ integer_part (7 # 2) = 3%Z /\ integer_part (-(3 # 2)) = (-1)%Z.
Proof. repeat split. Qed.

(** ** [feature_engineering]: columns are only appended *)

(** An assignment keeps the column names it found,
    in their order, and adds behind them at most its own target. *)
Lemma setitem_appends df c s T :
  In c T ->
  exists l, columns (setitem df c s) = (columns df ++ l)%list /\ incl l T.
Proof.
  intros Hc. rewrite columns_setitem. destruct (has_column df c).
  - exists []. rewrite app_nil_r. split; [reflexivity|]. intros x [].
  - exists [c]. split; [reflexivity|]. intros x [<-|[]]. exact Hc.
Qed.

Lemma appends_trans (a b c : list string) l1 l2 T :
  b = (a ++ l1)%list -> incl l1 T -> c = (b ++ l2)%list -> incl l2 T ->
  exists l, c = (a ++ l)%list /\ incl l T.
Proof.
  intros -> H1 -> H2. exists (l1 ++ l2)%list.
  rewrite app_assoc. split; [reflexivity|]. apply incl_app; assumption.
Qed.

Ltac appended_by_setitems :=
  lazymatch goal with
  | |- exists l, columns (setitem ?d ?c ?s) = (columns ?a ++ l)%list /\ incl l ?T =>
      let l1 := fresh "l" in
      let E1 := fresh "E" in
      let I1 := fresh "I" in
      let l2 := fresh "l" in
      let E2 := fresh "E" in
      let I2 := fresh "I" in
      assert (exists l, columns d = (columns a ++ l)%list /\ incl l T)
        as (l1 & E1 & I1) by appended_by_setitems;
      destruct (setitem_appends d c s T ltac:(simpl; tauto)) as (l2 & E2 & I2);
      exact (appends_trans _ _ _ _ _ _ E1 I1 E2 I2)
  | |- exists l, columns ?a = (columns ?a ++ l)%list /\ incl l ?T =>
      exists []; rewrite app_nil_r; split; [reflexivity|intros ? []]
  end.

Ltac solve_appends :=
  let H := fresh "H" in
  intros ? ? H;
  match type of H with
  | (if ?b then _ else _) = _ =>
      destruct b;
      [ unfold Py.bind in H; split_binds H; inversion H; subst; clear H
      | inversion H; subst; clear H ]
  end;
  appended_by_setitems.

Lemma add_datetime_parts_appends df df' :
  add_datetime_parts df = Ok df' ->
  exists l, columns df' = (columns df ++ l)%list /\ incl l derived_columns.
Proof. revert df df'. unfold add_datetime_parts, derived_columns. solve_appends. Qed.

Lemma add_season_label_appends df df' :
  add_season_label df = Ok df' ->
  exists l, columns df' = (columns df ++ l)%list /\ incl l derived_columns.
Proof. revert df df'. unfold add_season_label, derived_columns. solve_appends. Qed.

Lemma add_weather_label_appends df df' :
  add_weather_label df = Ok df' ->
  exists l, columns df' = (columns df ++ l)%list /\ incl l derived_columns.
Proof. revert df df'. unfold add_weather_label, derived_columns. solve_appends. Qed.

Lemma add_count_appends df df' :
  add_count df = Ok df' ->
  exists l, columns df' = (columns df ++ l)%list /\ incl l derived_columns.
Proof. revert df df'. unfold add_count, derived_columns. solve_appends. Qed.

Lemma add_temp_category_appends df df' :
  add_temp_category df = Ok df' ->
  exists l, columns df' = (columns df ++ l)%list /\ incl l derived_columns.
Proof. revert df df'. unfold add_temp_category, derived_columns. solve_appends. Qed.

Lemma add_atemp_category_appends df df' :
  add_atemp_category df = Ok df' ->
  exists l, columns df' = (columns df ++ l)%list /\ incl l derived_columns.
Proof. revert df df'. unfold add_atemp_category, derived_columns. solve_appends. Qed.

Lemma add_humidity_category_appends df df' :
  add_humidity_category df = Ok df' ->
  exists l, columns df' = (columns df ++ l)%list /\ incl l derived_columns.
Proof.
  revert df df'. unfold add_humidity_category, derived_columns. solve_appends.
Qed.

(** The last step overwrites wind speed in place before it appends the
    category. *)
Lemma add_windspeed_category_appends df df' :
  add_windspeed_category df = Ok df' ->
  exists l, columns df' = (columns df ++ l)%list /\ incl l derived_columns.
Proof.
  unfold add_windspeed_category.
  destruct (has_column df "windspeed") eqn:Hw; simpl;
    [destruct (has_column df "windspeed_category"); simpl|];
    try (intros H; inversion H; subst; exists []; rewrite app_nil_r;
         split; [reflexivity|intros ? []]).
  unfold Py.bind. intros H. split_binds H. inversion H; subst; clear H.
  match goal with
  | |- exists l, columns (setitem ?d "windspeed_category" ?y) = _ /\ _ =>
      destruct (setitem_appends d "windspeed_category" y derived_columns
                  ltac:(unfold derived_columns; simpl; tauto)) as (l & El & Il)
  end.
  exists l. split; [|exact Il].
  rewrite El, (columns_setitem_present df "windspeed" _ Hw). reflexivity.
Qed.

Lemma columns_after_features df df' :
  feature_engineering df = Ok df' ->
  exists l, columns df' = (columns df ++ l)%list /\ incl l derived_columns.
Proof.
  intros H. apply feature_engineering_steps in H.
  destruct H as (d1 & d2 & d3 & d4 & d5 & d6 & d7
                 & H1 & H2 & H3 & H4 & H5 & H6 & H7 & H8).
  destruct (add_datetime_parts_appends _ _ H1) as (l1 & E1 & I1).
  destruct (add_season_label_appends _ _ H2) as (l2 & E2 & I2).
  destruct (add_weather_label_appends _ _ H3) as (l3 & E3 & I3).
  destruct (add_count_appends _ _ H4) as (l4 & E4 & I4).
  destruct (add_temp_category_appends _ _ H5) as (l5 & E5 & I5).
  destruct (add_atemp_category_appends _ _ H6) as (l6 & E6 & I6).
  destruct (add_humidity_category_appends _ _ H7) as (l7 & E7 & I7).
  destruct (add_windspeed_category_appends _ _ H8) as (l8 & E8 & I8).
  exists (l1 ++ l2 ++ l3 ++ l4 ++ l5 ++ l6 ++ l7 ++ l8)%list. split.
  - rewrite E8, E7, E6, E5, E4, E3, E2, E1. rewrite <- !app_assoc. reflexivity.
  - repeat apply incl_app; assumption.
Qed.

(** X3. A table that [feature_engineering] returns has the column names of
    its input, in the same order, followed only by names of derived
    columns: no column is dropped, renamed or moved. *)
Theorem feature_engineering_appends_columns df df' :
  feature_engineering df = Ok df' ->
  exists l, columns df' = (columns df ++ l)%list /\ incl l derived_columns.
Proof. exact (columns_after_features df df'). Qed.

Lemma feature_engineering_appends_columns_witness :
  exists l,
    columns (riders_table ++ [("count", [Num 11; Num 5])])%list
    = (columns riders_table ++ l)%list
    /\ incl l derived_columns.
Proof.
  exact (feature_engineering_appends_columns riders_table _ eq_refl).
Defined.

(** X4. A table that [feature_engineering] returns holds every column that
    is neither a derived column nor wind speed exactly as the input held
    it: the timestamp, the codes, the readings and any column the pipeline
    does not know are passed through. *)
Theorem feature_engineering_passes_columns_through df df' c :
  feature_engineering df = Ok df' ->
  ~ In c derived_columns ->
  c <> "windspeed" ->
  select df' c = select df c.
Proof.
  intros H Hc Hw. apply feature_engineering_steps in H.
  destruct H as (d1 & d2 & d3 & d4 & d5 & d6 & d7
                 & H1 & H2 & H3 & H4 & H5 & H6 & H7 & H8).
  unfold derived_columns in Hc. simpl in Hc.
  rewrite (proj1 (add_windspeed_category_writes _ _ H8) c)
    by (simpl; intuition congruence).
  rewrite (proj1 (add_humidity_category_writes _ _ H7) c) by (simpl; tauto).
  rewrite (proj1 (add_atemp_category_writes _ _ H6) c) by (simpl; tauto).
  rewrite (proj1 (add_temp_category_writes _ _ H5) c) by (simpl; tauto).
  rewrite (proj1 (add_count_writes _ _ H4) c) by (simpl; tauto).
  rewrite (proj1 (add_weather_label_writes _ _ H3) c) by (simpl; tauto).
  rewrite (proj1 (add_season_label_writes _ _ H2) c) by (simpl; tauto).
  rewrite (proj1 (add_datetime_parts_writes _ _ H1) c)
    by (unfold datetime_parts; simpl; tauto).
  reflexivity.
Qed.

Lemma feature_engineering_passes_columns_through_witness :
  select (riders_table ++ [("count", [Num 11; Num 5])])%list "registered"
  = select riders_table "registered".
Proof.
  apply (feature_engineering_passes_columns_through riders_table _ "registered").
  - reflexivity.
  - unfold derived_columns. simpl. intuition discriminate.
  - discriminate.
Defined.

(** ** The humidity thresholds *)

Lemma Qle_bool_false x y : Qle_bool x y = false -> ~ (x <= y)%Q.
Proof.
  intros H L. apply Qle_bool_iff in L. congruence.
Qed.

Lemma humidity_bins c :
  bin_label false [-1; 30; 60; 100]%Q level_labels c = humidity_level c.
Proof.
  destruct c as [| |x| | | |]; try reflexivity.
  unfold bin_label, humidity_level, searchsorted_left, level_labels.
  cbn [andb filter].
  destruct (Qle_bool x (-1)) eqn:A; destruct (Qle_bool x 30) eqn:B;
    destruct (Qle_bool x 60) eqn:C; destruct (Qle_bool x 100) eqn:D;
    try reflexivity; exfalso;
    repeat match goal with
           | H : Qle_bool _ _ = true |- _ => apply Qle_bool_iff in H
           | H : Qle_bool _ _ = false |- _ => apply Qle_bool_false in H
           end; lra.
Qed.

(** X5. When [feature_engineering] returns from a table with distinct
    column names that has a humidity column and no humidity_category
    column, the result has a humidity_category column that holds, row by
    row, low for a reading above -1 and up to 30, medium above 30 and up
    to 60, high above 60 and up to 100, and no category for a reading of
    -1 or less, a reading above 100, or a missing reading. *)
Theorem humidity_category_thresholds df df' h :
  NoDup (columns df) ->
  feature_engineering df = Ok df' ->
  getitem df "humidity" = Ok h ->
  has_column df "humidity_category" = false ->
  getitem df' "humidity_category" = Ok (map humidity_level h).
Proof.
  intros U H Hh Hno. apply feature_engineering_steps in H.
  destruct H as (d1 & d2 & d3 & d4 & d5 & d6 & d7
                 & H1 & H2 & H3 & H4 & H5 & H6 & H7 & H8).
  assert (Sh : select d6 "humidity" = select df "humidity").
  { carry H6. carry H5. carry H4. carry H3. carry H2. carry H1. reflexivity. }
  assert (Sc : select d6 "humidity_category" = select df "humidity_category").
  { carry H6. carry H5. carry H4. carry H3. carry H2. carry H1. reflexivity. }
  assert (Hh6 : getitem d6 "humidity" = Ok h).
  { apply getitem_select. rewrite Sh. apply getitem_select. exact Hh. }
  unfold add_humidity_category in H7.
  rewrite (getitem_has_column _ _ _ Hh6), (has_column_same _ _ _ Sc), Hno, Hh6 in H7.
  simpl in H7. unfold cut in H7.
  destruct (numeric_values h) as [l|] eqn:E; simpl in H7; [|discriminate].
  inversion H7; subst d7; clear H7.
  apply getitem_select. carry H8.
  rewrite select_setitem_same.
  - apply (f_equal (fun x => [x])). apply map_ext. exact humidity_bins.
  - rewrite Sc. apply has_column_select in Hno. rewrite Hno. simpl. lia.
Qed.

Lemma humidity_category_thresholds_witness :
  getitem [("season", [Num (7 # 2); Str "spring"; NaN; Num (-(3 # 2))]);
           ("notes", [Str "a"; NaN; Str "c"; Str "d"]);
           ("humidity", [Num 0; Num 30; Num 61; Num 120]);
           ("season_label", [Str "unknown"; Str "unknown"; Str "unknown"; Str "unknown"]);
           ("humidity_category", [Str "low"; Str "low"; Str "high"; NaN])]
          "humidity_category"
  = Ok (map humidity_level [Num 0; Num 30; Num 61; Num 120]).
Proof.
  exact (humidity_category_thresholds mixed_table _ [Num 0; Num 30; Num 61; Num 120]
           mixed_table_unique eq_refl eq_refl eq_refl).
Defined.

(** ** [basic_clean]: names and timestamps *)

Lemma columns_rename df f : columns (rename df f) = map f (columns df).
Proof. unfold columns, rename. rewrite !map_map. reflexivity. Qed.

Lemma columns_drop_duplicates df : columns (drop_duplicates df) = columns df.
Proof. unfold columns, drop_duplicates. rewrite map_map. reflexivity. Qed.

Lemma select_drop_duplicates df c :
  select (drop_duplicates df) c = map (drop_marked (duplicated df)) (select df c).
Proof.
  unfold drop_duplicates, select. generalize (duplicated df). intros marks.
  induction df as [|[n v] df IH]; [reflexivity|].
  cbn [map filter fst snd].
  destruct (String.eqb c n); cbn [map snd]; rewrite IH; reflexivity.
Qed.

Lemma datetimelike_coerced f s : datetimelike (to_datetime_coerce f s) = true.
Proof.
  unfold datetimelike, to_datetime_coerce.
  induction s as [|c s IH]; simpl; [reflexivity|]. rewrite IH.
  unfold to_datetime_cell.
  destruct c; try reflexivity; destruct (f _); reflexivity.
Qed.

Lemma datetimelike_drop_marked marks : forall s,
  datetimelike s = true -> datetimelike (drop_marked marks s) = true.
Proof.
  unfold datetimelike.
  induction marks as [|m marks IH]; intros [|c s] H; simpl in *; try reflexivity.
  apply andb_true_iff in H. destruct H as [Hc Hs].
  destruct m; simpl; [|rewrite Hc]; apply IH; exact Hs.
Qed.

(** The [.dt] accessor is there exactly on such a column. *)
Lemma datetimelike_dt s : datetimelike s = true -> exists t, dt s = Ok t.
Proof.
  unfold datetimelike. induction s as [|c s IH]; simpl; intros H.
  - eauto.
  - apply andb_true_iff in H. destruct H as [Hc Hs].
    destruct (IH Hs) as [t Ht].
    destruct c; try discriminate; rewrite Ht; simpl; eauto.
Qed.

Lemma getitem_for_ok e df c s :
  getitem_for e df c = Ok s <-> getitem df c = Ok s.
Proof.
  unfold getitem_for, getitem.
  destruct (select df c) as [|x [|y l]]; split; intros H;
    try discriminate; exact H.
Qed.

(** The names of a cleaned table. *)
Lemma basic_clean_columns
      (timestamp_of_scalar : Cell -> option Timestamp) raw d0 :
  basic_clean timestamp_of_scalar raw = Ok d0 ->
  columns d0 = map clean_name (columns raw).
Proof.
  unfold basic_clean. intros F1.
  fold clean_name in F1. change (fun c => clean_name c) with clean_name in F1.
  destruct (has_column (rename raw clean_name) "datetime") eqn:Hd.
  - unfold Py.bind in F1. split_binds F1. inversion F1; subst.
    rewrite columns_drop_duplicates, columns_setitem_present by exact Hd.
    apply columns_rename.
  - simpl in F1. inversion F1; subst.
    rewrite columns_drop_duplicates. apply columns_rename.
Qed.

(** With distinct cleaned names [basic_clean] returns. *)
Lemma basic_clean_returns
      (timestamp_of_scalar : Cell -> option Timestamp) raw :
  NoDup (map clean_name (columns raw)) ->
  exists d0,
    basic_clean timestamp_of_scalar raw = Ok d0
    /\ columns d0 = map clean_name (columns raw)
    /\ forall s, getitem d0 "datetime" = Ok s -> datetimelike s = true.
Proof.
  intros U. unfold basic_clean.
  fold clean_name. change (fun c => clean_name c) with clean_name.
  set (r := rename raw clean_name).
  assert (Cr : columns r = map clean_name (columns raw))
    by apply columns_rename.
  assert (Ur : NoDup (columns r)) by (rewrite Cr; exact U).
  destruct (has_column r "datetime") eqn:Hd.
  - destruct (getitem_present r "datetime" Ur Hd) as [s Hs].
    rewrite (proj2 (getitem_for_ok ValueError r "datetime" s) Hs).
    simpl. eexists. split; [reflexivity|]. split.
    + rewrite columns_drop_duplicates, columns_setitem_present by exact Hd.
      exact Cr.
    + intros s' Hs'. apply getitem_select in Hs'.
      rewrite select_drop_duplicates in Hs'.
      rewrite select_setitem_same in Hs' by (apply select_unique; exact Ur).
      simpl in Hs'. inversion Hs'.
      apply datetimelike_drop_marked, datetimelike_coerced.
  - simpl. eexists. split; [reflexivity|]. split.
    + rewrite columns_drop_duplicates. exact Cr.
    + intros s' Hs'. apply getitem_has_column in Hs'.
      unfold has_column in Hs', Hd.
      rewrite columns_drop_duplicates in Hs'. congruence.
Qed.


Lemma untidy_raw_clean_names : NoDup (map clean_name (columns untidy_raw)).
Proof. repeat constructor; simpl; intuition discriminate. Defined.


(** The cleaned names and the parsed column of that file. *)
Lemma untidy_raw_cleaned :
  basic_clean sample_clock untidy_raw
  = Ok [("datetime", [Time new_year_5am; NaT]); ("temp", [Num 3; Num 4])].
Proof. reflexivity. Qed.

(** ** [basic_clean]: duplicate rows *)

Lemma kept_from_bounds marks : forall k i,
  In i (kept_from k marks) ->
  (k <= i < k + List.length marks)%nat /\ nth (i - k) marks true = false.
Proof.
  induction marks as [|m marks IH]; intros k i H; simpl in *; [contradiction|].
  destruct m.
  - destruct (IH (S k) i H) as [B N]. split; [lia|].
    replace (i - k)%nat with (S (i - S k)) by lia. exact N.
  - destruct H as [<-|H].
    + split; [lia|]. rewrite Nat.sub_diag. reflexivity.
    + destruct (IH (S k) i H) as [B N]. split; [lia|].
      replace (i - k)%nat with (S (i - S k)) by lia. exact N.
Qed.

Lemma kept_from_complete marks : forall k i,
  (i < List.length marks)%nat -> nth i marks true = false ->
  In (k + i)%nat (kept_from k marks).
Proof.
  induction marks as [|m marks IH]; intros k i L N; simpl in *; [lia|].
  destruct i as [|i].
  - subst m. left. lia.
  - assert (H : In (S k + i)%nat (kept_from (S k) marks))
      by (apply IH; [lia|exact N]).
    replace (k + S i)%nat with (S k + i)%nat by lia.
    destruct m; [exact H|right; exact H].
Qed.

Lemma kept_from_increasing marks : forall k a b,
  (a < b)%nat -> (b < List.length (kept_from k marks))%nat ->
  (nth a (kept_from k marks) O < nth b (kept_from k marks) O)%nat.
Proof.
  induction marks as [|m marks IH]; intros k a b Hab Hb; simpl in *; [lia|].
  destruct m; [apply IH; assumption|].
  simpl in Hb. destruct b as [|b]; [lia|].
  destruct a as [|a]; simpl.
  - assert (In (nth b (kept_from (S k) marks) O) (kept_from (S k) marks))
      by (apply nth_In; lia).
    apply kept_from_bounds in H. lia.
  - apply IH; lia.
Qed.

Lemma drop_marked_kept {A : Type} (d : A) marks : forall (l : list A) k,
  List.length marks = List.length l ->
  drop_marked marks l = map (fun i => nth (i - k) l d) (kept_from k marks).
Proof.
  induction marks as [|m marks IH]; intros [|x l] k E; simpl in *;
    try reflexivity; try discriminate.
  assert (T : map (fun i => nth (i - S k) l d) (kept_from (S k) marks)
              = map (fun i => nth (i - k) (x :: l) d) (kept_from (S k) marks)).
  { apply map_ext_in. intros i Hi. apply kept_from_bounds in Hi.
    replace (i - k)%nat with (S (i - S k)) by lia. reflexivity. }
  destruct m.
  - rewrite (IH l (S k)) by lia. exact T.
  - simpl. rewrite Nat.sub_diag. simpl. f_equal.
    rewrite (IH l (S k)) by lia. exact T.
Qed.

Lemma drop_marked_unmarked {A : Type} marks : forall (l : list A),
  List.length marks = List.length l ->
  (forall m, In m marks -> m = false) ->
  drop_marked marks l = l.
Proof.
  induction marks as [|m marks IH]; intros [|x l] E H; simpl in *;
    try reflexivity; try discriminate.
  rewrite (H m (or_introl eq_refl)). f_equal. apply IH; [lia|].
  intros m' Hm'. apply H. right. exact Hm'.
Qed.

Lemma duplicated_length df : List.length (duplicated df) = nrows df.
Proof. unfold duplicated. rewrite length_map, length_seq. reflexivity. Qed.

Lemma duplicated_nth df i :
  (i < nrows df)%nat ->
  nth i (duplicated df) true
  = existsb (fun j => row_eqb (row df j) (row df i)) (seq 0 i).
Proof.
  intros H. unfold duplicated.
  rewrite (nth_indep _ true
             (existsb (fun j => row_eqb (row df j) (row df O)) (seq 0 0)))
    by (rewrite length_map, length_seq; exact H).
  rewrite (map_nth (fun i => existsb (fun j => row_eqb (row df j) (row df i))
                               (seq 0 i))).
  rewrite seq_nth by exact H. reflexivity.
Qed.

Lemma rectangular_length df nv :
  rectangular df = true -> In nv df -> List.length (snd nv) = nrows df.
Proof.
  unfold rectangular. intros R H.
  rewrite forallb_forall in R. apply Nat.eqb_eq. apply R. exact H.
Qed.

Lemma nrows_drop_duplicates df :
  rectangular df = true ->
  nrows (drop_duplicates df) = List.length (kept_from 0 (duplicated df)).
Proof.
  intros R. destruct df as [|[n col] rest]; [reflexivity|].
  set (t := (n, col) :: rest) in *.
  change (nrows (drop_duplicates t))
    with (List.length (drop_marked (duplicated t) col)).
  rewrite (drop_marked_kept NaN (duplicated t) col 0).
  - rewrite length_map. reflexivity.
  - rewrite duplicated_length.
    symmetry. apply (rectangular_length t (n, col) R). left. reflexivity.
Qed.

Section DropDuplicates.

Variable df : DataFrame.
Hypothesis Rect : rectangular df = true.

Local Abbreviation kept := (kept_from 0 (duplicated df)).

Lemma row_drop_duplicates k :
  (k < List.length kept)%nat ->
  row (drop_duplicates df) k = row df (nth k kept O).
Proof.
  intros Hk. unfold row, drop_duplicates. rewrite map_map.
  apply map_ext_in. intros nv Hin. cbn [snd].
  rewrite (drop_marked_kept NaN (duplicated df) (snd nv) 0)
    by (rewrite duplicated_length; symmetry;
        apply (rectangular_length df nv Rect Hin)).
  rewrite (nth_indep _ NaN (nth (O - 0) (snd nv) NaN))
    by (rewrite length_map; exact Hk).
  rewrite (map_nth (fun i => nth (i - 0) (snd nv) NaN)).
  rewrite Nat.sub_0_r. reflexivity.
Qed.

Lemma kept_unmarked i :
  In i kept ->
  (i < nrows df)%nat
  /\ forall j, (j < i)%nat -> row_eqb (row df j) (row df i) = false.
Proof.
  intros H. apply kept_from_bounds in H. destruct H as [B N].
  rewrite duplicated_length in B. rewrite Nat.sub_0_r in N.
  split; [lia|]. intros j Hj.
  rewrite duplicated_nth in N by lia.
  destruct (row_eqb (row df j) (row df i)) eqn:E; [|reflexivity].
  assert (X : existsb (fun j => row_eqb (row df j) (row df i)) (seq 0 i) = true).
  { apply existsb_exists. exists j. split; [|exact E].
    apply in_seq. lia. }
  congruence.
Qed.

Lemma drop_duplicates_unmarked m :
  In m (duplicated (drop_duplicates df)) -> m = false.
Proof.
  unfold duplicated at 1. rewrite (nrows_drop_duplicates df Rect). intros H.
  apply in_map_iff in H. destruct H as (i & <- & Hi).
  apply in_seq in Hi.
  destruct (existsb _ (seq 0 i)) eqn:E; [|reflexivity].
  apply existsb_exists in E. destruct E as (j & Hj & Ej).
  apply in_seq in Hj.
  rewrite !row_drop_duplicates in Ej by lia.
  assert (Hin : In (nth i kept O) kept) by (apply nth_In; lia).
  destruct (kept_unmarked _ Hin) as [_ N].
  rewrite N in Ej; [discriminate|].
  apply kept_from_increasing; lia.
Qed.

Lemma drop_duplicates_rectangular : rectangular (drop_duplicates df) = true.
Proof.
  unfold rectangular. rewrite (nrows_drop_duplicates df Rect).
  unfold drop_duplicates. apply forallb_forall. intros nv H.
  apply in_map_iff in H. destruct H as (nv0 & <- & Hin). cbn [snd].
  apply Nat.eqb_eq.
  rewrite (drop_marked_kept NaN (duplicated df) (snd nv0) 0)
    by (rewrite duplicated_length; symmetry;
        apply (rectangular_length df nv0 Rect Hin)).
  rewrite length_map. reflexivity.
Qed.

Lemma drop_duplicates_nothing_to_drop :
  (forall m, In m (duplicated df) -> m = false) -> drop_duplicates df = df.
Proof.
  intros H. unfold drop_duplicates.
  transitivity (map (fun nv : string * Series => nv) df); [|apply map_id].
  apply map_ext_in. intros [n col] Hin. cbn [fst snd].
  apply (f_equal (pair n)). apply drop_marked_unmarked; [|exact H].
  rewrite duplicated_length. symmetry.
  apply (rectangular_length df (n, col) Rect Hin).
Qed.

End DropDuplicates.

Lemma drop_duplicates_idempotent df :
  rectangular df = true ->
  drop_duplicates (drop_duplicates df) = drop_duplicates df.
Proof.
  intros R. apply drop_duplicates_nothing_to_drop.
  - apply drop_duplicates_rectangular. exact R.
  - apply drop_duplicates_unmarked. exact R.
Qed.

(** *** Equality of cells and rows *)

Lemma timestamp_eqb_eq a b : timestamp_eqb a b = true -> a = b.
Proof.
  destruct a, b. unfold timestamp_eqb. simpl. intros H.
  repeat (apply andb_true_iff in H; destruct H as [H ?]).
  repeat match goal with
         | E : (_ =? _)%Z = true |- _ => apply Z.eqb_eq in E
         end.
  subst. reflexivity.
Qed.

Lemma date_eqb_eq a b : date_eqb a b = true -> a = b.
Proof.
  destruct a, b. unfold date_eqb. simpl. intros H.
  repeat (apply andb_true_iff in H; destruct H as [H ?]).
  repeat match goal with
         | E : (_ =? _)%Z = true |- _ => apply Z.eqb_eq in E
         end.
  subst. reflexivity.
Qed.

Lemma cell_eqb_trans a b c :
  cell_eqb a b = true -> cell_eqb b c = true -> cell_eqb a c = true.
Proof.
  destruct a, b; simpl; try discriminate; destruct c; simpl;
    try discriminate; try reflexivity; intros H1 H2.
  - apply Qeq_bool_iff. apply Qeq_bool_iff in H1, H2.
    rewrite H1. exact H2.
  - apply Bool.eqb_prop in H1. subst. exact H2.
  - apply String.eqb_eq in H1, H2. subst. apply String.eqb_refl.
  - apply timestamp_eqb_eq in H1. subst. exact H2.
  - apply date_eqb_eq in H1. subst. exact H2.
Qed.

Lemma row_eqb_refl r : row_eqb r r = true.
Proof.
  induction r as [|c r IH]; simpl; [reflexivity|].
  rewrite cell_eqb_refl, IH. reflexivity.
Qed.

Lemma row_eqb_trans : forall a b c,
  row_eqb a b = true -> row_eqb b c = true -> row_eqb a c = true.
Proof.
  induction a as [|x a IH]; intros [|y b] [|z c] H1 H2; simpl in *;
    try discriminate; try reflexivity.
  apply andb_true_iff in H1. destruct H1 as [X1 R1].
  apply andb_true_iff in H2. destruct H2 as [X2 R2].
  rewrite (cell_eqb_trans x y z X1 X2), (IH b c R1 R2). reflexivity.
Qed.

(** Every row has an equal row among the rows that are kept. *)
Lemma every_row_has_a_kept_equal df :
  rectangular df = true ->
  forall i, (i < nrows df)%nat ->
  exists k, (k < List.length (kept_from 0 (duplicated df)))%nat
            /\ row_eqb (row df (nth k (kept_from 0 (duplicated df)) O)) (row df i)
               = true.
Proof.
  intros R i. induction i as [i IH] using (well_founded_induction lt_wf).
  intros Hi. destruct (nth i (duplicated df) true) eqn:M.
  - rewrite duplicated_nth in M by exact Hi.
    apply existsb_exists in M. destruct M as (j & Hj & Ej).
    apply in_seq in Hj.
    destruct (IH j ltac:(lia) ltac:(lia)) as (k & Hk & Ek).
    exists k. split; [exact Hk|].
    apply (row_eqb_trans _ _ _ Ek Ej).
  - assert (Hin : In (0 + i)%nat (kept_from 0 (duplicated df))).
    { apply kept_from_complete; [rewrite duplicated_length; exact Hi|exact M]. }
    simpl in Hin. apply (In_nth _ _ O) in Hin. destruct Hin as (k & Hk & Ek).
    exists k. split; [exact Hk|]. rewrite Ek. apply row_eqb_refl.
Qed.

Lemma kept_from_length marks : forall k,
  (List.length (kept_from k marks) <= List.length marks)%nat.
Proof.
  induction marks as [|m marks IH]; intros k; simpl; [lia|].
  destruct m; simpl; specialize (IH (S k)); lia.
Qed.

(** *** [basic_clean] as dropping duplicates from the cleaned table *)

Lemma select_member df c v : In (c, v) df -> In v (select df c).
Proof.
  intros H. unfold select. apply in_map_iff. exists (c, v).
  split; [reflexivity|]. apply filter_In. split; [exact H|].
  apply String.eqb_refl.
Qed.

Section CleanStages.

Variable timestamp_of_scalar : Cell -> option Timestamp.

Local Abbreviation clean := (basic_clean timestamp_of_scalar).
Local Abbreviation before := (cleaned_table timestamp_of_scalar).

Lemma basic_clean_stages raw d0 :
  clean raw = Ok d0 -> d0 = drop_duplicates (before raw).
Proof.
  unfold basic_clean. fold clean_name.
  change (fun c => clean_name c) with clean_name.
  set (r := rename raw clean_name).
  destruct (has_column r "datetime") eqn:Hd.
  - destruct (getitem_for ValueError r "datetime") as [s|] eqn:Hs; simpl;
      [|discriminate].
    apply getitem_for_ok in Hs.
    intros H. inversion H; subst d0; clear H. f_equal.
    unfold setitem. rewrite Hd. unfold r, rename, cleaned_table.
    rewrite map_map. apply map_ext_in. intros [n v] Hin. cbn [fst snd].
    destruct (String.eqb "datetime" (clean_name n)) eqn:E; [|reflexivity].
    apply String.eqb_eq in E.
    assert (X : In v (select r "datetime")).
    { apply select_member. unfold r, rename. apply in_map_iff.
      exists (n, v). split; [|exact Hin]. cbn [fst snd]. rewrite E. reflexivity. }
    apply getitem_select in Hs. rewrite Hs in X.
    destruct X as [<-|[]]. reflexivity.
  - simpl. intros H. inversion H; subst d0; clear H. f_equal.
    unfold r, rename, cleaned_table.
    apply map_ext_in. intros [n v] Hin. cbn [fst snd].
    destruct (String.eqb "datetime" (clean_name n)) eqn:E; [|reflexivity].
    exfalso. unfold has_column in Hd.
    assert (X : existsb (String.eqb "datetime") (columns r) = true).
    { apply existsb_exists. exists (clean_name n). split; [|exact E].
      unfold r. rewrite columns_rename. apply in_map.
      unfold columns. apply (in_map fst) in Hin. exact Hin. }
    congruence.
Qed.

Lemma nrows_before raw : nrows (before raw) = nrows raw.
Proof.
  destruct raw as [|[n v] raw]; [reflexivity|].
  unfold cleaned_table. cbn [map nrows fst snd].
  destruct (String.eqb "datetime" (clean_name n)); [|reflexivity].
  unfold to_datetime_coerce. apply length_map.
Qed.

Lemma before_rectangular raw :
  rectangular raw = true -> rectangular (before raw) = true.
Proof.
  intros R. unfold rectangular. rewrite nrows_before.
  apply forallb_forall. intros nv H.
  unfold cleaned_table in H. apply in_map_iff in H.
  destruct H as (nv0 & <- & Hin). cbn [snd].
  apply Nat.eqb_eq. rewrite <- (rectangular_length raw nv0 R Hin).
  destruct (String.eqb "datetime" (clean_name (fst nv0))); [|reflexivity].
  unfold to_datetime_coerce. apply length_map.
Qed.

(** X9. When [basic_clean] returns from a table whose columns have one
    length: no two rows of the result are equal; the result has no more
    rows than the input; every row of the input (with its names cleaned
    and its timestamps parsed) is equal to some row of the result; and
    every row of the result is such a row of the input.  So exactly the
    repeated rows are dropped. *)
Theorem basic_clean_drops_exactly_duplicates raw d0 :
  rectangular raw = true ->
  clean raw = Ok d0 ->
  (forall j k, (j < k)%nat -> (k < nrows d0)%nat ->
     row_eqb (row d0 j) (row d0 k) = false)
  /\ (nrows d0 <= nrows raw)%nat
  /\ (forall i, (i < nrows raw)%nat ->
        exists k, (k < nrows d0)%nat
                  /\ row_eqb (row d0 k) (row (before raw) i) = true)
  /\ (forall k, (k < nrows d0)%nat ->
        exists i, (i < nrows raw)%nat /\ row d0 k = row (before raw) i).
Proof.
  intros R H. apply basic_clean_stages in H. subst d0.
  pose proof (before_rectangular raw R) as Rb.
  pose proof (nrows_drop_duplicates (before raw) Rb) as N.
  split; [|split; [|split]].
  - intros j k Hjk Hk.
    pose proof (drop_duplicates_rectangular (before raw) Rb) as Rd.
    assert (M : nth k (duplicated (drop_duplicates (before raw))) true = false).
    { apply (drop_duplicates_unmarked (before raw) Rb).
      apply nth_In. rewrite duplicated_length. exact Hk. }
    rewrite duplicated_nth in M by exact Hk.
    destruct (row_eqb _ _) eqn:E; [|reflexivity].
    assert (X : existsb (fun j0 => row_eqb (row (drop_duplicates (before raw)) j0)
                                     (row (drop_duplicates (before raw)) k))
                        (seq 0 k) = true).
    { apply existsb_exists. exists j. split; [apply in_seq; lia|exact E]. }
    congruence.
  - rewrite N, <- nrows_before, <- duplicated_length. apply kept_from_length.
  - intros i Hi. rewrite <- nrows_before in Hi.
    destruct (every_row_has_a_kept_equal (before raw) Rb i Hi) as (k & Hk & Ek).
    exists k. split; [rewrite N; exact Hk|].
    rewrite (row_drop_duplicates (before raw) Rb k Hk). exact Ek.
  - intros k Hk. rewrite N in Hk.
    exists (nth k (kept_from 0 (duplicated (before raw))) O). split.
    + assert (Hin : In (nth k (kept_from 0 (duplicated (before raw))) O)
                       (kept_from 0 (duplicated (before raw))))
        by (apply nth_In; exact Hk).
      apply kept_from_bounds in Hin.
      rewrite duplicated_length, nrows_before in Hin. lia.
    + apply (row_drop_duplicates (before raw) Rb k Hk).
Qed.

End CleanStages.

Lemma basic_clean_drops_exactly_duplicates_witness :
  (forall j k, (j < k)%nat ->
     (k < nrows [("hour", [Num 1; Num 2; Num 3]); ("rides", [Num 10; Num 20; Num 10])])%nat ->
     row_eqb (row [("hour", [Num 1; Num 2; Num 3]); ("rides", [Num 10; Num 20; Num 10])] j)
             (row [("hour", [Num 1; Num 2; Num 3]); ("rides", [Num 10; Num 20; Num 10])] k)
     = false)
  /\ (nrows [("hour", [Num 1; Num 2; Num 3]); ("rides", [Num 10; Num 20; Num 10])]
      <= nrows repeated_raw)%nat
  /\ (forall i, (i < nrows repeated_raw)%nat ->
        exists k,
          (k < nrows [("hour", [Num 1; Num 2; Num 3]); ("rides", [Num 10; Num 20; Num 10])])%nat
          /\ row_eqb (row [("hour", [Num 1; Num 2; Num 3]); ("rides", [Num 10; Num 20; Num 10])] k)
                     (row (cleaned_table (fun _ => None) repeated_raw) i) = true)
  /\ (forall k,
        (k < nrows [("hour", [Num 1; Num 2; Num 3]); ("rides", [Num 10; Num 20; Num 10])])%nat ->
        exists i, (i < nrows repeated_raw)%nat
                  /\ row [("hour", [Num 1; Num 2; Num 3]); ("rides", [Num 10; Num 20; Num 10])] k
                     = row (cleaned_table (fun _ => None) repeated_raw) i).
Proof.
  exact (basic_clean_drops_exactly_duplicates (fun _ => None) repeated_raw _
           eq_refl eq_refl).
Defined.

(** ** [basic_clean]: cleaning a cleaned table *)

Lemma isspace_lower a : isspace (lower_ascii a) = isspace a.
Proof. destruct a as [[] [] [] [] [] [] [] []]; reflexivity. Qed.

Lemma lower_ascii_idempotent a : lower_ascii (lower_ascii a) = lower_ascii a.
Proof. destruct a as [[] [] [] [] [] [] [] []]; reflexivity. Qed.

Lemma lower_idempotent s : lower (lower s) = lower s.
Proof.
  induction s as [|a s IH]; [reflexivity|].
  cbn [lower]. rewrite lower_ascii_idempotent, IH. reflexivity.
Qed.

Lemma lstrip_lower s : lstrip (lower s) = lower (lstrip s).
Proof.
  induction s as [|a s IH]; [reflexivity|].
  cbn [lower lstrip]. rewrite isspace_lower.
  destruct (isspace a); [exact IH|reflexivity].
Qed.

Lemma rstrip_lower s : rstrip (lower s) = lower (rstrip s).
Proof.
  induction s as [|a s IH]; [reflexivity|].
  cbn [lower rstrip]. rewrite IH, isspace_lower.
  destruct (rstrip s); cbn [lower]; [destruct (isspace a)|]; reflexivity.
Qed.

Lemma strip_lower s : strip (lower s) = lower (strip s).
Proof. unfold strip. rewrite lstrip_lower, rstrip_lower. reflexivity. Qed.

Lemma lstrip_starts_clean s : starts_clean (lstrip s) = true.
Proof.
  induction s as [|a s IH]; [reflexivity|].
  cbn [lstrip]. destruct (isspace a) eqn:E; [exact IH|].
  cbn [starts_clean]. rewrite E. reflexivity.
Qed.

Lemma lstrip_fixed s : starts_clean s = true -> lstrip s = s.
Proof.
  destruct s as [|a s]; [reflexivity|].
  cbn [starts_clean lstrip]. destruct (isspace a); [discriminate|reflexivity].
Qed.

Lemma rstrip_starts_clean s :
  starts_clean s = true -> starts_clean (rstrip s) = true.
Proof.
  destruct s as [|a s]; [reflexivity|].
  cbn [starts_clean rstrip]. intros H.
  destruct (rstrip s); [|exact H].
  destruct (isspace a) eqn:E; [discriminate|].
  cbn [starts_clean]. rewrite E. reflexivity.
Qed.

Lemma rstrip_idempotent s : rstrip (rstrip s) = rstrip s.
Proof.
  induction s as [|a s IH]; [reflexivity|].
  cbn [rstrip]. destruct (rstrip s) as [|b t] eqn:E.
  - destruct (isspace a) eqn:Ea; [reflexivity|].
    cbn [rstrip]. rewrite Ea. reflexivity.
  - cbn [rstrip]. cbn [rstrip] in IH.
    destruct (rstrip t) as [|c u] eqn:Et.
    + destruct (isspace b); [discriminate|rewrite IH; reflexivity].
    + rewrite IH. reflexivity.
Qed.

Lemma strip_idempotent s : strip (strip s) = strip s.
Proof.
  unfold strip.
  rewrite (lstrip_fixed (rstrip (lstrip s)))
    by apply rstrip_starts_clean, lstrip_starts_clean.
  apply rstrip_idempotent.
Qed.

Lemma clean_name_idempotent c : clean_name (clean_name c) = clean_name c.
Proof.
  unfold clean_name.
  rewrite strip_lower, lower_idempotent, strip_idempotent. reflexivity.
Qed.

Lemma datetimelike_fixed f s :
  datetimelike s = true -> to_datetime_coerce f s = s.
Proof.
  unfold datetimelike, to_datetime_coerce.
  induction s as [|c s IH]; simpl; intros H; [reflexivity|].
  apply andb_true_iff in H. destruct H as [Hc Hs].
  rewrite (IH Hs). destruct c; try discriminate; reflexivity.
Qed.

Lemma setitem_same_value df c s : getitem df c = Ok s -> setitem df c s = df.
Proof.
  intros H. unfold setitem. rewrite (getitem_has_column _ _ _ H).
  apply getitem_select in H.
  transitivity (map (fun nv : string * Series => nv) df); [|apply map_id].
  apply map_ext_in. intros [n v] Hin. cbn [fst snd].
  destruct (String.eqb c n) eqn:E; [|reflexivity].
  apply String.eqb_eq in E. subst n.
  apply select_member in Hin. rewrite H in Hin.
  destruct Hin as [<-|[]]. reflexivity.
Qed.

Lemma before_datetime_columns f raw v :
  In v (select (cleaned_table f raw) "datetime") -> datetimelike v = true.
Proof.
  unfold select, cleaned_table.
  induction raw as [|[n c] raw IH]; [intros []|].
  cbn [map filter fst snd].
  destruct (String.eqb "datetime" (clean_name n)) eqn:E; cbn [map snd In].
  - intros [<-|H]; [apply datetimelike_coerced|apply IH; exact H].
  - exact IH.
Qed.

(** X10. Cleaning is idempotent: when [basic_clean] returns a table from
    an input whose columns have one length, [basic_clean] applied to that
    table returns it unchanged. *)
Theorem basic_clean_idempotent
        (timestamp_of_scalar : Cell -> option Timestamp) raw d0 :
  rectangular raw = true ->
  basic_clean timestamp_of_scalar raw = Ok d0 ->
  basic_clean timestamp_of_scalar d0 = Ok d0.
Proof.
  intros R H.
  pose proof (basic_clean_stages timestamp_of_scalar raw d0 H) as S.
  pose proof (before_rectangular timestamp_of_scalar raw R) as Rb.
  assert (Hnames : rename d0 clean_name = d0).
  { unfold rename.
    transitivity (map (fun nv : string * Series => nv) d0); [|apply map_id].
    apply map_ext_in. intros [n v] Hin. cbn [fst snd].
    apply (f_equal (fun x => (x, v))).
    assert (X : In n (columns d0))
      by (unfold columns; apply (in_map fst) in Hin; exact Hin).
    rewrite S, columns_drop_duplicates in X.
    unfold columns, cleaned_table in X. rewrite map_map in X.
    apply in_map_iff in X. destruct X as (nv0 & <- & _). cbn [fst].
    apply clean_name_idempotent. }
  assert (Hdd : drop_duplicates d0 = d0).
  { rewrite S. apply drop_duplicates_idempotent. exact Rb. }
  assert (Hcol : forall s, getitem d0 "datetime" = Ok s -> datetimelike s = true).
  { intros s Hs. rewrite S in Hs. apply getitem_select in Hs.
    rewrite select_drop_duplicates in Hs.
    assert (X : In s (map (drop_marked (duplicated (cleaned_table timestamp_of_scalar raw)))
                          (select (cleaned_table timestamp_of_scalar raw) "datetime")))
      by (rewrite Hs; left; reflexivity).
    apply in_map_iff in X. destruct X as (v & <- & Hv).
    apply datetimelike_drop_marked.
    apply (before_datetime_columns timestamp_of_scalar raw v Hv). }
  assert (Hpresent : has_column d0 "datetime" = true ->
                     exists s, getitem d0 "datetime" = Ok s).
  { intros Hd.
    unfold basic_clean in H. fold clean_name in H.
    change (fun c => clean_name c) with clean_name in H.
    destruct (has_column (rename raw clean_name) "datetime") eqn:Hr.
    - destruct (getitem_for ValueError (rename raw clean_name) "datetime")
        as [s|] eqn:Hs; simpl in H; [|discriminate].
      apply getitem_for_ok in Hs.
      inversion H as [H']. exists (drop_marked
        (duplicated (setitem (rename raw clean_name) "datetime"
                       (to_datetime_coerce timestamp_of_scalar s)))
        (to_datetime_coerce timestamp_of_scalar s)).
      apply getitem_select. rewrite select_drop_duplicates.
      rewrite select_setitem_same; [reflexivity|].
      apply getitem_select in Hs. rewrite Hs. simpl. lia.
    - simpl in H. inversion H as [H']. rewrite <- H' in Hd.
      unfold has_column in Hd, Hr.
      rewrite columns_drop_duplicates in Hd. congruence. }
  unfold basic_clean. fold clean_name.
  change (fun c => clean_name c) with clean_name.
  rewrite Hnames.
  destruct (has_column d0 "datetime") eqn:Hd.
  - destruct (Hpresent eq_refl) as [s Hs].
    rewrite (proj2 (getitem_for_ok ValueError d0 "datetime" s) Hs). simpl.
    rewrite (datetimelike_fixed timestamp_of_scalar s (Hcol s Hs)).
    rewrite (setitem_same_value d0 "datetime" s Hs), Hdd. reflexivity.
  - simpl. rewrite Hdd. reflexivity.
Qed.

Lemma basic_clean_idempotent_witness :
  basic_clean sample_clock
    [("datetime", [Time new_year_5am; NaT]); ("temp", [Num 3; Num 4])]
  = Ok [("datetime", [Time new_year_5am; NaT]); ("temp", [Num 3; Num 4])].
Proof.
  exact (basic_clean_idempotent sample_clock untidy_raw _ eq_refl eq_refl).
Defined.

(** ** [process]: which errors it can raise *)

Lemma getitem_setitem_other df c c' s :
  c <> c' -> getitem (setitem df c s) c' = getitem df c'.
Proof.
  intros H. unfold getitem. rewrite select_setitem_other by exact H. reflexivity.
Qed.

Lemma getitem_setitem_same df c s :
  NoDup (columns df) -> getitem (setitem df c s) c = Ok s.
Proof.
  intros U. apply getitem_select, select_setitem_same, select_unique, U.
Qed.

Lemma finite_values s :
  finite_numbers s = true ->
  has_infinite s = false /\ exists l, numeric_values s = Ok l.
Proof.
  unfold finite_numbers, has_infinite.
  induction s as [|c s IH]; simpl; intros H; [eauto|].
  apply andb_true_iff in H. destruct H as [Hc Hs].
  destruct (IH Hs) as [Hi [l Hl]].
  destruct c; try discriminate; rewrite Hl; simpl; eauto.
Qed.

Lemma finite_median s :
  finite_numbers s = true ->
  exists m, median s = Ok m /\ finite_numbers [m] = true.
Proof.
  intros H. destruct (finite_values s H) as [Hi [l Hl]].
  unfold median. rewrite Hl, Hi. simpl.
  destruct (median_of l); eauto.
Qed.

Lemma finite_fillna s v :
  finite_numbers s = true -> finite_numbers [v] = true ->
  finite_numbers (fillna s v) = true.
Proof.
  unfold finite_numbers, fillna. intros H Hv. simpl in Hv.
  rewrite andb_true_r in Hv.
  induction s as [|c s IH]; simpl in *; [reflexivity|].
  apply andb_true_iff in H. destruct H as [Hc Hs].
  rewrite (IH Hs). destruct c; try discriminate; simpl; rewrite ?Hv; reflexivity.
Qed.

Lemma finite_coerced f s :
  has_infinite (to_numeric f s) = false -> finite_numbers (to_numeric f s) = true.
Proof.
  unfold finite_numbers, has_infinite, to_numeric.
  induction s as [|c s IH]; simpl; [reflexivity|].
  intros H. apply orb_false_iff in H. destruct H as [Hc Hs].
  rewrite (IH Hs).
  destruct (coerced_cases f c) as [[q E]|[[b E]|E]]; rewrite E in *;
    [reflexivity|discriminate|reflexivity].
Qed.

Lemma finite_imputed f s :
  has_infinite (to_numeric f s) = false ->
  finite_numbers (fillna (to_numeric f s) (fill_value (to_numeric f s))) = true.
Proof.
  intros H. pose proof (finite_coerced f s H) as Hn.
  apply finite_fillna; [exact Hn|].
  destruct (finite_median _ Hn) as (m & Hm & Fm).
  unfold fill_value. rewrite Hm.
  destruct (isna m); [reflexivity|exact Fm].
Qed.

Lemma finite_replace_zero s m :
  finite_numbers s = true -> finite_numbers [m] = true ->
  finite_numbers (replace_zero s m) = true.
Proof.
  unfold finite_numbers, replace_zero. intros H Hm. simpl in Hm.
  rewrite andb_true_r in Hm.
  induction s as [|c s IH]; simpl in *; [reflexivity|].
  apply andb_true_iff in H. destruct H as [Hc Hs].
  rewrite (IH Hs). destruct c; try discriminate; try reflexivity.
  destruct (Qeq_bool q 0); [rewrite Hm|]; reflexivity.
Qed.

Lemma add_finite : forall a b,
  finite_numbers a = true -> finite_numbers b = true -> exists s, add a b = Ok s.
Proof.
  unfold finite_numbers.
  induction a as [|x a IH]; intros [|y b] Ha Hb; simpl in *; eauto.
  apply andb_true_iff in Ha. destruct Ha as [Hx Ha].
  apply andb_true_iff in Hb. destruct Hb as [Hy Hb].
  destruct (IH b Ha Hb) as [s Hs]. rewrite Hs.
  destruct x; try discriminate; destruct y; try discriminate; simpl; eauto.
Qed.

(** Binning a column of finite numbers returns or raises a ValueError. *)
Lemma qcut_finite s q labels :
  finite_numbers s = true ->
  (exists c, qcut s q labels = Ok c) \/ qcut s q labels = Raise ValueError.
Proof.
  intros H. unfold qcut. destruct (finite_values s H) as [Hi [l Hl]].
  rewrite Hl, Hi. simpl.
  destruct (quantile_edges l q) as [bins|]; [|right; reflexivity].
  destruct (has_duplicates bins && negb (List.length bins =? 2)%nat);
    [right; reflexivity|left; eauto].
Qed.

Section StepsReturn.

Variable d : DataFrame.
Hypothesis R : ready d.

Lemma add_datetime_parts_returns : exists d', add_datetime_parts d = Ok d'.
Proof.
  destruct R as (U & Hdt & _). unfold add_datetime_parts.
  destruct (has_column d "datetime") eqn:Hd; [|eauto].
  destruct (getitem_present d "datetime" U Hd) as [s Hs].
  destruct (datetimelike_dt s (Hdt s Hs)) as [t Ht].
  rewrite Hs. simpl. rewrite Ht. simpl.
  repeat (rewrite !getitem_setitem_other by discriminate;
          rewrite Hs; simpl; rewrite Ht; simpl).
  eauto.
Qed.

Lemma add_season_label_total : exists d', add_season_label d = Ok d'.
Proof.
  destruct R as (U & _). unfold add_season_label.
  destruct (has_column d "season") eqn:Hd; [|eauto].
  destruct (getitem_present d "season" U Hd) as [s ->]. simpl. eauto.
Qed.

Lemma add_weather_label_total : exists d', add_weather_label d = Ok d'.
Proof.
  destruct R as (U & _). unfold add_weather_label.
  destruct (has_column d "weather") eqn:Hd; [|eauto].
  destruct (getitem_present d "weather" U Hd) as [s ->]. simpl. eauto.
Qed.

Lemma add_count_returns : exists d', add_count d = Ok d'.
Proof.
  destruct R as (U & _ & N). unfold add_count.
  destruct (has_column d "count"); simpl; [eauto|].
  destruct (has_column d "registered") eqn:Hr; simpl; [|eauto].
  destruct (has_column d "casual") eqn:Hc; simpl; [|eauto].
  destruct (getitem_present d "registered" U Hr) as [r Er].
  destruct (getitem_present d "casual" U Hc) as [c Ec].
  rewrite Er, Ec. simpl.
  destruct (add_finite r c) as [s ->].
  - apply (N "registered"); [unfold reading_columns; simpl; tauto|exact Er].
  - apply (N "casual"); [unfold reading_columns; simpl; tauto|exact Ec].
  - simpl. eauto.
Qed.

Lemma add_temp_category_outcome :
  (exists d', add_temp_category d = Ok d')
  \/ (add_temp_category d = Raise ValueError /\ has_column d "temp" = true).
Proof.
  destruct R as (U & _ & N). unfold add_temp_category.
  destruct (has_column d "temp") eqn:Ht; simpl; [|left; eauto].
  destruct (has_column d "temp_category"); simpl; [left; eauto|].
  destruct (getitem_present d "temp" U Ht) as [s Es]. rewrite Es. simpl.
  destruct (qcut_finite s 4 temp_labels) as [[c ->]| ->].
  - apply (N "temp"); [unfold reading_columns; simpl; tauto|exact Es].
  - left. simpl. eauto.
  - right. split; reflexivity.
Qed.

Lemma add_atemp_category_outcome :
  (exists d', add_atemp_category d = Ok d')
  \/ (add_atemp_category d = Raise ValueError /\ has_column d "atemp" = true).
Proof.
  destruct R as (U & _ & N). unfold add_atemp_category.
  destruct (has_column d "atemp") eqn:Ht; simpl; [|left; eauto].
  destruct (has_column d "atemp_category"); simpl; [left; eauto|].
  destruct (getitem_present d "atemp" U Ht) as [s Es]. rewrite Es. simpl.
  destruct (qcut_finite s 4 temp_labels) as [[c ->]| ->].
  - apply (N "atemp"); [unfold reading_columns; simpl; tauto|exact Es].
  - left. simpl. eauto.
  - right. split; reflexivity.
Qed.

Lemma add_humidity_category_returns : exists d', add_humidity_category d = Ok d'.
Proof.
  destruct R as (U & _ & N). unfold add_humidity_category.
  destruct (has_column d "humidity") eqn:Ht; simpl; [|eauto].
  destruct (has_column d "humidity_category"); simpl; [eauto|].
  destruct (getitem_present d "humidity" U Ht) as [s Es]. rewrite Es. simpl.
  unfold cut.
  destruct (finite_values s) as [_ [l ->]].
  - apply (N "humidity"); [unfold reading_columns; simpl; tauto|exact Es].
  - simpl. eauto.
Qed.

Lemma add_windspeed_category_outcome :
  (exists d', add_windspeed_category d = Ok d')
  \/ (add_windspeed_category d = Raise ValueError
      /\ has_column d "windspeed" = true).
Proof.
  destruct R as (U & _ & N). unfold add_windspeed_category.
  destruct (has_column d "windspeed") eqn:Ht; simpl; [|left; eauto].
  destruct (has_column d "windspeed_category"); simpl; [left; eauto|].
  destruct (getitem_present d "windspeed" U Ht) as [s Es]. rewrite Es. simpl.
  assert (Ns : finite_numbers s = true)
    by (apply (N "windspeed"); [unfold reading_columns; simpl; tauto|exact Es]).
  destruct (finite_median s Ns) as (m & -> & Fm). simpl.
  rewrite (getitem_setitem_same d "windspeed" _ U). simpl.
  destruct (qcut_finite (replace_zero s m) 3 level_labels) as [[c ->]| ->].
  - apply finite_replace_zero; [exact Ns|exact Fm].
  - left. simpl. eauto.
  - right. split; reflexivity.
Qed.

End StepsReturn.

(** A step that writes none of the reading columns and leaves the
    timestamps alone hands on a table that is ready. *)
Lemma ready_after T f d d' :
  writes T f ->
  (forall c, In c ("datetime" :: reading_columns) -> ~ In c T) ->
  f d = Ok d' -> ready d -> ready d'.
Proof.
  intros W Hdis H (U & Hdt & N). destruct (W d d' H) as [F Uk].
  split; [exact (Uk U)|]. split.
  - intros s Hs. apply Hdt. apply getitem_select. rewrite <- F.
    + apply getitem_select. exact Hs.
    + apply Hdis. simpl. tauto.
  - intros c s Hc Hs. apply (N c s Hc). apply getitem_select. rewrite <- F.
    + apply getitem_select. exact Hs.
    + apply Hdis. simpl. tauto.
Qed.

Ltac apart :=
  intros ? Hin; unfold reading_columns, datetime_parts in *; simpl in *;
  intuition (subst; discriminate).

Lemma feature_engineering_outcome d :
  ready d ->
  (exists d', feature_engineering d = Ok d')
  \/ (feature_engineering d = Raise ValueError
      /\ (has_column d "temp" = true \/ has_column d "atemp" = true
          \/ has_column d "windspeed" = true)).
Proof.
  intros R0. unfold feature_engineering.
  destruct (add_datetime_parts_returns d R0) as [d1 E1]. rewrite E1. simpl.
  assert (R1 : ready d1)
    by (apply (ready_after _ _ d d1 add_datetime_parts_writes); [apart|exact E1|exact R0]).
  destruct (add_season_label_total d1 R1) as [d2 E2]. rewrite E2. simpl.
  assert (R2 : ready d2)
    by (apply (ready_after _ _ d1 d2 add_season_label_writes); [apart|exact E2|exact R1]).
  destruct (add_weather_label_total d2 R2) as [d3 E3]. rewrite E3. simpl.
  assert (R3 : ready d3)
    by (apply (ready_after _ _ d2 d3 add_weather_label_writes); [apart|exact E3|exact R2]).
  destruct (add_count_returns d3 R3) as [d4 E4]. rewrite E4. simpl.
  assert (R4 : ready d4)
    by (apply (ready_after _ _ d3 d4 add_count_writes); [apart|exact E4|exact R3]).
  assert (P4 : forall c, In c reading_columns -> has_column d4 c = has_column d c).
  { intros c Hc. apply has_column_same.
    rewrite (proj1 (add_count_writes _ _ E4) c) by (revert c Hc; apart).
    rewrite (proj1 (add_weather_label_writes _ _ E3) c) by (revert c Hc; apart).
    rewrite (proj1 (add_season_label_writes _ _ E2) c) by (revert c Hc; apart).
    rewrite (proj1 (add_datetime_parts_writes _ _ E1) c) by (revert c Hc; apart).
    reflexivity. }
  destruct (add_temp_category_outcome d4 R4) as [[d5 E5]|[E5 Ht]].
  2:{ right. rewrite E5. split; [reflexivity|]. left.
      rewrite <- (P4 "temp"); [exact Ht|unfold reading_columns; simpl; tauto]. }
  rewrite E5. simpl.
  assert (R5 : ready d5)
    by (apply (ready_after _ _ d4 d5 add_temp_category_writes); [apart|exact E5|exact R4]).
  destruct (add_atemp_category_outcome d5 R5) as [[d6 E6]|[E6 Ht]].
  2:{ right. rewrite E6. split; [reflexivity|]. right. left.
      assert (X : has_column d5 "atemp" = has_column d4 "atemp")
        by (apply has_column_same; carry E5; reflexivity).
      rewrite <- (P4 "atemp"); [|unfold reading_columns; simpl; tauto].
      congruence. }
  rewrite E6. simpl.
  assert (R6 : ready d6)
    by (apply (ready_after _ _ d5 d6 add_atemp_category_writes); [apart|exact E6|exact R5]).
  destruct (add_humidity_category_returns d6 R6) as [d7 E7]. rewrite E7. simpl.
  assert (R7 : ready d7)
    by (apply (ready_after _ _ d6 d7 add_humidity_category_writes); [apart|exact E7|exact R6]).
  destruct (add_windspeed_category_outcome d7 R7) as [[d8 E8]|[E8 Ht]].
  - left. eauto.
  - right. split; [exact E8|]. right. right.
    assert (X : has_column d7 "windspeed" = has_column d4 "windspeed")
      by (apply has_column_same; carry E7; carry E6; carry E5; reflexivity).
    rewrite <- (P4 "windspeed"); [|unfold reading_columns; simpl; tauto].
    congruence.
Qed.

(** *** The readings that reach the conversions *)

Lemma has_infinite_drop_marked f marks : forall s,
  has_infinite (to_numeric f s) = false ->
  has_infinite (to_numeric f (drop_marked marks s)) = false.
Proof.
  unfold has_infinite, to_numeric.
  induction marks as [|m marks IH]; intros [|c s] H; simpl in *;
    try reflexivity.
  apply orb_false_iff in H. destruct H as [Hc Hs].
  destruct m; simpl; [|rewrite Hc]; apply IH; exact Hs.
Qed.

Lemma select_cleaned_table tos raw c v :
  c <> "datetime" ->
  In v (select (cleaned_table tos raw) c) ->
  exists n, In (n, v) raw /\ clean_name n = c.
Proof.
  intros Hc. unfold select, cleaned_table.
  induction raw as [|[n v0] raw IH]; [intros []|].
  cbn [map filter fst snd].
  destruct (String.eqb c (clean_name n)) eqn:E; cbn [map snd In].
  - apply String.eqb_eq in E.
    assert (X : String.eqb "datetime" (clean_name n) = false)
      by (apply String.eqb_neq; congruence).
    rewrite X. intros [<-|H].
    + exists n. split; [left; reflexivity|congruence].
    + destruct (IH H) as (n' & Hin & Hn). exists n'. split; [right|]; assumption.
  - intros H. destruct (IH H) as (n' & Hin & Hn).
    exists n'. split; [right|]; assumption.
Qed.

(** A converted column of the cleaned table holds no infinite reading
    when the file held none. *)
Lemma cleaned_readings_finite f tos raw d0 c s :
  finite_readings f raw = true ->
  basic_clean tos raw = Ok d0 ->
  In c (numeric_cols ++ code_cols) ->
  getitem d0 c = Ok s ->
  has_infinite (to_numeric f s) = false.
Proof.
  intros Hf H0 Hc Hs.
  rewrite (basic_clean_stages tos raw d0 H0) in Hs.
  apply getitem_select in Hs. rewrite select_drop_duplicates in Hs.
  assert (X : In s (map (drop_marked (duplicated (cleaned_table tos raw)))
                        (select (cleaned_table tos raw) c)))
    by (rewrite Hs; left; reflexivity).
  apply in_map_iff in X. destruct X as (v & <- & Hv).
  apply has_infinite_drop_marked.
  destruct (select_cleaned_table tos raw c v) as (n & Hin & Hn); [|exact Hv|].
  { intros ->. unfold numeric_cols, code_cols in Hc. simpl in Hc.
    intuition discriminate. }
  unfold finite_readings in Hf. rewrite forallb_forall in Hf.
  specialize (Hf (n, v) Hin). cbn [fst snd] in Hf.
  assert (Y : existsb (String.eqb (clean_name n)) (numeric_cols ++ code_cols)
              = true).
  { apply existsb_exists. exists c. split; [exact Hc|].
    rewrite Hn. apply String.eqb_refl. }
  rewrite Y in Hf. apply negb_true_iff in Hf. exact Hf.
Qed.

Section Outcome.

Variable read_csv : string -> result DataFrame.
Variable path_exists : string -> bool.
Variable numeric_of_scalar : Cell -> option Number.
Variable timestamp_of_scalar : Cell -> option Timestamp.

Local Abbreviation run :=
  (process read_csv path_exists numeric_of_scalar timestamp_of_scalar).

(** The table after cleaning and imputation is ready. *)
Lemma cleaned_and_imputed_ready raw :
  NoDup (map clean_name (columns raw)) ->
  finite_readings numeric_of_scalar raw = true ->
  exists d0 d1,
    basic_clean timestamp_of_scalar raw = Ok d0
    /\ impute_and_cast numeric_of_scalar d0 = Ok d1
    /\ columns d1 = map clean_name (columns raw)
    /\ ready d1.
Proof.
  intros U Hfin.
  destruct (basic_clean_returns timestamp_of_scalar raw U)
    as (d0 & E0 & C0 & T0).
  assert (U0 : NoDup (columns d0)) by (rewrite C0; exact U).
  assert (Fin : forall c s, In c (numeric_cols ++ code_cols) ->
                  getitem d0 c = Ok s ->
                  has_infinite (to_numeric numeric_of_scalar s) = false)
    by (intros c s; apply (cleaned_readings_finite _ _ raw d0 c s Hfin E0)).
  destruct (impute_and_cast_returns numeric_of_scalar d0 U0) as [d1 E].
  { intros c s Hc. apply Fin. apply in_or_app. right. exact Hc. }
  destruct (impute_loop_spec numeric_of_scalar numeric_cols d0
              numeric_cols_distinct U0) as (dm & Em & Um & Fm & Sm).
  assert (E1 : for_each (cast_column numeric_of_scalar) code_cols dm = Ok d1).
  { unfold impute_and_cast in E. rewrite Em in E. exact E. }
  destruct (cast_loop_spec numeric_of_scalar code_cols dm d1 E1) as [U1 F1].
  pose proof (impute_and_cast_columns numeric_of_scalar d0 d1 E) as C1.
  exists d0, d1. split; [exact E0|]. split; [exact E|].
  split; [rewrite C1; exact C0|].
  split; [exact (U1 Um)|]. split.
  - intros s Hs. apply T0. apply getitem_select.
    rewrite <- Fm by (unfold numeric_cols; simpl; intuition discriminate).
    rewrite <- F1 by (unfold code_cols; simpl; intuition discriminate).
    apply getitem_select. exact Hs.
  - intros c s Hc Hs.
    assert (Hn : In c numeric_cols)
      by (unfold reading_columns in Hc; unfold numeric_cols; simpl in *; tauto).
    assert (Hk : ~ In c code_cols)
      by (unfold reading_columns in Hc; unfold code_cols; simpl in *;
          intuition (subst; discriminate)).
    assert (P : has_column d0 c = true).
    { apply getitem_has_column in Hs. unfold has_column in *.
      rewrite <- C1. exact Hs. }
    destruct (getitem_present d0 c U0 P) as [s0 Hs0].
    pose proof (Sm c s0 Hn Hs0) as V.
    apply getitem_select in V. rewrite <- (F1 c Hk) in V.
    apply getitem_select in Hs. rewrite Hs in V. inversion V.
    apply finite_imputed. apply (Fin c s0); [|exact Hs0].
    apply in_or_app. left. exact Hn.
Qed.

Lemma process_passes_load_error input url out e :
  load_data read_csv path_exists input url = Raise e ->
  run input url out = Raise e.
Proof. intros He. unfold process. rewrite He. reflexivity. Qed.


(** X8. When [process] returns from a file whose header names are ASCII
    text, it has written to the given output path, or to the default one
    if none was given; the header of the artifact is the list of column
    names of the returned table, which starts with the cleaned header
    names of the loaded file in their order and goes on with names of
    derived columns only. *)
Theorem process_artifact_header input url out raw df path csv :
  load_data read_csv path_exists input url = Ok raw ->
  forallb is_ascii (columns raw) = true ->
  run input url out = Ok (df, (path, csv)) ->
  path = (if truthy out then arg out else DEFAULT_OUTPUT)
  /\ map fst csv = columns df
  /\ exists l, columns df = (map clean_name (columns raw) ++ l)%list
               /\ incl l derived_columns.
Proof.
  intros Hl _ H.
  assert (Hp : path = if truthy out then arg out else DEFAULT_OUTPUT).
  { unfold process in H. rewrite Hl in H. simpl in H. unfold Py.bind in H.
    split_binds H. inversion H. reflexivity. }
  destruct (process_stages _ _ _ _ _ _ _ _ _ _ H)
    as (raw' & d0 & d1 & F0 & F1 & F2 & F3 & ->).
  rewrite Hl in F0. inversion F0; subst raw'.
  split; [exact Hp|]. split; [apply to_csv_header|].
  destruct (columns_after_features d1 df F3) as (l & El & Il).
  exists l. split; [|exact Il].
  rewrite El, (impute_and_cast_columns numeric_of_scalar d0 d1 F2).
  f_equal. apply (basic_clean_columns timestamp_of_scalar raw d0 F1).
Qed.

End Outcome.

Lemma mild_week_clean_names : NoDup (map clean_name (columns mild_week)).
Proof. repeat constructor; simpl; intuition discriminate. Defined.


Lemma process_artifact_header_witness :
  "results/out.csv" = (if truthy (Some "results/out.csv")
                       then arg (Some "results/out.csv") else DEFAULT_OUTPUT)
  /\ map fst (to_csv new_year_processed) = columns new_year_processed
  /\ exists l, columns new_year_processed
               = (map clean_name (columns new_year_raw) ++ l)%list
               /\ incl l derived_columns.
Proof.
  exact (process_artifact_header new_year_source (fun _ => false)
           (fun _ => None) sample_clock None None (Some "results/out.csv")
           new_year_raw new_year_processed "results/out.csv"
           (to_csv new_year_processed) eq_refl eq_refl eq_refl).
Defined.

(** * Further properties of the report generator *)

(** ** Which figures can be saved *)

Lemma subseq_nil_any {A : Type} (l : list A) : subseq [] l.
Proof.
  induction l; [apply subseq_nil|apply subseq_skip; assumption].
Qed.

Lemma subseq_refl {A : Type} (l : list A) : subseq l l.
Proof.
  induction l; [apply subseq_nil|apply subseq_take; assumption].
Qed.

Lemma subseq_app {A : Type} (a a' b b' : list A) :
  subseq a a' -> subseq b b' -> subseq (a ++ b) (a' ++ b').
Proof.
  intros H. induction H; intros Hb; simpl.
  - exact Hb.
  - apply subseq_skip. apply IHsubseq. exact Hb.
  - apply subseq_take. apply IHsubseq. exact Hb.
Qed.

Section Figures.

Import Plots.

Variable timestamp_of_scalar : Cell -> option Timestamp.
Variable call_error : Call -> DataFrame -> option Exn.

Lemma quiet_saves {A : Type} (m : M A) N : quiet m -> saves N m.
Proof.
  intros Q st. exists []. rewrite app_nil_r. split; [apply Q|apply subseq_nil_any].
Qed.

Lemma quiet_ret {A : Type} (a : A) : quiet (ret a).
Proof. intros st. reflexivity. Qed.

Lemma quiet_get : quiet get_frame.
Proof. intros st. reflexivity. Qed.

Lemma quiet_lift {A : Type} (r : result A) : quiet (lift r).
Proof. intros st. reflexivity. Qed.

Lemma quiet_assign c s : quiet (assign c s).
Proof. intros st. reflexivity. Qed.

Lemma quiet_call c : quiet (call call_error c).
Proof.
  intros st. unfold call. destruct (call_error c (frame st)); reflexivity.
Qed.

Lemma quiet_bind {A B : Type} (m : M A) (k : A -> M B) :
  quiet m -> (forall a, quiet (k a)) -> quiet (bind m k).
Proof.
  intros Hm Hk st. unfold bind. specialize (Hm st).
  destruct (m st) as [[a|e] st1]; simpl in *.
  - rewrite (Hk a st1). exact Hm.
  - exact Hm.
Qed.

Lemma quiet_try {A : Type} (m h : M A) :
  quiet m -> quiet h -> quiet (try_except m h).
Proof.
  intros Hm Hh st. unfold try_except. specialize (Hm st).
  destruct (m st) as [[a|e] st1]; simpl in *.
  - exact Hm.
  - rewrite (Hh st1). exact Hm.
Qed.

Lemma saves_save name : saves [FIG_DIR ++ "/" ++ name] (_save name).
Proof.
  intros st. exists [FIG_DIR ++ "/" ++ name]. split; [reflexivity|apply subseq_refl].
Qed.

Lemma saves_after_quiet {A B : Type} (m : M A) (k : A -> M B) N :
  quiet m -> (forall a, saves N (k a)) -> saves N (bind m k).
Proof.
  intros Hm Hk st. unfold bind. specialize (Hm st).
  destruct (m st) as [[a|e] st1]; simpl in *.
  - destruct (Hk a st1) as (l & El & Sl). exists l. rewrite El, Hm. auto.
  - exists []. rewrite app_nil_r. split; [exact Hm|apply subseq_nil_any].
Qed.

Lemma saves_bind {A B : Type} (m : M A) (k : A -> M B) N1 N2 :
  saves N1 m -> (forall a, saves N2 (k a)) -> saves (N1 ++ N2) (bind m k).
Proof.
  intros Hm Hk st. unfold bind. destruct (Hm st) as (l1 & E1 & S1).
  destruct (m st) as [[a|e] st1]; simpl in *.
  - destruct (Hk a st1) as (l2 & E2 & S2). exists (l1 ++ l2)%list.
    rewrite E2, E1, app_assoc. split; [reflexivity|].
    apply subseq_app; assumption.
  - exists l1. split; [exact E1|].
    rewrite <- (app_nil_r l1). apply subseq_app; [exact S1|apply subseq_nil_any].
Qed.

Lemma saves_for_each (g : string -> string) body l :
  (forall x, saves [g x] (body x)) -> saves (map g l) (for_each body l).
Proof.
  intros Hb. induction l as [|x l IH]; simpl.
  - apply quiet_saves, quiet_ret.
  - apply (saves_bind (body x) (fun _ => for_each body l) [g x] (map g l)).
    + apply Hb.
    + intros _. exact IH.
Qed.

Ltac hush :=
  repeat first
    [ apply quiet_ret | apply quiet_get | apply quiet_call | apply quiet_lift
    | apply quiet_assign | apply quiet_try
    | apply quiet_bind; [|intros ?]
    | match goal with
      | |- quiet (if ?b then _ else _) => destruct b
      end ].

Lemma plot_seasonal_trends_saves a b :
  saves ["figures/seasonal_trends.png"] (plot_seasonal_trends call_error a b).
Proof.
  unfold plot_seasonal_trends.
  apply saves_after_quiet; [apply quiet_get|]. intros df.
  destruct (negb (has_column df a)); [apply quiet_saves, quiet_ret|].
  apply saves_after_quiet; [apply quiet_call|]. intros _.
  apply (saves_save "seasonal_trends.png").
Qed.

Lemma plot_temp_vs_count_saves a b :
  saves ["figures/temp_vs_count.png"] (plot_temp_vs_count call_error a b).
Proof.
  unfold plot_temp_vs_count.
  apply saves_after_quiet; [apply quiet_get|]. intros df.
  destruct (negb (has_column df a)); [apply quiet_saves, quiet_ret|].
  apply saves_after_quiet; [apply quiet_call|]. intros _.
  apply saves_after_quiet; [apply quiet_try; apply quiet_call|]. intros _.
  apply (saves_save "temp_vs_count.png").
Qed.

Lemma plot_hourly_pattern_saves a b :
  saves ["figures/hourly_pattern.png"]
        (plot_hourly_pattern timestamp_of_scalar call_error a b).
Proof.
  unfold plot_hourly_pattern.
  apply saves_after_quiet; [apply quiet_get|]. intros df.
  apply saves_after_quiet; [hush|]. intros [|].
  - apply saves_after_quiet; [apply quiet_call|]. intros _.
    apply saves_after_quiet; [apply quiet_call|]. intros _.
    apply (saves_save "hourly_pattern.png").
  - apply quiet_saves, quiet_ret.
Qed.

Lemma plot_category_counts_saves cat :
  saves ["figures/" ++ cat ++ "_distribution.png"]
        (plot_category_counts call_error cat).
Proof.
  unfold plot_category_counts.
  apply saves_after_quiet; [apply quiet_get|]. intros df.
  destruct (negb (has_column df cat)); [apply quiet_saves, quiet_ret|].
  apply saves_after_quiet; [apply quiet_call|]. intros _.
  apply saves_after_quiet; [apply quiet_call|]. intros _.
  apply (saves_save (cat ++ "_distribution.png")).
Qed.

Lemma plot_registered_vs_casual_saves a b :
  saves ["figures/registered_vs_casual.png";
         "figures/registered_vs_casual_timeseries.png"]
        (plot_registered_vs_casual call_error a b).
Proof.
  unfold plot_registered_vs_casual.
  apply saves_after_quiet; [apply quiet_get|]. intros df.
  destruct (has_column df a && has_column df b); [|apply quiet_saves, quiet_ret].
  apply saves_after_quiet; [apply quiet_call|]. intros _.
  apply saves_after_quiet; [apply quiet_call|]. intros _.
  apply saves_after_quiet; [apply quiet_call|]. intros _.
  apply (saves_bind (_save "registered_vs_casual.png") _
           ["figures/registered_vs_casual.png"]
           ["figures/registered_vs_casual_timeseries.png"]).
  - apply (saves_save "registered_vs_casual.png").
  - intros _. apply saves_after_quiet; [apply quiet_get|]. intros df'.
    destruct (has_column df' "date"); [|apply quiet_saves, quiet_ret].
    apply saves_after_quiet; [apply quiet_call|]. intros _.
    apply saves_after_quiet; [apply quiet_call|]. intros _.
    apply saves_after_quiet; [apply quiet_call|]. intros _.
    apply (saves_save "registered_vs_casual_timeseries.png").
Qed.

Lemma plot_correlation_heatmap_saves :
  saves ["figures/correlation_heatmap.png"] (plot_correlation_heatmap call_error).
Proof.
  unfold plot_correlation_heatmap.
  apply saves_after_quiet; [apply quiet_get|]. intros df.
  destruct (List.length (select_numeric df) <? 2)%nat;
    [apply quiet_saves, quiet_ret|].
  apply saves_after_quiet; [apply quiet_call|]. intros _.
  apply saves_after_quiet; [apply quiet_call|]. intros _.
  apply (saves_save "correlation_heatmap.png").
Qed.

Lemma render_all_saves :
  saves all_figures (render_all timestamp_of_scalar call_error).
Proof.
  unfold render_all.
  apply (saves_bind _ _ ["figures/seasonal_trends.png"] _
           (plot_seasonal_trends_saves _ _)). intros _.
  apply (saves_bind _ _ ["figures/temp_vs_count.png"] _
           (plot_temp_vs_count_saves _ _)). intros _.
  apply (saves_bind _ _ ["figures/hourly_pattern.png"] _
           (plot_hourly_pattern_saves _ _)). intros _.
  apply (saves_bind _ _
           (map (fun cat => "figures/" ++ cat ++ "_distribution.png") category_plots)
           ["figures/registered_vs_casual.png";
            "figures/registered_vs_casual_timeseries.png";
            "figures/correlation_heatmap.png"]).
  - apply (saves_for_each (fun cat => "figures/" ++ cat ++ "_distribution.png")).
    intros cat. apply saves_after_quiet; [apply quiet_get|]. intros df.
    destruct (has_column df cat);
      [apply plot_category_counts_saves|apply quiet_saves, quiet_ret].
  - intros _.
    apply (saves_bind _ _
             ["figures/registered_vs_casual.png";
              "figures/registered_vs_casual_timeseries.png"]
             ["figures/correlation_heatmap.png"]
             (plot_registered_vs_casual_saves _ _)).
    intros _. apply plot_correlation_heatmap_saves.
Qed.

End Figures.

(** X11. Whatever the artifact holds and whichever library calls raise,
    [generate_all] saves only files from the fixed list of ten figures
    under the figures directory, each at most once and in the order of
    that list; it never writes another file. *)
Theorem generate_all_saves_known_figures
        (read_file : string -> option Csv)
        (timestamp_of_scalar : Cell -> option Timestamp)
        (call_error : Plots.Call -> DataFrame -> option Exn) input r st :
  Plots.generate_all read_file timestamp_of_scalar call_error input = Ok (r, st) ->
  subseq (Plots.figures st) all_figures.
Proof.
  unfold Plots.generate_all. intros H.
  destruct (Plots.load_processed read_file timestamp_of_scalar input) as [df|];
    simpl in H; [|discriminate].
  inversion H as [H'].
  destruct (render_all_saves timestamp_of_scalar call_error (Plots.MkState df []))
    as (l & El & Sl).
  rewrite H' in El. simpl in El. rewrite El. exact Sl.
Qed.

Lemma generate_all_saves_known_figures_witness :
  subseq ["figures/hourly_pattern.png"; "figures/correlation_heatmap.png"]
         all_figures.
Proof.
  exact (generate_all_saves_known_figures hourless_files sample_clock always_draws
           "data/processed_yulu_data.csv" _ _ eq_refl).
Defined.

(** ** What the renderers do when a library call raises, and when none does *)

Section Rendering.

Import Plots.

Variable timestamp_of_scalar : Cell -> option Timestamp.
Variable call_error : Call -> DataFrame -> option Exn.

Ltac run :=
  cbv beta iota delta [bind get_frame ret _save call lift assign try_except
                       frame figures for_each category_plots].

(** X12. The fitted trend line falls back: when the table has the
    temperature column and the scatter plot is drawn, an exception from
    the smoothed trend line is caught and the straight one is tried; if
    that is drawn the figure is saved and the renderer returns, and if
    that raises too, its exception (not the first one) is raised and no
    figure is saved.  The table is left alone either way. *)
Theorem trend_line_falls_back st e :
  has_column (frame st) "temp" = true ->
  call_error (Scatterplot "temp" "count") (frame st) = None ->
  call_error (Regplot "temp" "count" true) (frame st) = Some e ->
  plot_temp_vs_count call_error "temp" "count" st
  = match call_error (Regplot "temp" "count" false) (frame st) with
    | None =>
        (Ok tt, MkState (frame st) (figures st ++ ["figures/temp_vs_count.png"])%list)
    | Some e' => (Raise e', st)
    end.
Proof.
  destruct st as [df figs]. cbn [frame figures]. intros Hc Hs Hl.
  unfold plot_temp_vs_count. run. rewrite Hc. cbn [negb]. run.
  rewrite Hs. run. rewrite Hl. run.
  destruct (call_error (Regplot "temp" "count" false) df); reflexivity.
Qed.

(** X13. A renderer that raises ends the run: when the table has a season
    label and the box plot raises, the renderers raise that exception at
    once; no figure is saved and no later renderer is tried, whatever
    they could have drawn. *)
Theorem failed_chart_ends_the_run st e :
  has_column (frame st) "season_label" = true ->
  call_error (Boxplot "season_label" "count") (frame st) = Some e ->
  render_all timestamp_of_scalar call_error st = (Raise e, st).
Proof.
  destruct st as [df figs]. cbn [frame figures]. intros Hc He.
  unfold render_all, plot_seasonal_trends. run. rewrite Hc. cbn [negb]. run.
  rewrite He. reflexivity.
Qed.

Hypothesis Draws : forall c df, call_error c df = None.

Lemma call_returns c st : call call_error c st = (Ok tt, st).
Proof. unfold call. rewrite Draws. reflexivity. Qed.

Ltac walk :=
  cbv beta iota delta [bind get_frame ret _save lift assign try_except
                       for_each category_plots];
  cbn [frame figures negb andb].

(** The renderers on a table that has every column they look for, when
    no library call raises. *)
Lemma render_all_draws st :
  (forall c, In c ["season_label"; "temp"; "hour"; "temp_category";
                   "atemp_category"; "humidity_category"; "windspeed_category";
                   "registered"; "casual"; "date"] ->
     has_column (frame st) c = true) ->
  (2 <= List.length (select_numeric (frame st)))%nat ->
  render_all timestamp_of_scalar call_error st
  = (Ok tt, MkState (frame st) (figures st ++ all_figures)%list).
Proof.
  destruct st as [df figs]. cbn [frame figures]. intros Hc Hn.
  assert (Hlt : (List.length (select_numeric df) <? 2)%nat = false)
    by (apply Nat.ltb_ge; exact Hn).
  assert (H1 := Hc "season_label" ltac:(simpl; tauto)).
  assert (H2 := Hc "temp" ltac:(simpl; tauto)).
  assert (H3 := Hc "hour" ltac:(simpl; tauto)).
  assert (H4 := Hc "temp_category" ltac:(simpl; tauto)).
  assert (H5 := Hc "atemp_category" ltac:(simpl; tauto)).
  assert (H6 := Hc "humidity_category" ltac:(simpl; tauto)).
  assert (H7 := Hc "windspeed_category" ltac:(simpl; tauto)).
  assert (H8 := Hc "registered" ltac:(simpl; tauto)).
  assert (H9 := Hc "casual" ltac:(simpl; tauto)).
  assert (H10 := Hc "date" ltac:(simpl; tauto)).
  clear Hc.
  unfold render_all, plot_seasonal_trends, plot_temp_vs_count,
    plot_hourly_pattern, plot_category_counts, plot_registered_vs_casual,
    plot_correlation_heatmap.
  repeat progress
    (walk;
     rewrite ?call_returns, ?H1, ?H2, ?H3, ?H4, ?H5, ?H6, ?H7, ?H8, ?H9, ?H10, ?Hlt).
  rewrite <- !app_assoc. reflexivity.
Qed.

End Rendering.

Lemma trend_line_falls_back_witness :
  Plots.plot_temp_vs_count no_lowess "temp" "count" (Plots.MkState warm_frame [])
  = match no_lowess (Plots.Regplot "temp" "count" false) warm_frame with
    | None => (Ok tt, Plots.MkState warm_frame ([] ++ ["figures/temp_vs_count.png"])%list)
    | Some e' => (Raise e', Plots.MkState warm_frame [])
    end.
Proof.
  exact (trend_line_falls_back no_lowess (Plots.MkState warm_frame []) OSError
           eq_refl eq_refl eq_refl).
Defined.

Lemma failed_chart_ends_the_run_witness :
  Plots.render_all sample_clock no_boxplot (Plots.MkState warm_frame [])
  = (Raise ValueError, Plots.MkState warm_frame []).
Proof.
  exact (failed_chart_ends_the_run sample_clock no_boxplot
           (Plots.MkState warm_frame []) ValueError eq_refl eq_refl).
Defined.

(** ** Quantile bins: every reading gets a label *)

Lemma insert_sorted_In x l y :
  In y (insert_sorted x l) <-> y = x \/ In y l.
Proof.
  induction l as [|z l IH]; simpl.
  - intuition.
  - destruct (Qle_bool x z); simpl; [intuition|].
    rewrite IH. intuition.
Qed.

Lemma insert_sorted_ascending x l :
  ascending l -> ascending (insert_sorted x l).
Proof.
  induction l as [|z l IH]; simpl; intros H.
  - split; [intros y []|exact I].
  - destruct H as [Hz Hl]. destruct (Qle_bool x z) eqn:E; simpl.
    + apply Qle_bool_iff in E. split; [|split; assumption].
      intros y [<-|Hy]; [exact E|].
      apply (Qle_trans _ z); [exact E|apply Hz; exact Hy].
    + apply Qle_bool_false in E. split; [|apply IH; exact Hl].
      intros y Hy. apply insert_sorted_In in Hy. destruct Hy as [->|Hy].
      * apply Qlt_le_weak. apply Qnot_le_lt. exact E.
      * apply Hz. exact Hy.
Qed.

Lemma sort_In l y : In y (sort l) <-> In y l.
Proof.
  unfold sort. induction l as [|x l IH]; simpl; [tauto|].
  rewrite insert_sorted_In, IH. intuition.
Qed.

Lemma sort_ascending l : ascending (sort l).
Proof.
  unfold sort. induction l as [|x l IH]; simpl; [exact I|].
  apply insert_sorted_ascending. exact IH.
Qed.

Lemma ascending_first l y : ascending l -> In y l -> (nth 0 l 0 <= y)%Q.
Proof.
  destruct l as [|x l]; simpl; [intros _ []|].
  intros [H _] [<-|Hy]; [apply Qle_refl|apply H; exact Hy].
Qed.

Lemma ascending_last l : forall y,
  ascending l -> In y l -> (y <= nth (List.length l - 1) l 0)%Q.
Proof.
  induction l as [|x l IH]; [intros y _ []|].
  intros y [Hx Hl] Hy. cbn [List.length]. rewrite Nat.sub_succ, Nat.sub_0_r.
  destruct l as [|z l].
  - destruct Hy as [<-|[]]. apply Qle_refl.
  - change (nth (List.length (z :: l)) (x :: z :: l) 0)
      with (nth (List.length l) (z :: l) 0).
    assert (K : forall y', In y' (z :: l) ->
                  (y' <= nth (List.length l) (z :: l) 0)%Q).
    { intros y' Hy'. specialize (IH y' Hl Hy').
      cbn [List.length] in IH. rewrite Nat.sub_succ, Nat.sub_0_r in IH.
      exact IH. }
    destruct Hy as [<-|Hy]; [|apply K; exact Hy].
    apply Hx. apply (nth_In (z :: l)). cbn [List.length]. lia.
Qed.

Lemma quantile_lowest s q : quantile s 0 q = nth 0 s 0.
Proof.
  unfold quantile. cbn [Nat.mul].
  destruct q as [|q]; [reflexivity|].
  rewrite Nat.Div0.div_0_l, Nat.Div0.mod_0_l. reflexivity.
Qed.

Lemma quantile_highest s q :
  (1 <= q)%nat -> quantile s q q = nth (List.length s - 1) s 0.
Proof.
  intros Hq. unfold quantile.
  rewrite Nat.mul_comm, Nat.div_mul, Nat.Div0.mod_mul by lia. reflexivity.
Qed.

(** With the first edge below [x] and the last one not, the number of
    edges below [x] names a bin. *)
Lemma count_between (f : Q -> bool) e0 mid en :
  f e0 = true -> f en = false ->
  (1 <= List.length (filter f (e0 :: mid ++ [en]))
   <= List.length mid + 1)%nat.
Proof.
  intros H0 Hn. cbn [filter]. rewrite H0, filter_app. cbn [filter].
  rewrite Hn, app_nil_r. cbn [List.length].
  pose proof (filter_length_le f mid). lia.
Qed.

Lemma qcut_labels_numbers s q labels cats :
  (1 <= q)%nat -> List.length labels = q ->
  qcut s q labels = Ok cats ->
  exists bins,
    cats = map (bin_label true bins labels) s
    /\ forall x, In (Num x) s ->
         exists lab, In lab labels /\ bin_label true bins labels (Num x) = Str lab.
Proof.
  intros Hq Hl H. unfold qcut in H.
  destruct (numeric_values s) as [l|] eqn:El; simpl in H; [|discriminate].
  destruct (has_infinite s); [discriminate|].
  destruct (quantile_edges l q) as [bins|] eqn:Eb; [|discriminate].
  destruct (has_duplicates bins && negb (List.length bins =? 2)%nat);
    [discriminate|].
  inversion H; subst cats; clear H.
  exists bins. split; [reflexivity|].
  intros x Hx.
  assert (Hin : In x l).
  { clear - El Hx. revert l El.
    induction s as [|c s IH]; intros l El; [destruct Hx|].
    simpl in El. destruct Hx as [->|Hx].
    - destruct (numeric_values s); simpl in El; [|discriminate].
      inversion El. left. reflexivity.
    - destruct c; try discriminate; try (apply IH; assumption).
      destruct (numeric_values s) as [l'|]; simpl in El; [|discriminate].
      inversion El. right. apply IH; [exact Hx|reflexivity]. }
  unfold quantile_edges in Eb.
  destruct l as [|x0 l0] eqn:L; [destruct Hin|]. rewrite <- L in *.
  injection Eb as Hb.
  destruct q as [|q']; [lia|].
  assert (Shape : bins = quantile (sort l) 0 (S q')
                         :: map (fun i => quantile (sort l) i (S q')) (seq 1 q')
                         ++ [quantile (sort l) (S q') (S q')]).
  { rewrite <- Hb.
    rewrite seq_S, map_app. reflexivity. }
  pose proof (sort_ascending l) as Asc.
  assert (Hs : In x (sort l)) by (apply sort_In; exact Hin).
  pose proof (ascending_first _ _ Asc Hs) as Lo.
  pose proof (ascending_last _ _ Asc Hs) as Hi.
  rewrite <- quantile_lowest with (q := S q') in Lo.
  rewrite <- quantile_highest with (q := S q') in Hi by lia.
  set (e0 := quantile (sort l) 0 (S q')) in *.
  set (en := quantile (sort l) (S q') (S q')) in *.
  set (mid := map (fun i => quantile (sort l) i (S q')) (seq 1 q')) in *.
  assert (Lm : List.length mid = q')
    by (unfold mid; rewrite length_map, length_seq; reflexivity).
  assert (Lb : List.length bins = S (S q'))
    by (rewrite Shape; cbn [List.length]; rewrite length_app, Lm; simpl; lia).
  set (ids := if true && Qeq_bool x (hd 0 bins) then 1%nat
              else searchsorted_left bins x).
  assert (B : (1 <= ids <= S q')%nat).
  { unfold ids. rewrite Shape. cbn [hd andb].
    destruct (Qeq_bool x e0) eqn:E0; [lia|].
    assert (F0 : negb (Qle_bool x e0) = true).
    { destruct (Qle_bool x e0) eqn:E; [|reflexivity].
      apply Qle_bool_iff in E.
      assert (X : (x == e0)%Q) by (apply Qle_antisym; assumption).
      apply Qeq_bool_iff in X. congruence. }
    assert (Fn : negb (Qle_bool x en) = false).
    { apply Qle_bool_iff in Hi. rewrite Hi. reflexivity. }
    unfold searchsorted_left.
    pose proof (count_between (fun b => negb (Qle_bool x b)) e0 mid en F0 Fn) as C.
    lia. }
  exists (nth (ids - 1) labels EmptyString). split; [apply nth_In; lia|].
  change (bin_label true bins labels (Num x))
    with (if (ids =? 0)%nat || (ids =? List.length bins)%nat then NaN
          else Str (nth (ids - 1) labels EmptyString)).
  rewrite Lb.
  destruct (ids =? 0)%nat eqn:Z; [apply Nat.eqb_eq in Z; lia|].
  destruct (ids =? S (S q'))%nat eqn:Z2; [apply Nat.eqb_eq in Z2; lia|].
  reflexivity.
Qed.

(** X15. When [feature_engineering] returns from a table with distinct
    column names that has a temp column and no temp_category column, the
    temp_category column of the result gives every numeric reading one of
    the four labels cold, mild, warm, hot, and a missing reading no
    label: no reading is left without its quartile. *)
Theorem temp_category_labels_every_reading df df' s :
  NoDup (columns df) ->
  feature_engineering df = Ok df' ->
  getitem df "temp" = Ok s ->
  has_column df "temp_category" = false ->
  exists cats,
    getitem df' "temp_category" = Ok cats
    /\ List.length cats = List.length s
    /\ forall i c, nth_error s i = Some c ->
         match c with
         | Num _ => exists lab, In lab temp_labels
                                /\ nth_error cats i = Some (Str lab)
         | _ => nth_error cats i = Some NaN
         end.
Proof.
  intros U H Hs Hno. apply feature_engineering_steps in H.
  destruct H as (d1 & d2 & d3 & d4 & d5 & d6 & d7
                 & H1 & H2 & H3 & H4 & H5 & H6 & H7 & H8).
  assert (St : select d4 "temp" = select df "temp").
  { carry H4. carry H3. carry H2. carry H1. reflexivity. }
  assert (Sc : select d4 "temp_category" = select df "temp_category").
  { carry H4. carry H3. carry H2. carry H1. reflexivity. }
  assert (Hs4 : getitem d4 "temp" = Ok s).
  { apply getitem_select. rewrite St. apply getitem_select. exact Hs. }
  unfold add_temp_category in H5.
  rewrite (getitem_has_column _ _ _ Hs4), (has_column_same _ _ _ Sc), Hno, Hs4 in H5.
  simpl in H5.
  destruct (qcut s 4 temp_labels) as [cats|] eqn:Eq; simpl in H5; [|discriminate].
  inversion H5; subst d5; clear H5.
  destruct (qcut_labels_numbers s 4 temp_labels cats ltac:(lia) eq_refl Eq)
    as (bins & Ec & Hlab).
  exists cats. split; [|split].
  - apply getitem_select. carry H8. carry H7. carry H6.
    apply select_setitem_same. rewrite Sc.
    apply has_column_select in Hno. rewrite Hno. simpl. lia.
  - rewrite Ec. apply length_map.
  - intros i c Hc. rewrite Ec, nth_error_map, Hc. cbn [option_map].
    destruct c as [| |x| | | |]; try reflexivity.
    destruct (Hlab x (nth_error_In _ _ Hc)) as (lab & Hin & El).
    exists lab. split; [exact Hin|]. rewrite El. reflexivity.
Qed.

Lemma spread_table_unique : NoDup (columns spread_table).
Proof. repeat constructor; simpl; intuition discriminate. Defined.

Lemma temp_category_labels_every_reading_witness :
  exists cats,
    getitem (spread_table
             ++ [("temp_category",
                  [Str "cold"; Str "cold"; NaN; Str "mild"; Str "warm"; Str "hot"])])%list
            "temp_category" = Ok cats
    /\ List.length cats = List.length [Num 3; Num 9; NaN; Num 14; Num 20; Num 27]
    /\ forall i c,
         nth_error [Num 3; Num 9; NaN; Num 14; Num 20; Num 27] i = Some c ->
         match c with
         | Num _ => exists lab, In lab temp_labels
                                /\ nth_error cats i = Some (Str lab)
         | _ => nth_error cats i = Some NaN
         end.
Proof.
  exact (temp_category_labels_every_reading spread_table _
           [Num 3; Num 9; NaN; Num 14; Num 20; Num 27]
           spread_table_unique eq_refl eq_refl eq_refl).
Defined.

(** ** The table [generate_all] hands to the renderers *)

Lemma has_column_setitem_other df c c' s :
  c <> c' -> has_column (setitem df c s) c' = has_column df c'.
Proof.
  intros H. apply has_column_same. apply select_setitem_other. exact H.
Qed.

Lemma loaded_table_columns
        (read_file : string -> option Csv)
        (timestamp_of_scalar : Cell -> option Timestamp)
        (call_error : Plots.Call -> DataFrame -> option Exn) input r st :
  Plots.generate_all read_file timestamp_of_scalar call_error input = Ok (r, st) ->
  exists csv df,
    read_file input = Some csv
    /\ In "datetime" (map fst csv)
    /\ Plots.load_processed read_file timestamp_of_scalar input = Ok df
    /\ has_column df "datetime" = true
    /\ has_column df "date" = true.
Proof.
  unfold Plots.generate_all. intros H.
  destruct (Plots.load_processed read_file timestamp_of_scalar input) as [df|] eqn:E;
    simpl in H; [|discriminate].
  clear H. unfold Plots.load_processed in E.
  destruct (read_file input) as [csv|]; [|discriminate].
  exists csv, df. split; [reflexivity|].
  unfold read_csv_parse_dates in E.
  destruct (existsb (String.eqb "datetime") (map fst csv)) eqn:Hh;
    [|discriminate].
  assert (Hin : In "datetime" (map fst csv)).
  { apply existsb_exists in Hh. destruct Hh as (x & Hx & Ex).
    apply String.eqb_eq in Ex. subst x. exact Hx. }
  split; [exact Hin|]. split; [reflexivity|].
  cbn [Py.bind] in E.
  match type of E with
  | context [has_column ?t "date"] => set (df0 := t) in *
  end.
  assert (Hd0 : has_column df0 "datetime" = true).
  { unfold has_column, columns, df0. rewrite map_map. cbn [fst]. exact Hh. }
  rewrite Hd0 in E.
  destruct (has_column df0 "date") eqn:Hdate; cbn [negb andb] in E.
  - inversion E; subst df. split; assumption.
  - unfold Py.bind in E. split_binds E. inversion E; subst df. split.
    + rewrite has_column_setitem_other by discriminate. exact Hd0.
    + apply has_column_setitem_same.
Qed.

(** X16. [generate_all] gets as far as the renderers only if the artifact
    exists and its header has a datetime column, and the table it then
    hands to them always has both a datetime and a date column (the date
    column is rebuilt when the artifact lacks it). *)
Theorem report_table_has_datetime_and_date
        (read_file : string -> option Csv)
        (timestamp_of_scalar : Cell -> option Timestamp)
        (call_error : Plots.Call -> DataFrame -> option Exn) input r st :
  Plots.generate_all read_file timestamp_of_scalar call_error input = Ok (r, st) ->
  exists csv df,
    read_file input = Some csv
    /\ In "datetime" (map fst csv)
    /\ Plots.load_processed read_file timestamp_of_scalar input = Ok df
    /\ has_column df "datetime" = true
    /\ has_column df "date" = true.
Proof.
  exact (loaded_table_columns read_file timestamp_of_scalar call_error input r st).
Qed.

Lemma report_table_has_datetime_and_date_witness :
  exists csv df,
    hourless_files "data/processed_yulu_data.csv" = Some csv
    /\ In "datetime" (map fst csv)
    /\ Plots.load_processed hourless_files sample_clock
         "data/processed_yulu_data.csv" = Ok df
    /\ has_column df "datetime" = true
    /\ has_column df "date" = true.
Proof.
  exact (report_table_has_datetime_and_date hourless_files sample_clock always_draws
           "data/processed_yulu_data.csv" _ _ eq_refl).
Defined.

(** ** The report generator on an artifact the pipeline wrote *)

Section PipelineThenReport.

Variable read_csv : string -> result DataFrame.
Variable path_exists : string -> bool.
Variable numeric_of_scalar : Cell -> option Number.
Variable timestamp_of_scalar : Cell -> option Timestamp.
Variable read_file : string -> option Csv.
Variable call_error : Plots.Call -> DataFrame -> option Exn.


End PipelineThenReport.

Lemma new_year_clean_names : NoDup (map clean_name (columns new_year_raw)).
Proof. repeat constructor; simpl; intuition discriminate. Defined.


(** ** A full report *)

(** X14. When no library call raises and the table loaded from the
    artifact has a season label, temp, hour, the four category columns,
    registered, casual and at least two columns of numeric dtype (columns
    with at least one row that hold numbers and gaps only),
    [generate_all] returns, hands back the loaded table as it was, and
    has saved exactly the ten figures, in the fixed order. *)
Theorem all_ten_figures_saved
        (read_file : string -> option Csv)
        (timestamp_of_scalar : Cell -> option Timestamp)
        (call_error : Plots.Call -> DataFrame -> option Exn) input df :
  (forall c d, call_error c d = None) ->
  Plots.load_processed read_file timestamp_of_scalar input = Ok df ->
  (forall c, In c ["season_label"; "temp"; "hour"; "temp_category";
                   "atemp_category"; "humidity_category"; "windspeed_category";
                   "registered"; "casual"] ->
     has_column df c = true) ->
  (2 <= List.length (select_numeric df))%nat ->
  Plots.generate_all read_file timestamp_of_scalar call_error input
  = Ok (Ok tt, Plots.MkState df all_figures).
Proof.
  intros Draws Hload Hc Hn. unfold Plots.generate_all. rewrite Hload.
  cbn [Py.bind]. f_equal.
  assert (Hdate : has_column df "date" = true).
  { destruct (Plots.render_all timestamp_of_scalar call_error
                (Plots.MkState df [])) as [r st] eqn:Er.
    destruct (loaded_table_columns read_file timestamp_of_scalar call_error
                input r st)
      as (csv & df0 & _ & _ & E & _ & Hd).
    - unfold Plots.generate_all. rewrite Hload. cbn [Py.bind].
      rewrite Er. reflexivity.
    - rewrite Hload in E. inversion E; subst df0. exact Hd. }
  apply (render_all_draws timestamp_of_scalar call_error Draws
           (Plots.MkState df [])).
  - cbn [Plots.frame]. intros c Hin. simpl in Hin.
    destruct Hin as [<-|[<-|[<-|[<-|[<-|[<-|[<-|[<-|[<-|[<-|[]]]]]]]]]]];
      try (apply Hc; simpl; tauto).
    exact Hdate.
  - exact Hn.
Qed.

Lemma full_loaded_columns c :
  In c ["season_label"; "temp"; "hour"; "temp_category";
        "atemp_category"; "humidity_category"; "windspeed_category";
        "registered"; "casual"] ->
  has_column full_loaded c = true.
Proof.
  simpl. intros H.
  repeat (destruct H as [<-|H]; [reflexivity|]). contradiction.
Defined.

Lemma all_ten_figures_saved_witness :
  Plots.generate_all full_files sample_clock always_draws
    "data/processed_yulu_data.csv"
  = Ok (Ok tt, Plots.MkState full_loaded all_figures).
Proof.
  apply (all_ten_figures_saved full_files sample_clock always_draws
           "data/processed_yulu_data.csv" full_loaded (fun _ _ => eq_refl)
           eq_refl).
  - exact full_loaded_columns.
  - vm_compute. lia.
Defined.

(** An artifact with a header and no rows, when no library call raises:
    no column has a numeric dtype, so the heat map is skipped and nine
    figures are saved. *)
Lemma header_only_artifact_skips_heat_map :
  let header := map (fun nf => (fst nf, [])) (to_csv full_frame) in
  Plots.generate_all (fun _ => Some header) sample_clock always_draws
    "data/processed_yulu_data.csv"
  = Ok (Ok tt,
        Plots.MkState (map (fun nv => (fst nv, [])) full_frame)
          (removelast all_figures)).
Proof. reflexivity. Qed.
